(** * ClearHeat: input schema, mock evaluate route and wizard request flow

    A shallow embedding of

    - [frontend/clearheat-web/lib/schema.ts]: the two [clearHeatSchema]
      definitions found there, the [z.coerce] one (module [Coerce]) and the
      [z.preprocess] one with [asNumber] and [bool] (module [Preprocess]);
    - [frontend/clearheat-web/app/api/evaluate/route.ts]: [POST];
    - the two [CalculatorWizard] components ([runModel], [downloadPdf]),
      with their buttons and the requests they leave in flight;
    - the selects of [StepHome.tsx] and [StepHeatPump.tsx].

    The schemas are written with the zod combinators; the combinators are
    embedded here as parsing functions that follow zod 3's [_parse] methods
    (status [valid] / [dirty] / [aborted], issues accumulated in order).
    The repository holds further copies of the schema, built from the same
    combinators with other bounds; the two of schema.ts are the ones the
    route and the wizard import.

    Numbers.  A JavaScript number is NaN, an infinity or a finite double;
    every finite double is a rational, so finite numbers are carried as [Q]
    and compared exactly.  Two [Q] denoting the same rational denote the same
    number ([Qeq]).  The conversion of a string to a number (the built-in
    [Number(s)], with its rounding to the nearest double) belongs to the
    JavaScript runtime and is a field of the class [JsRuntime]; an instance
    reading plain decimal literals is provided for the examples.

    Exceptions and promises.  A parse returns a result or throws; the parsing
    functions give the result, and [Number_throws], [Coerce.throws] tell where
    the code throws instead.  A request settles, with a response or a
    rejection, or stays pending: a handler is given the outcome of its
    request where it is followed to its end, and is cut at its [await] where
    the request is still in flight. *)

From Stdlib Require Import QArith String List Bool Ascii Lia.
Import ListNotations.
Set Warnings "-register-all".
Close Scope Q_scope.
Open Scope string_scope.
Open Scope list_scope.

(** ** JavaScript values *)

Module Js.

Inductive JsNum :=
| NaN
| Infinity (negative : bool)
| Finite (q : Q).

Inductive JsValue :=
| JUndefined
| JNull
| JBool (b : bool)
| JNumber (n : JsNum)
| JString (s : string)
| JArray (items : list JsValue)
| JObject (props : list (string * JsValue)).

(** [a < b] and [a === b] on numbers (IEEE: every comparison with NaN is
    false). *)
Definition num_ltb (a b : JsNum) : bool :=
  match a, b with
  | NaN, _ | _, NaN => false
  | Infinity true, Infinity true => false
  | Infinity true, _ => true
  | _, Infinity true => false
  | Infinity false, _ => false
  | _, Infinity false => true
  | Finite x, Finite y => negb (Qle_bool y x)
  end.

Definition num_eqb (a b : JsNum) : bool :=
  match a, b with
  | Finite x, Finite y => Qeq_bool x y
  | Infinity s, Infinity t => Bool.eqb s t
  | _, _ => false
  end.

(** [Number.isFinite(n)] and [Number.isInteger(n)]. *)
Definition isFinite (n : JsNum) : bool :=
  match n with Finite _ => true | _ => false end.

Definition isInteger (n : JsNum) : bool :=
  match n with
  | Finite q => Pos.eqb (Qden (Qred q)) 1%positive
  | _ => false
  end.

(** White space of [String.prototype.trim] among the code units below 256:
    TAB, LF, VT, FF, CR, SP and NBSP. *)
Definition isWhiteSpace (c : ascii) : bool :=
  let n := nat_of_ascii c in
  (Nat.leb 9 n && Nat.leb n 13) || Nat.eqb n 32 || Nat.eqb n 160.

Fixpoint trimStart (s : string) : string :=
  match s with
  | String c r => if isWhiteSpace c then trimStart r else s
  | EmptyString => EmptyString
  end.

Fixpoint trimEnd (s : string) : string :=
  match s with
  | String c r =>
      match trimEnd r with
      | EmptyString => if isWhiteSpace c then EmptyString else String c EmptyString
      | r' => String c r'
      end
  | EmptyString => EmptyString
  end.

Definition trim (s : string) : string := trimEnd (trimStart s).

(** The part of the runtime that is not modelled bit by bit: [Number(s)] on a
    string.  The one law used is that a string of white space only converts
    to [0]. *)
Class JsRuntime := {
  StringToNumber : string -> JsNum;
  StringToNumber_blank : forall s, trim s = "" -> StringToNumber s = Finite 0%Q
}.

(** [Number(v)], where it returns.  An array converts through its
    [join(",")]: the empty array and [[null]] give the empty string, a
    one-element array converts as its element's string, and a string with a
    comma is not a numeric literal.  A plain object converts through
    ["[object Object]"].  On the values of [Number_throws], below, [Number(v)]
    throws and returns nothing; what is given for them here is what an object
    without a [toString] of its own gives. *)
Fixpoint ToNumber `{JsRuntime} (v : JsValue) : JsNum :=
  match v with
  | JUndefined => NaN
  | JNull => Finite 0%Q
  | JBool true => Finite 1%Q
  | JBool false => Finite 0%Q
  | JNumber n => n
  | JString s => StringToNumber s
  | JArray [] => Finite 0%Q
  | JArray [x] =>
      match x with
      | JUndefined | JNull => Finite 0%Q
      | JBool _ | JObject _ => NaN
      | _ => ToNumber x
      end
  | JArray _ => NaN
  | JObject _ => NaN
  end.

(** [Boolean(v)]. *)
Definition ToBoolean (v : JsValue) : bool :=
  match v with
  | JUndefined | JNull => false
  | JBool b => b
  | JNumber NaN => false
  | JNumber (Finite q) => negb (Qeq_bool q 0%Q)
  | JNumber (Infinity _) => true
  | JString s => negb (s =? "")
  | JArray _ | JObject _ => true
  end.

(** [v === w] where [w] is a string or a number literal, [v == null]. *)
Definition strict_eq_string (v : JsValue) (w : string) : bool :=
  match v with JString s => s =? w | _ => false end.

Definition strict_eq_number (v : JsValue) (w : Q) : bool :=
  match v with JNumber n => num_eqb n (Finite w) | _ => false end.

Definition is_nullish (v : JsValue) : bool :=
  match v with JUndefined | JNull => true | _ => false end.

(** Property access [o[k]] and [k in o] on a plain object. *)
Fixpoint lookup (props : list (string * JsValue)) (k : string) : option JsValue :=
  match props with
  | [] => None
  | (k', v) :: rest => if k' =? k then Some v else lookup rest k
  end.

Definition get (o : JsValue) (k : string) : JsValue :=
  match o with
  | JObject props => match lookup props k with Some v => v | None => JUndefined end
  | _ => JUndefined
  end.

Definition has (o : JsValue) (k : string) : bool :=
  match o with
  | JObject props => match lookup props k with Some _ => true | None => false end
  | _ => false
  end.

(** Where [Number(v)] throws a TypeError instead of returning.  An object is
    converted to a primitive by calling its [valueOf], which gives the object
    back, and then its [toString].  A property of an object of data (read by
    [JSON.parse], or a form value) is never callable: an object with a
    [toString] of its own hides [Object.prototype.toString] and is left with
    no method giving a primitive.  An array converts through [join], which
    converts every item but [null] and [undefined] to a string, and throws
    where one of them does. *)
Fixpoint Number_throws (v : JsValue) : bool :=
  match v with
  | JObject props => match lookup props "toString" with Some _ => true | None => false end
  | JArray items => existsb Number_throws items
  | _ => false
  end.

End Js.
Import Js.

(** ** The zod combinators used by the schemas

    Each schema is a parsing function from a path and a raw value to a status,
    a value and the issues raised, as zod 3's [_parse]: [aborted] when the
    value has the wrong type (zod's [INVALID], no value), [dirty] when it has
    the right type but a check failed, [valid] otherwise. *)

Module Zod.

Inductive ZodParsedType :=
| t_string | t_nan | t_number | t_integer | t_float | t_boolean
| t_undefined | t_null | t_array | t_object
| t_oneof (values : list string).

Definition getParsedType (data : JsValue) : ZodParsedType :=
  match data with
  | JUndefined => t_undefined
  | JNull => t_null
  | JBool _ => t_boolean
  | JNumber NaN => t_nan
  | JNumber _ => t_number
  | JString _ => t_string
  | JArray _ => t_array
  | JObject _ => t_object
  end.

(** The issue codes raised by these schemas, with the data zod's error map
    renders the message from: the bound of [too_small] / [too_big], the
    message text of a [custom] issue. *)
Inductive ZodIssueCode :=
| invalid_type (expected received : ZodParsedType)
| invalid_enum_value (options : list string) (received : string)
| too_small (minimum : Q) (inclusive : bool)
| too_big (maximum : Q) (inclusive : bool)
| custom (message : string).

Record ZodIssue := mkIssue { code : ZodIssueCode; path : list string }.

Inductive ParseStatus := valid | dirty | aborted.

Record ParseReturn := mkReturn {
  status : ParseStatus;
  value : JsValue;
  issues : list ZodIssue
}.

Definition ZodType := list string -> JsValue -> ParseReturn.

Definition OK (v : JsValue) : ParseReturn := mkReturn valid v [].
Definition INVALID (iss : list ZodIssue) : ParseReturn := mkReturn aborted JUndefined iss.

Definition is_aborted (r : ParseReturn) : bool :=
  match status r with aborted => true | _ => false end.

Definition is_dirty (r : ParseReturn) : bool :=
  match status r with dirty => true | _ => false end.

(** *** [z.enum([...])] *)
Definition z_enum (values : list string) : ZodType := fun path data =>
  match data with
  | JString s =>
      if existsb (String.eqb s) values then OK data
      else INVALID [mkIssue (invalid_enum_value values s) path]
  | _ => INVALID [mkIssue (invalid_type (t_oneof values) (getParsedType data)) path]
  end.

(** *** [z.number()] and [z.coerce.number()] with [.int()], [.min(m)], [.max(m)] *)
Inductive ZodNumberCheck :=
| chk_int
| chk_min (value : Q)
| chk_max (value : Q).

Definition check_issue (n : JsNum) (check : ZodNumberCheck) : list ZodIssueCode :=
  match check with
  | chk_int => if isInteger n then [] else [invalid_type t_integer t_float]
  | chk_min m => if num_ltb n (Finite m) then [too_small m true] else []
  | chk_max m => if num_ltb (Finite m) n then [too_big m true] else []
  end.

Definition ZodNumber_parse (checks : list ZodNumberCheck) : ZodType := fun path data =>
  match data with
  | JNumber NaN => INVALID [mkIssue (invalid_type t_number t_nan) path]
  | JNumber n =>
      let iss := flat_map (fun c => map (fun i => mkIssue i path) (check_issue n c)) checks in
      mkReturn (match iss with [] => valid | _ => dirty end) data iss
  | _ => INVALID [mkIssue (invalid_type t_number (getParsedType data)) path]
  end.

Definition z_number (checks : list ZodNumberCheck) : ZodType :=
  ZodNumber_parse checks.

Definition z_coerce_number `{JsRuntime} (checks : list ZodNumberCheck) : ZodType :=
  fun path data => ZodNumber_parse checks path (JNumber (ToNumber data)).

(** *** [z.boolean()] and [z.coerce.boolean()] *)
Definition z_boolean : ZodType := fun path data =>
  match data with
  | JBool _ => OK data
  | _ => INVALID [mkIssue (invalid_type t_boolean (getParsedType data)) path]
  end.

Definition z_coerce_boolean : ZodType := fun path data =>
  z_boolean path (JBool (ToBoolean data)).

(** *** [.optional()], [.default(d)], [z.preprocess(f, schema)] *)
Definition optional (inner : ZodType) : ZodType := fun path data =>
  match data with
  | JUndefined => OK JUndefined
  | _ => inner path data
  end.

Definition default (inner : ZodType) (d : JsValue) : ZodType := fun path data =>
  match data with
  | JUndefined => inner path d
  | _ => inner path data
  end.

Definition z_preprocess (f : JsValue -> JsValue) (schema : ZodType) : ZodType :=
  fun path data => schema path (f data).

(** *** [z.object({...})]

    Every key of the shape is parsed, in order, whatever the others gave;
    unknown keys are dropped.  The results are merged as [mergeObjectSync]
    does: the object is [aborted] as soon as one key is, [dirty] if one is
    dirty; a key is set in the result when its value is defined or the key
    was in the input. *)
Definition ObjectPair := (string * ParseReturn * bool)%type.

Definition mergeObjectSync (pairs : list ObjectPair) : ParseReturn :=
  let iss := flat_map (fun p => issues (snd (fst p))) pairs in
  if existsb (fun p => is_aborted (snd (fst p))) pairs then INVALID iss
  else
    let finalObject :=
      flat_map (fun p : ObjectPair =>
                  let '(k, r, alwaysSet) := p in
                  if negb (k =? "__proto__")
                     && (negb (match value r with JUndefined => true | _ => false end)
                         || alwaysSet)
                  then [(k, value r)] else []) pairs in
    mkReturn (if existsb (fun p => is_dirty (snd (fst p))) pairs then dirty else valid)
             (JObject finalObject) iss.

Definition z_object (shape : list (string * ZodType)) : ZodType := fun path data =>
  match data with
  | JObject _ =>
      mergeObjectSync
        (map (fun kt : string * ZodType =>
                (fst kt, snd kt (path ++ [fst kt]) (get data (fst kt)), has data (fst kt)))
             shape)
  | _ => INVALID [mkIssue (invalid_type t_object (getParsedType data)) path]
  end.

(** *** [.superRefine((v, ctx) => ...)]

    The refinement is given as the list of issues it adds with
    [ctx.addIssue] ([IssueData]: a path below the refined value, a message).
    It runs on the inner value unless the inner parse is [aborted]. *)
Record IssueData := mkIssueData { data_path : list string; data_message : string }.

Definition superRefine (schema : ZodType) (refinement : JsValue -> list IssueData)
  : ZodType := fun path data =>
  let inner := schema path data in
  match status inner with
  | aborted => INVALID (issues inner)
  | st =>
      let added :=
        map (fun d => mkIssue (custom (data_message d)) (path ++ data_path d))
            (refinement (value inner)) in
      mkReturn (match added with [] => st | _ => dirty end)
               (value inner) (issues inner ++ added)
  end.

(** *** Exceptions

    The parsing functions above give what a parse returns.  One combinator
    can throw instead: [z.coerce.number()] begins with
    [input.data = Number(input.data)], before it raises any issue.  Nothing
    catches the exception: [.optional()] returns on [undefined] before it
    calls its inner schema and [.default(d)] puts [d] in the place of
    [undefined], [z.object] parses its keys one after the other, and
    [superRefine] and [safeParse] call the inner parse first.  Where a parse
    throws is told by a function of the raw value, built as the schema is. *)
Definition Throws := JsValue -> bool.

Definition z_coerce_number_throws : Throws := Number_throws.

Definition optional_throws (inner : Throws) : Throws := fun data =>
  match data with
  | JUndefined => false
  | _ => inner data
  end.

Definition default_throws (inner : Throws) (d : JsValue) : Throws := fun data =>
  match data with
  | JUndefined => inner d
  | _ => inner data
  end.

Definition z_object_throws (shape : list (string * Throws)) : Throws := fun data =>
  match data with
  | JObject _ => existsb (fun kt : string * Throws => snd kt (get data (fst kt))) shape
  | _ => false
  end.

(** *** [schema.safeParse(data)] and [error.flatten()] *)
Inductive SafeParseReturn :=
| success (data : JsValue)
| failure (error : list ZodIssue).

Definition safeParse (schema : ZodType) (data : JsValue) : SafeParseReturn :=
  let result := schema [] data in
  match status result with
  | valid => success (value result)
  | _ => failure (issues result)
  end.

(** A flattened error groups the messages by the first path element.  A
    message is the error map's rendering of the issue code, or the text given
    to [addIssue]; it is carried as the code. *)
Record FlattenedError := mkFlattened {
  formErrors : list ZodIssueCode;
  fieldErrors : list (string * list ZodIssueCode)
}.

Fixpoint push_field (k : string) (m : ZodIssueCode)
         (fe : list (string * list ZodIssueCode)) : list (string * list ZodIssueCode) :=
  match fe with
  | [] => [(k, [m])]
  | (k', ms) :: rest =>
      if k' =? k then (k', ms ++ [m]) :: rest else (k', ms) :: push_field k m rest
  end.

Definition flatten (error : list ZodIssue) : FlattenedError :=
  fold_left
    (fun acc sub =>
       match path sub with
       | [] => mkFlattened (formErrors acc ++ [code sub]) (fieldErrors acc)
       | k :: _ => mkFlattened (formErrors acc) (push_field k (code sub) (fieldErrors acc))
       end)
    error (mkFlattened [] []).

End Zod.
Import Zod.

(** ** lib/schema.ts *)

(** The cross-field rule of [superRefine], the same in both schemas up to
    the message texts. *)
Definition billModeRefinement (msg_fuel msg_spend : string) (v : JsValue)
  : list IssueData :=
  (if strict_eq_string (get v "bill_mode") "annual_fuel_use"
      && is_nullish (get v "annual_fuel_use")
   then [mkIssueData ["annual_fuel_use"] msg_fuel] else [])
  ++
  (if strict_eq_string (get v "bill_mode") "annual_spend"
      && is_nullish (get v "annual_spend_eur")
   then [mkIssueData ["annual_spend_eur"] msg_spend] else []).

(** *** The [z.coerce] schema (schema.ts, first definition) *)
Module Coerce.
Section WithRuntime.
Context `{JsRuntime}.

Definition ber_band := z_enum ["A"; "B"; "C"; "D"; "E"; "F"; "G"].
Definition floor_area_m2 := z_coerce_number [chk_min 20; chk_max 1000].
Definition emitters := z_enum ["radiators"; "ufh"].
Definition heating_pattern := z_enum ["rare"; "normal"; "high"].
Definition wood_use := z_enum ["none"; "some"; "lots"].
Definition occupants := z_coerce_number [chk_int; chk_min 1; chk_max 20].
Definition fuel_type := z_enum ["gas"; "kerosene"].
Definition fuel_price_eur_per_unit := z_coerce_number [chk_min 0; chk_max 5].
Definition electricity_price_eur_per_kwh := z_coerce_number [chk_min 0; chk_max 5].
Definition boiler_efficiency := z_coerce_number [chk_min (1 # 2); chk_max 1].
Definition hp_quote_eur := z_coerce_number [chk_min 0; chk_max 100000].
Definition grant_applied := default z_coerce_boolean (JBool true).
Definition grant_value_eur :=
  default (z_coerce_number [chk_min 0]) (JNumber (Finite 6500)).
Definition bill_mode :=
  default (z_enum ["annual_fuel_use"; "annual_spend"; "none"]) (JString "annual_spend").
Definition annual_fuel_use := optional (z_coerce_number [chk_min 0]).
Definition annual_spend_eur := optional (z_coerce_number [chk_min 0]).

Definition shape : list (string * ZodType) :=
  [ ("ber_band", ber_band);
    ("floor_area_m2", floor_area_m2);
    ("emitters", emitters);
    ("heating_pattern", heating_pattern);
    ("wood_use", wood_use);
    ("occupants", occupants);
    ("fuel_type", fuel_type);
    ("fuel_price_eur_per_unit", fuel_price_eur_per_unit);
    ("electricity_price_eur_per_kwh", electricity_price_eur_per_kwh);
    ("boiler_efficiency", boiler_efficiency);
    ("hp_quote_eur", hp_quote_eur);
    ("grant_applied", grant_applied);
    ("grant_value_eur", grant_value_eur);
    ("bill_mode", bill_mode);
    ("annual_fuel_use", annual_fuel_use);
    ("annual_spend_eur", annual_spend_eur) ].

Definition refinement : JsValue -> list IssueData :=
  billModeRefinement "Required when bill mode is annual fuel use."
                     "Required when bill mode is annual spend.".

Definition clearHeatSchema : ZodType := superRefine (z_object shape) refinement.

End WithRuntime.

(** Where [clearHeatSchema.safeParse] throws: the keys parsed by
    [z.coerce.number()]; [z.enum] and [z.coerce.boolean()] never throw, nor
    does the refinement. *)
Definition throws : Throws :=
  z_object_throws
    [ ("floor_area_m2", z_coerce_number_throws);
      ("occupants", z_coerce_number_throws);
      ("fuel_price_eur_per_unit", z_coerce_number_throws);
      ("electricity_price_eur_per_kwh", z_coerce_number_throws);
      ("boiler_efficiency", z_coerce_number_throws);
      ("hp_quote_eur", z_coerce_number_throws);
      ("grant_value_eur", default_throws z_coerce_number_throws (JNumber (Finite 6500)));
      ("annual_fuel_use", optional_throws z_coerce_number_throws);
      ("annual_spend_eur", optional_throws z_coerce_number_throws) ].

End Coerce.

(** *** The [z.preprocess] schema (schema.ts, second definition) *)
Module Preprocess.
Section WithRuntime.
Context `{JsRuntime}.

Definition asNumber (v : JsValue) : JsValue :=
  match v with
  | JNumber _ => v
  | JString str =>
      let s := trim str in
      if s =? "" then JUndefined
      else
        let n := StringToNumber s in
        if isFinite n then JNumber n else v
  | _ => v
  end.

Definition num (min max : Q) : ZodType :=
  z_preprocess asNumber (z_number [chk_min min; chk_max max]).

Definition numOpt (min max : Q) : ZodType :=
  optional (z_preprocess asNumber (z_number [chk_min min; chk_max max])).

Definition bool_preprocess (v : JsValue) : JsValue :=
  match v with
  | JBool _ => v
  | _ =>
      if strict_eq_string v "true" || strict_eq_string v "on"
         || strict_eq_string v "1" || strict_eq_number v 1
      then JBool true
      else if strict_eq_string v "false" || strict_eq_string v "off"
              || strict_eq_string v "0" || strict_eq_number v 0
              || is_nullish v || strict_eq_string v ""
      then JBool false
      else v
  end.

Definition bool : ZodType := z_preprocess bool_preprocess z_boolean.

(** The literal [0.3] is the double
    [5404319552844595 / 2^54]; the other bounds are exact. *)
Definition double_0_3 : Q := 5404319552844595 # 18014398509481984.

Definition ber_band := z_enum ["A"; "B"; "C"; "D"; "E"; "F"; "G"].
Definition floor_area_m2 := num 20 1000.
Definition emitters := z_enum ["radiators"; "ufh"].
Definition heating_pattern := z_enum ["rare"; "normal"; "high"].
Definition wood_use := z_enum ["none"; "some"; "lots"].
Definition occupants :=
  z_preprocess asNumber (z_number [chk_int; chk_min 1; chk_max 20]).
Definition fuel_type := z_enum ["gas"; "kerosene"].
Definition fuel_price_eur_per_unit := num 0 10.
Definition electricity_price_eur_per_kwh := num 0 10.
Definition boiler_efficiency :=
  z_preprocess asNumber (z_number [chk_min double_0_3; chk_max 1]).
Definition hp_quote_eur := num 0 200000.
Definition grant_applied := bool.
Definition grant_value_eur := num 0 50000.
Definition bill_mode := z_enum ["annual_fuel_use"; "annual_spend"; "none"].
Definition annual_fuel_use := numOpt 0 500000.
Definition annual_spend_eur := numOpt 0 200000.

Definition shape : list (string * ZodType) :=
  [ ("ber_band", ber_band);
    ("floor_area_m2", floor_area_m2);
    ("emitters", emitters);
    ("heating_pattern", heating_pattern);
    ("wood_use", wood_use);
    ("occupants", occupants);
    ("fuel_type", fuel_type);
    ("fuel_price_eur_per_unit", fuel_price_eur_per_unit);
    ("electricity_price_eur_per_kwh", electricity_price_eur_per_kwh);
    ("boiler_efficiency", boiler_efficiency);
    ("hp_quote_eur", hp_quote_eur);
    ("grant_applied", grant_applied);
    ("grant_value_eur", grant_value_eur);
    ("bill_mode", bill_mode);
    ("annual_fuel_use", annual_fuel_use);
    ("annual_spend_eur", annual_spend_eur) ].

Definition refinement : JsValue -> list IssueData :=
  billModeRefinement "Required when bill_mode is annual_fuel_use"
                     "Required when bill_mode is annual_spend".

Definition clearHeatSchema : ZodType := superRefine (z_object shape) refinement.

End WithRuntime.
End Preprocess.

(** ** A runtime for the examples

    [Number(s)] on plain decimal literals: optional sign, digits with an
    optional fraction, [Infinity], white space around.  Exponents and the
    [0x] / [0o] / [0b] forms are not read by this instance (they give NaN
    here); the theorems below hold for every [JsRuntime] and do not depend
    on it. *)
Module DecimalRuntime.

Definition digit_of (c : ascii) : option Z :=
  let n := nat_of_ascii c in
  if Nat.leb 48 n && Nat.leb n 57 then Some (Z.of_nat (n - 48)) else None.

Fixpoint read_digits (s : string) (acc : Z) (count : nat) : Z * nat * string :=
  match s with
  | String c r =>
      match digit_of c with
      | Some d => read_digits r (10 * acc + d)%Z (S count)
      | None => (acc, count, s)
      end
  | EmptyString => (acc, count, s)
  end.

Definition read_unsigned (s : string) : JsNum :=
  if s =? "Infinity" then Infinity false
  else
    let '(ip, ni, rest) := read_digits s 0%Z 0 in
    match rest with
    | EmptyString => if Nat.eqb ni 0 then NaN else Finite (ip # 1)
    | String "."%char rest' =>
        let '(fp, nf, rest'') := read_digits rest' 0%Z 0 in
        match rest'' with
        | EmptyString =>
            if Nat.eqb (ni + nf) 0 then NaN
            else Finite ((ip * 10 ^ Z.of_nat nf + fp)%Z # Z.to_pos (10 ^ Z.of_nat nf))
        | _ => NaN
        end
    | _ => NaN
    end.

Definition negate (n : JsNum) : JsNum :=
  match n with
  | NaN => NaN
  | Infinity s => Infinity (negb s)
  | Finite q => Finite (Qopp q)
  end.

Definition read_trimmed (t : string) : JsNum :=
  match t with
  | EmptyString => Finite 0
  | String "-"%char r => negate (read_unsigned r)
  | String "+"%char r => read_unsigned r
  | _ => read_unsigned t
  end.

Definition decimalStringToNumber (s : string) : JsNum := read_trimmed (trim s).

#[export] Instance decimalRuntime : JsRuntime :=
  {| StringToNumber := decimalStringToNumber;
     StringToNumber_blank := fun s Hs => f_equal read_trimmed Hs |}.

End DecimalRuntime.

(** ** app/api/evaluate/route.ts *)
Module Route.

Inductive ResponseBody :=
| InvalidInput (error : string) (details : FlattenedError)
| MockOutput (verdict : string) (confidence : Q)
             (annual_savings_eur payback_years : Q * Q)
             (assumptions notes : list string) (pdf_url : JsValue).

Record NextResponse := mkResponse { http_status : nat; body : ResponseBody }.

(** [NextResponse.json(body)] answers with status 200 unless told otherwise. *)
Definition NextResponse_json (b : ResponseBody) : NextResponse := mkResponse 200 b.

(** [POST], on the body already read by [req.json()]; the schema is the
    [clearHeatSchema] imported from [@/lib/schema]. *)
Definition POST (clearHeatSchema : ZodType) (json : JsValue) : NextResponse :=
  match safeParse clearHeatSchema json with
  | failure error => mkResponse 400 (InvalidInput "Invalid input" (flatten error))
  | success data =>
      NextResponse_json
        (MockOutput "LIKELY" (78 # 100) (300, 900)%Q (8, 14)%Q
           [ "Electricity price held constant in real terms";
             "Typical seasonal efficiency assumed for system type and emitters";
             "No fabric upgrades included unless stated" ]
           [ if ToBoolean (get data "annual_spend_eur")
             then "Annual spend provided: confidence increased."
             else "Annual spend missing: results rely on typical consumption estimates." ]
           JNull)
  end.

End Route.

(** ** components/clearheat/CalculatorWizard.tsx

    The component state is the four [useState] cells.  An action runs in a
    monad that threads this state, logs the calls made to the outside (state
    setters included, in program order) and may throw.  The outcome of the one
    [fetch] an action performs is given by the caller. *)
Module Wizard.

Record WizardState := mkState {
  step : nat;
  reportReady : bool;
  loading : bool;
  lastInputs : option JsValue
}.

Definition initialState : WizardState := mkState 0 false false None.

Definition Blob := string.

(** What a [catch (e)] clause reads from the thrown value: [e?.message],
    [None] when it is nullish. *)
Definition Thrown := option string.

Inductive Effect :=
| SetStep (n : nat)
| SetLoading (b : bool)
| SetLastInputs (values : JsValue)
| SetReportReady (b : bool)
| FormErrors (error : list ZodIssue)
| Fetch (url method : string) (body : JsValue)
| Alert (message : string)
| CreateObjectURL (blob : Blob)
| AnchorClick (href : Blob) (download : string)
| RevokeObjectURL (url : Blob).

Inductive Completion (A : Type) :=
| Normal (a : A)
| Throw (e : Thrown).
Arguments Normal {A} a.
Arguments Throw {A} e.

Record Outcome (A : Type) := mkOutcome {
  final : WizardState;
  trace : list Effect;
  completion : Completion A
}.
Arguments mkOutcome {A}.
Arguments final {A}.
Arguments trace {A}.
Arguments completion {A}.

Definition M (A : Type) := WizardState -> Outcome A.

Definition ret {A} (a : A) : M A := fun s => mkOutcome s [] (Normal a).

Definition throw {A} (e : Thrown) : M A := fun s => mkOutcome s [] (Throw e).

Definition bind {A B} (m : M A) (k : A -> M B) : M B := fun s =>
  let '(mkOutcome s1 t1 c1) := m s in
  match c1 with
  | Normal a =>
      let '(mkOutcome s2 t2 c2) := k a s1 in
      mkOutcome s2 (t1 ++ t2) c2
  | Throw e => mkOutcome s1 t1 (Throw e)
  end.

Notation "x <- m ;; k" := (bind m (fun x => k))
  (at level 61, m at next level, right associativity).
Notation "m ;; k" := (bind m (fun _ => k))
  (at level 61, right associativity).

(** [try { m } catch (e) { handler e }] and [try { m } finally { fin }]. *)
Definition try_catch {A} (m : M A) (handler : Thrown -> M A) : M A := fun s =>
  let '(mkOutcome s1 t1 c1) := m s in
  match c1 with
  | Normal a => mkOutcome s1 t1 (Normal a)
  | Throw e =>
      let '(mkOutcome s2 t2 c2) := handler e s1 in
      mkOutcome s2 (t1 ++ t2) c2
  end.

Definition try_finally {A} (m : M A) (fin : M unit) : M A := fun s =>
  let '(mkOutcome s1 t1 c1) := m s in
  let '(mkOutcome s2 t2 c2) := fin s1 in
  mkOutcome s2 (t1 ++ t2)
            (match c2 with
             | Normal _ => c1
             | Throw e => Throw e
             end).

(** [await p] for a promise that has settled. *)
Definition await {A} (p : Completion A) : M A := fun s => mkOutcome s [] p.

Definition effect (e : Effect) (f : WizardState -> WizardState) : M unit :=
  fun s => mkOutcome (f s) [e] (Normal tt).

Definition setStep (n : nat) : M unit :=
  effect (SetStep n) (fun s => mkState n (reportReady s) (loading s) (lastInputs s)).
Definition setLoading (b : bool) : M unit :=
  effect (SetLoading b) (fun s => mkState (step s) (reportReady s) b (lastInputs s)).
Definition setLastInputs (v : JsValue) : M unit :=
  effect (SetLastInputs v) (fun s => mkState (step s) (reportReady s) (loading s) (Some v)).
Definition setReportReady (b : bool) : M unit :=
  effect (SetReportReady b) (fun s => mkState (step s) b (loading s) (lastInputs s)).
Definition alert (message : string) : M unit := effect (Alert message) (fun s => s).

Definition getState : M WizardState := fun s => mkOutcome s [] (Normal s).

(** A [Response]: its [ok] flag and what reading its body gives. *)
Record Response := mkFetched {
  ok : bool;
  text : Completion string;
  json : Completion JsValue;
  blob : Completion Blob
}.

(** [fetch(url, { method: "POST", ..., body: JSON.stringify(body) })]; [net]
    is how the request ends: a response, or a rejection.  A request that has
    not settled, or never does, is followed with [runModel_start] and
    [downloadPdf_start], further down. *)
Definition fetch (net : Completion Response) (url : string) (body : JsValue)
  : M Response :=
  fun s => mkOutcome s [Fetch url "POST" body] net.

(** [e?.message ?? "Error generating report"] *)
Definition message_or (e : Thrown) (fallback : string) : string :=
  match e with Some m => m | None => fallback end.

(** [form.handleSubmit(onValid)] with [zodResolver(clearHeatSchema)]: the
    form values are validated; [onValid] gets the parsed data, and is not
    called when validation fails. *)
Definition handleSubmit (clearHeatSchema : ZodType) (onValid : JsValue -> M unit)
           (formValues : JsValue) : M unit :=
  match safeParse clearHeatSchema formValues with
  | success data => onValid data
  | failure error => effect (FormErrors error) (fun s => s)
  end.

(** The Back and Next buttons. *)
Definition back : M unit :=
  s <- getState ;;
  if Nat.eqb (step s) 0 then ret tt else setStep (step s - 1).

Definition next : M unit :=
  s <- getState ;;
  if Nat.ltb (step s) 2 then setStep (step s + 1) else ret tt.

(** The download sequence after the response: blob, object URL, anchor click
    with the [download] attribute, revoke. *)
Definition saveResponse (res : Response) : M unit :=
  b <- await (blob res) ;;
  effect (CreateObjectURL b) (fun s => s) ;;
  effect (AnchorClick b "clearheat_report.pdf") (fun s => s) ;;
  effect (RevokeObjectURL b) (fun s => s).

(** *** The component of ResultsPanel.tsx (second document): the backend base
    comes from the environment and the form stays on screen once the report
    is ready. *)
Module CalculatorWizard1.
Section Component.
Variable BACKEND_BASE : string.
Variable clearHeatSchema : ZodType.

Definition runModel (net : Completion Response) (values : JsValue) : M unit :=
  setLoading true ;;
  setLastInputs values ;;
  try_finally
    (try_catch
       (res <- fetch net (BACKEND_BASE ++ "/run") (JObject [("inputs", values)]) ;;
        (if negb (ok res) then throw (Some "Evaluation failed") else ret tt) ;;
        _ <- await (json res) ;;
        setReportReady true)
       (fun e => alert (message_or e "Error generating report")))
    (setLoading false).

Definition downloadPdf (net : Completion Response) : M unit :=
  s <- getState ;;
  match lastInputs s with
  | None => ret tt
  | Some inputs =>
      res <- fetch net (BACKEND_BASE ++ "/pdf") (JObject [("inputs", inputs)]) ;;
      saveResponse res
  end.

(** The Generate button: shown on the last step, disabled while loading. *)
Definition generateReport (net : Completion Response) (formValues : JsValue) : M unit :=
  s <- getState ;;
  if Nat.eqb (step s) 2 && negb (loading s)
  then handleSubmit clearHeatSchema (runModel net) formValues
  else ret tt.

(** The Download button: shown when the report is ready. *)
Definition clickDownload (net : Completion Response) : M unit :=
  s <- getState ;;
  if reportReady s then downloadPdf net else ret tt.

(** The user's actions, and a session as a list of them.  An action that
    throws (an unhandled rejection) leaves the component as it is then. *)
Inductive Action :=
| ClickBack
| ClickNext
| ClickGenerate (net : Completion Response) (formValues : JsValue)
| ClickDownload (net : Completion Response).

Definition perform (a : Action) : M unit :=
  match a with
  | ClickBack => back
  | ClickNext => next
  | ClickGenerate net formValues => generateReport net formValues
  | ClickDownload net => clickDownload net
  end.

Fixpoint session (actions : list Action) (s : WizardState) : WizardState * list Effect :=
  match actions with
  | [] => (s, [])
  | a :: rest =>
      let '(mkOutcome s1 t1 _) := perform a s in
      let '(s2, t2) := session rest s1 in
      (s2, t1 ++ t2)
  end.

End Component.
End CalculatorWizard1.

(** *** The component of part_001: fixed backend base, the error text is read
    from the response, and the form is replaced by the report once ready. *)
Module CalculatorWizard2.
Section Component.
Variable clearHeatSchema : ZodType.

Definition BACKEND_BASE : string := "http://127.0.0.1:8000".

Definition runModel (net : Completion Response) (values : JsValue) : M unit :=
  setLoading true ;;
  setLastInputs values ;;
  try_finally
    (try_catch
       (res <- fetch net (BACKEND_BASE ++ "/run") (JObject [("inputs", values)]) ;;
        (if negb (ok res)
         then err <- await (text res) ;;
              throw (Some (if err =? "" then "Evaluation failed" else err))
         else ret tt) ;;
        _ <- await (json res) ;;
        setReportReady true)
       (fun e => alert (message_or e "Error generating report")))
    (setLoading false).

Definition downloadPdf (net : Completion Response) : M unit :=
  s <- getState ;;
  match lastInputs s with
  | None => ret tt
  | Some inputs =>
      res <- fetch net (BACKEND_BASE ++ "/pdf") (JObject [("inputs", inputs)]) ;;
      saveResponse res
  end.

Definition generateReport (net : Completion Response) (formValues : JsValue) : M unit :=
  s <- getState ;;
  if negb (reportReady s) && Nat.eqb (step s) 2 && negb (loading s)
  then handleSubmit clearHeatSchema (runModel net) formValues
  else ret tt.

Definition clickDownload (net : Completion Response) : M unit :=
  s <- getState ;;
  if reportReady s then downloadPdf net else ret tt.

(** The user's actions, and a session as a list of them.  An action that
    throws (an unhandled rejection) leaves the component as it is then. *)
Inductive Action :=
| ClickBack
| ClickNext
| ClickGenerate (net : Completion Response) (formValues : JsValue)
| ClickDownload (net : Completion Response).

Definition perform (a : Action) : M unit :=
  match a with
  | ClickBack => back
  | ClickNext => next
  | ClickGenerate net formValues => generateReport net formValues
  | ClickDownload net => clickDownload net
  end.

Fixpoint session (actions : list Action) (s : WizardState) : WizardState * list Effect :=
  match actions with
  | [] => (s, [])
  | a :: rest =>
      let '(mkOutcome s1 t1 _) := perform a s in
      let '(s2, t2) := session rest s1 in
      (s2, t1 ++ t2)
  end.

End Component.
End CalculatorWizard2.

End Wizard.

(** * Properties *)

(** ** Vocabulary of the specification *)

(** "The integers from [lo] to [hi] inclusive", "the numbers from [lo] to
    [hi] inclusive". *)
Definition integer_between (lo hi : Z) (n : JsNum) : Prop :=
  exists z : Z, (lo <= z <= hi)%Z /\ exists q, n = Finite q /\ Qeq q (inject_Z z).

Definition number_between (lo hi : Q) (n : JsNum) : Prop :=
  exists q, n = Finite q /\ Qle lo q /\ Qle q hi.

(** The forms of [grant_applied] the specification lists as true and as
    false. *)
Definition true_form (v : JsValue) : Prop :=
  v = JBool true \/ v = JString "true" \/ v = JString "on" \/ v = JString "1"
  \/ exists q, v = JNumber (Finite q) /\ Qeq q 1.

Definition false_form (v : JsValue) : Prop :=
  v = JBool false \/ v = JString "false" \/ v = JString "off" \/ v = JString "0"
  \/ (exists q, v = JNumber (Finite q) /\ Qeq q 0) \/ v = JNull \/ v = JString "".

(** The issues of the fields of a shape taken one by one, in order; whether
    every field is valid; whether one has the wrong type. *)
Definition field_result (raw : JsValue) (kt : string * ZodType) : ParseReturn :=
  snd kt [fst kt] (get raw (fst kt)).

Definition field_issues (shape : list (string * ZodType)) (raw : JsValue) : list ZodIssue :=
  flat_map (fun kt => issues (field_result raw kt)) shape.

Definition fields_valid (shape : list (string * ZodType)) (raw : JsValue) : bool :=
  forallb (fun kt => match status (field_result raw kt) with valid => true | _ => false end)
          shape.

Definition some_field_aborted (shape : list (string * ZodType)) (raw : JsValue) : bool :=
  existsb (fun kt => is_aborted (field_result raw kt)) shape.

(** "The number [n] fails the check [c]", with the issue zod raises for it. *)
Inductive fails_check (n : JsNum) : ZodNumberCheck -> ZodIssueCode -> Prop :=
| fails_int :
    isInteger n = false -> fails_check n chk_int (invalid_type t_integer t_float)
| fails_min m :
    num_ltb n (Finite m) = true -> fails_check n (chk_min m) (too_small m true)
| fails_max m :
    num_ltb (Finite m) n = true -> fails_check n (chk_max m) (too_big m true).

(** The issues [superRefine] adds for a refinement run at the root. *)
Definition cross_field_issues (refinement : JsValue -> list IssueData) (v : JsValue)
  : list ZodIssue :=
  map (fun d => mkIssue (custom (data_message d)) (data_path d)) (refinement v).

(** ** Numbers *)
Section NumberFacts.

Lemma num_ltb_Finite (a b : Q) : num_ltb (Finite a) (Finite b) = true <-> Qlt a b.
Proof.
  simpl. rewrite negb_true_iff. split.
  - intros Hle. apply Qnot_le_lt. intros Hba.
    apply Qle_bool_iff in Hba. congruence.
  - intros Hlt. destruct (Qle_bool b a) eqn:E; [|reflexivity].
    apply Qle_bool_iff in E. exfalso. exact (Qlt_not_le _ _ Hlt E).
Qed.

Lemma num_ltb_Finite_false (a b : Q) : num_ltb (Finite a) (Finite b) = false <-> Qle b a.
Proof.
  simpl. rewrite negb_false_iff. apply Qle_bool_iff.
Qed.

Lemma Qred_inject_Z (z : Z) : Qred (inject_Z z) = inject_Z z.
Proof.
  unfold inject_Z, Qred.
  pose proof (Z.ggcd_gcd z 1) as Hg.
  pose proof (Z.ggcd_correct_divisors z 1) as Hd.
  destruct (Z.ggcd z 1) as [g [a b]]. simpl in *.
  rewrite Z.gcd_1_r in Hg. subst g. destruct Hd as [Ha Hb].
  rewrite Z.mul_1_l in Ha, Hb. subst a b. reflexivity.
Qed.

Lemma isInteger_spec (q : Q) :
  isInteger (Finite q) = true <-> exists z : Z, Qeq q (inject_Z z).
Proof.
  unfold isInteger. rewrite Pos.eqb_eq. split.
  - intros Hden. exists (Qnum (Qred q)).
    rewrite <- (Qred_correct q) at 1.
    destruct (Qred q) as [n d]. simpl in *. subst d. reflexivity.
  - intros [z Hz]. rewrite (Qred_complete _ _ Hz), Qred_inject_Z. reflexivity.
Qed.

End NumberFacts.

(** ** The number schema *)
Section NumberSchema.

Definition passes (n : JsNum) (check : ZodNumberCheck) : bool :=
  match check_issue n check with [] => true | _ => false end.

Definition number_issues (checks : list ZodNumberCheck) (path : list string) (n : JsNum)
  : list ZodIssue :=
  flat_map (fun c => map (fun i => mkIssue i path) (check_issue n c)) checks.

Lemma number_issues_nil checks path n :
  number_issues checks path n = [] <-> forallb (passes n) checks = true.
Proof.
  induction checks as [|c rest IH]; simpl; [tauto|].
  unfold passes at 1. destruct (check_issue n c) as [|i l] eqn:E; simpl.
  - exact IH.
  - split; discriminate.
Qed.

Lemma ZodNumber_parse_number checks path n :
  n <> NaN ->
  ZodNumber_parse checks path (JNumber n)
  = mkReturn (match number_issues checks path n with [] => valid | _ => dirty end)
             (JNumber n) (number_issues checks path n).
Proof. destruct n; [congruence | reflexivity | reflexivity]. Qed.

(** A number passes exactly when it is not NaN and no check raises an
    issue; a dirty or valid result carries the number itself. *)
Lemma ZodNumber_parse_valid checks path n :
  status (ZodNumber_parse checks path (JNumber n)) = valid
  <-> n <> NaN /\ forallb (passes n) checks = true.
Proof.
  assert (Hc : forall m, m <> NaN ->
            (status (ZodNumber_parse checks path (JNumber m)) = valid
             <-> forallb (passes m) checks = true)).
  { intros m Hm. rewrite ZodNumber_parse_number by exact Hm. simpl.
    rewrite <- (number_issues_nil checks path m).
    destruct (number_issues checks path m); split; congruence. }
  destruct n as [|s|q].
  - simpl. split; [discriminate | intros [Hn _]; congruence].
  - rewrite Hc by discriminate. split; [split; [discriminate | assumption] | tauto].
  - rewrite Hc by discriminate. split; [split; [discriminate | assumption] | tauto].
Qed.

Lemma ZodNumber_parse_not_number checks path v :
  (forall n, v <> JNumber n) ->
  ZodNumber_parse checks path v
  = INVALID [mkIssue (invalid_type t_number (getParsedType v)) path].
Proof. destruct v; try reflexivity. intros Hv. now destruct (Hv n). Qed.

Lemma passes_int_min_max (lo hi : Z) (n : JsNum) :
  forallb (passes n) [chk_int; chk_min (inject_Z lo); chk_max (inject_Z hi)] = true
  <-> integer_between lo hi n.
Proof.
  unfold integer_between. destruct n as [|s|q].
  - split; [discriminate | intros [z [_ [q [Hq _]]]]; discriminate].
  - split; [discriminate | intros [z [_ [q [Hq _]]]]; discriminate].
  - unfold passes, check_issue. cbn [forallb].
    split.
    + intros Hall.
      destruct (isInteger (Finite q)) eqn:Ei; [|discriminate].
      destruct (num_ltb (Finite q) (Finite (inject_Z lo))) eqn:El; [discriminate|].
      destruct (num_ltb (Finite (inject_Z hi)) (Finite q)) eqn:Eh; [discriminate|].
      apply isInteger_spec in Ei. destruct Ei as [z Hz].
      apply num_ltb_Finite_false in El, Eh. rewrite Hz in El, Eh.
      rewrite <- Zle_Qle in El, Eh.
      exists z. split; [lia|]. exists q. split; [reflexivity | exact Hz].
    + intros [z [Hr [q' [Hq Hz]]]]. injection Hq as Hq. subst q'.
      assert (Ei : isInteger (Finite q) = true)
        by (apply isInteger_spec; now exists z).
      assert (El : num_ltb (Finite q) (Finite (inject_Z lo)) = false).
      { apply num_ltb_Finite_false. rewrite Hz, <- Zle_Qle. lia. }
      assert (Eh : num_ltb (Finite (inject_Z hi)) (Finite q) = false).
      { apply num_ltb_Finite_false. rewrite Hz, <- Zle_Qle. lia. }
      rewrite Ei, El, Eh. reflexivity.
Qed.

Lemma passes_min_max (lo hi : Q) (n : JsNum) :
  n <> NaN ->
  (forallb (passes n) [chk_min lo; chk_max hi] = true <-> number_between lo hi n).
Proof.
  unfold number_between. intros Hn. destruct n as [|s|q].
  - congruence.
  - split; [destruct s; discriminate | intros [q [Hq _]]; discriminate].
  - unfold passes, check_issue. cbn [forallb].
    split.
    + intros Hall.
      destruct (num_ltb (Finite q) (Finite lo)) eqn:El; [discriminate|].
      destruct (num_ltb (Finite hi) (Finite q)) eqn:Eh; [discriminate|].
      apply num_ltb_Finite_false in El, Eh.
      exists q. repeat split; assumption.
    + intros [q' [Hq [Hlo Hhi]]]. injection Hq as Hq. subst q'.
      apply num_ltb_Finite_false in Hlo, Hhi. rewrite Hlo, Hhi. reflexivity.
Qed.

End NumberSchema.

(** ** Ranges of [occupants] and [floor_area_m2] *)
Section Ranges.
Context `{JsRuntime}.

Lemma integer_between_not_NaN lo hi n : integer_between lo hi n -> n <> NaN.
Proof. intros [z [_ [q [-> _]]]]. discriminate. Qed.

Lemma number_between_not_NaN lo hi n : number_between lo hi n -> n <> NaN.
Proof. intros [q [-> _]]. discriminate. Qed.

Lemma int_range_valid (lo hi : Z) path n :
  status (ZodNumber_parse [chk_int; chk_min (inject_Z lo); chk_max (inject_Z hi)]
                          path (JNumber n)) = valid
  <-> integer_between lo hi n.
Proof.
  rewrite ZodNumber_parse_valid, passes_int_min_max.
  split; [tauto | intros Hb; split; [eapply integer_between_not_NaN; eauto | exact Hb]].
Qed.

Lemma range_valid (lo hi : Q) path n :
  status (ZodNumber_parse [chk_min lo; chk_max hi] path (JNumber n)) = valid
  <-> number_between lo hi n.
Proof.
  rewrite ZodNumber_parse_valid. split.
  - intros [Hn Hp]. now apply passes_min_max.
  - intros Hb. pose proof (number_between_not_NaN _ _ _ Hb) as Hn.
    split; [exact Hn | now apply passes_min_max].
Qed.

(** What a number schema returns as value when it does not abort. *)
Lemma ZodNumber_parse_value checks path v :
  status (ZodNumber_parse checks path v) <> aborted ->
  exists n, v = JNumber n /\ n <> NaN /\ value (ZodNumber_parse checks path v) = JNumber n.
Proof.
  destruct v as [| |b|n|s|l|o]; simpl; try congruence.
  destruct n; simpl; try congruence; intros _; eexists; repeat split; discriminate.
Qed.

Lemma asNumber_number n : Preprocess.asNumber (JNumber n) = JNumber n.
Proof. reflexivity. Qed.

End Ranges.

(** C5.  On numbers, [occupants] accepts exactly the integers from 1 to 20
    and [floor_area_m2] exactly the numbers from 20 to 1000, in both schemas;
    and whatever raw value is accepted, the value produced is such a
    number. *)
Theorem occupants_floor_area_ranges `{JsRuntime} (path : list string) :
  (forall n, status (Coerce.occupants path (JNumber n)) = valid
             <-> integer_between 1 20 n) /\
  (forall n, status (Preprocess.occupants path (JNumber n)) = valid
             <-> integer_between 1 20 n) /\
  (forall n, status (Coerce.floor_area_m2 path (JNumber n)) = valid
             <-> number_between 20 1000 n) /\
  (forall n, status (Preprocess.floor_area_m2 path (JNumber n)) = valid
             <-> number_between 20 1000 n) /\
  (forall v, status (Coerce.occupants path v) = valid ->
             exists n, value (Coerce.occupants path v) = JNumber n
                       /\ integer_between 1 20 n) /\
  (forall v, status (Preprocess.occupants path v) = valid ->
             exists n, value (Preprocess.occupants path v) = JNumber n
                       /\ integer_between 1 20 n) /\
  (forall v, status (Coerce.floor_area_m2 path v) = valid ->
             exists n, value (Coerce.floor_area_m2 path v) = JNumber n
                       /\ number_between 20 1000 n) /\
  (forall v, status (Preprocess.floor_area_m2 path v) = valid ->
             exists n, value (Preprocess.floor_area_m2 path v) = JNumber n
                       /\ number_between 20 1000 n).
Proof.
  split; [intros n; apply (int_range_valid 1 20)|].
  split; [intros n; apply (int_range_valid 1 20)|].
  split; [intros n; apply (range_valid 20 1000)|].
  split; [intros n; apply (range_valid 20 1000)|].
  split; [|split; [|split]]; intros v.
  - intros Hv. unfold Coerce.occupants, z_coerce_number in *.
    exists (ToNumber v). split.
    + destruct (ZodNumber_parse_value _ _ _ ltac:(rewrite Hv; discriminate))
        as [n [Hn [_ Hval]]]. rewrite Hval. now rewrite Hn.
    + now apply (int_range_valid 1 20 path).
  - intros Hv. unfold Preprocess.occupants, z_preprocess, z_number in *.
    destruct (ZodNumber_parse_value _ _ _ ltac:(rewrite Hv; discriminate))
      as [n [Hn [_ Hval]]].
    exists n. split; [exact Hval|]. rewrite Hn in Hv.
    now apply (int_range_valid 1 20 path).
  - intros Hv. unfold Coerce.floor_area_m2, z_coerce_number in *.
    exists (ToNumber v). split.
    + destruct (ZodNumber_parse_value _ _ _ ltac:(rewrite Hv; discriminate))
        as [n [Hn [_ Hval]]]. rewrite Hval. now rewrite Hn.
    + now apply (range_valid 20 1000 path).
  - intros Hv. unfold Preprocess.floor_area_m2, Preprocess.num, z_preprocess, z_number in *.
    destruct (ZodNumber_parse_value _ _ _ ltac:(rewrite Hv; discriminate))
      as [n [Hn [_ Hval]]].
    exists n. split; [exact Hval|]. rewrite Hn in Hv.
    now apply (range_valid 20 1000 path).
Qed.

Section RangeExamples.
#[local] Existing Instance DecimalRuntime.decimalRuntime.

Definition accepts (t : ZodType) (v : JsValue) : bool :=
  match status (t [] v) with valid => true | _ => false end.

Example occupants_examples :
  map (accepts Coerce.occupants)
      [ JNumber (Finite 0); JNumber (Finite 21); JNumber (Finite (5 # 2));
        JNumber (Finite 1); JNumber (Finite 20); JString "20"; JString "2.5" ]
  = [ false; false; false; true; true; true; false ]
  /\ map (accepts Preprocess.occupants)
         [ JNumber (Finite 0); JNumber (Finite 21); JNumber (Finite (5 # 2));
           JNumber (Finite 1); JNumber (Finite 20); JString "20"; JString "2.5" ]
     = [ false; false; false; true; true; true; false ].
Proof. split; vm_compute; reflexivity. Qed.

Example floor_area_examples :
  map (accepts Coerce.floor_area_m2)
      [ JNumber (Finite 19); JNumber (Finite 1001); JNumber (Finite 20);
        JNumber (Finite 1000); JString " 120.5 " ]
  = [ false; false; true; true; true ]
  /\ map (accepts Preprocess.floor_area_m2)
         [ JNumber (Finite 19); JNumber (Finite 1001); JNumber (Finite 20);
           JNumber (Finite 1000); JString " 120.5 " ]
     = [ false; false; true; true; true ].
Proof. split; vm_compute; reflexivity. Qed.

End RangeExamples.

(** ** [grant_applied] *)
Section GrantApplied.

Lemma bool_preprocess_true v : true_form v -> Preprocess.bool_preprocess v = JBool true.
Proof.
  intros [-> | [-> | [-> | [-> | [q [-> Hq]]]]]]; try reflexivity.
  unfold Preprocess.bool_preprocess, strict_eq_number, strict_eq_string, num_eqb.
  now rewrite (Qeq_eq_bool _ _ Hq).
Qed.

Lemma bool_preprocess_false v :
  false_form v \/ v = JUndefined -> Preprocess.bool_preprocess v = JBool false.
Proof.
  intros [[-> | [-> | [-> | [-> | [[q [-> Hq]] | [-> | ->]]]]]] | ->]; try reflexivity.
  unfold Preprocess.bool_preprocess, strict_eq_number, strict_eq_string, num_eqb.
  rewrite (Qeq_eq_bool _ _ Hq).
  destruct (Qeq_bool q 1) eqn:E1; [|reflexivity].
  apply Qeq_bool_eq in E1. rewrite Hq in E1. discriminate.
Qed.

Lemma bool_preprocess_other v :
  ~ true_form v -> ~ false_form v -> v <> JUndefined ->
  Preprocess.bool_preprocess v = v /\ forall b, v <> JBool b.
Proof.
  unfold true_form, false_form. intros Ht Hf Hu.
  destruct v as [| |b|n|s|l|o].
  - congruence.
  - exfalso. apply Hf. tauto.
  - exfalso. destruct b; [apply Ht | apply Hf]; tauto.
  - split; [|discriminate].
    unfold Preprocess.bool_preprocess, strict_eq_number, strict_eq_string, num_eqb.
    destruct n as [|s|q]; try reflexivity.
    destruct (Qeq_bool q 1) eqn:E1.
    { exfalso. apply Ht. apply Qeq_bool_eq in E1. do 4 right. now exists q. }
    destruct (Qeq_bool q 0) eqn:E0.
    { exfalso. apply Hf. apply Qeq_bool_eq in E0. do 4 right. left. now exists q. }
    reflexivity.
  - split; [|discriminate].
    unfold Preprocess.bool_preprocess, strict_eq_number, strict_eq_string.
    destruct (String.eqb_spec s "true") as [->|_]; [exfalso; apply Ht; tauto|].
    destruct (String.eqb_spec s "on") as [->|_]; [exfalso; apply Ht; tauto|].
    destruct (String.eqb_spec s "1") as [->|_]; [exfalso; apply Ht; tauto|].
    destruct (String.eqb_spec s "false") as [->|_]; [exfalso; apply Hf; tauto|].
    destruct (String.eqb_spec s "off") as [->|_]; [exfalso; apply Hf; tauto|].
    destruct (String.eqb_spec s "0") as [->|_]; [exfalso; apply Hf; tauto|].
    destruct (String.eqb_spec s "") as [->|_]; [exfalso; apply Hf; tauto|].
    reflexivity.
  - split; [reflexivity | discriminate].
  - split; [reflexivity | discriminate].
Qed.

Lemma z_boolean_not_boolean path v :
  (forall b, v <> JBool b) ->
  z_boolean path v = INVALID [mkIssue (invalid_type t_boolean (getParsedType v)) path].
Proof. destruct v; try reflexivity. intros Hb. now destruct (Hb b). Qed.

End GrantApplied.

(** C1, as the code has it.  In the [z.preprocess] schema [grant_applied]
    maps the listed true forms to [true], the listed false forms and an
    absent value to [false], and rejects every other value with an
    [invalid_type] issue.  In the [z.coerce] schema it is [Boolean(v)] with
    default [true]: it never fails, the true forms give [true], and so do
    ["false"], ["off"] and ["0"]. *)
Theorem grant_applied_coercion (path : list string) (v : JsValue) :
  (true_form v -> Preprocess.grant_applied path v = OK (JBool true)) /\
  (false_form v \/ v = JUndefined ->
   Preprocess.grant_applied path v = OK (JBool false)) /\
  (~ true_form v -> ~ false_form v -> v <> JUndefined ->
   Preprocess.grant_applied path v
   = INVALID [mkIssue (invalid_type t_boolean (getParsedType v)) path]) /\
  Coerce.grant_applied path v
  = OK (JBool (match v with JUndefined => true | _ => ToBoolean v end)) /\
  (true_form v -> Coerce.grant_applied path v = OK (JBool true)) /\
  (v = JString "false" \/ v = JString "off" \/ v = JString "0" ->
   Coerce.grant_applied path v = OK (JBool true)).
Proof.
  unfold Preprocess.grant_applied, Preprocess.bool, z_preprocess.
  split; [intros Ht; now rewrite bool_preprocess_true|].
  split; [intros Hf; now rewrite bool_preprocess_false|].
  split.
  { intros Ht Hf Hu. destruct (bool_preprocess_other v Ht Hf Hu) as [-> Hb].
    now apply z_boolean_not_boolean. }
  split; [now destruct v|].
  split.
  - intros [-> | [-> | [-> | [-> | [q [-> Hq]]]]]]; try reflexivity.
    unfold Coerce.grant_applied, default, z_coerce_boolean, ToBoolean.
    destruct (Qeq_bool q 0) eqn:E0; [|reflexivity].
    apply Qeq_bool_eq in E0. rewrite Hq in E0. discriminate.
  - intros [-> | [-> | ->]]; reflexivity.
Qed.

Lemma grant_applied_coercion_witness :
  Preprocess.grant_applied ["grant_applied"] (JString "on") = OK (JBool true)
  /\ Preprocess.grant_applied ["grant_applied"] JNull = OK (JBool false)
  /\ Preprocess.grant_applied ["grant_applied"] (JString "yes")
     = INVALID [mkIssue (invalid_type t_boolean t_string) ["grant_applied"]]
  /\ Coerce.grant_applied ["grant_applied"] (JString "off") = OK (JBool true).
Proof.
  split; [|split; [|split]].
  - apply (proj1 (grant_applied_coercion ["grant_applied"] (JString "on"))).
    right; right; left; reflexivity.
  - apply (proj1 (proj2 (grant_applied_coercion ["grant_applied"] JNull))).
    left; do 5 right; left; reflexivity.
  - apply (proj1 (proj2 (proj2 (grant_applied_coercion ["grant_applied"] (JString "yes"))))).
    + intros [E | [E | [E | [E | [q [E _]]]]]]; discriminate E.
    + intros [E | [E | [E | [E | [[q [E _]] | [E | E]]]]]]; discriminate E.
    + discriminate.
  - apply (proj2 (proj2 (proj2 (proj2 (proj2
             (grant_applied_coercion ["grant_applied"] (JString "off"))))))).
    right; left; reflexivity.
Defined.

(** The claim of C1 fails on the [z.coerce] schema: ["false"] is accepted as
    [true], and a value outside both lists is accepted too. *)
Lemma grant_applied_coerce_counterexample :
  Coerce.grant_applied ["grant_applied"] (JString "false") = OK (JBool true)
  /\ false_form (JString "false")
  /\ status (Coerce.grant_applied ["grant_applied"] (JString "maybe")) = valid
  /\ ~ true_form (JString "maybe") /\ ~ false_form (JString "maybe").
Proof.
  split; [reflexivity|]. split; [right; left; reflexivity|].
  split; [reflexivity|]. split.
  - intros [E | [E | [E | [E | [q [E _]]]]]]; discriminate E.
  - intros [E | [E | [E | [E | [[q [E _]] | [E | E]]]]]]; discriminate E.
Qed.

(** ** The object schema and its refinement *)
Section ObjectSchema.

Fixpoint distinct (keys : list string) : bool :=
  match keys with
  | [] => true
  | k :: rest => negb (existsb (String.eqb k) rest) && distinct rest
  end.

(** A parse result is sound when it is valid exactly if it raised no
    issue. *)
Definition sound (r : ParseReturn) : Prop := status r = valid <-> issues r = [].

Definition sound_schema (t : ZodType) : Prop := forall path v, sound (t path v).

Lemma z_enum_sound values : sound_schema (z_enum values).
Proof.
  intros path v. unfold sound, z_enum.
  destruct v; simpl; try (split; discriminate).
  destruct (existsb (String.eqb s) values); simpl; split; congruence.
Qed.

Lemma ZodNumber_parse_sound checks : sound_schema (ZodNumber_parse checks).
Proof.
  intros path v. unfold sound.
  destruct v as [| |b|n|s|l|o]; simpl; try (split; discriminate).
  destruct n; simpl; try (split; discriminate);
    match goal with |- context [flat_map ?f ?l] => destruct (flat_map f l) end;
    split; congruence.
Qed.

Lemma z_coerce_number_sound `{JsRuntime} checks : sound_schema (z_coerce_number checks).
Proof. intros path v. apply ZodNumber_parse_sound. Qed.

Lemma z_boolean_sound : sound_schema z_boolean.
Proof. intros path v. unfold sound. destruct v; simpl; split; congruence. Qed.

Lemma z_coerce_boolean_sound : sound_schema z_coerce_boolean.
Proof. intros path v. apply z_boolean_sound. Qed.

Lemma optional_sound t : sound_schema t -> sound_schema (optional t).
Proof.
  intros Ht path v. unfold optional. destruct v; try apply Ht.
  unfold sound. simpl. tauto.
Qed.

Lemma default_sound t d : sound_schema t -> sound_schema (default t d).
Proof. intros Ht path v. unfold default. destruct v; apply Ht. Qed.

Lemma z_preprocess_sound f t : sound_schema t -> sound_schema (z_preprocess f t).
Proof. intros Ht path v. apply Ht. Qed.

Lemma existsb_map {A B} (f : A -> B) (p : B -> bool) (l : list A) :
  existsb p (map f l) = existsb (fun x => p (f x)) l.
Proof. induction l as [|x l IH]; simpl; [reflexivity | now rewrite IH]. Qed.

Lemma existsb_ext {A} (p q : A -> bool) (l : list A) :
  (forall x, p x = q x) -> existsb p l = existsb q l.
Proof.
  intros Hpq. induction l as [|x l IH]; simpl; [reflexivity | now rewrite Hpq, IH].
Qed.

Variable shape : list (string * ZodType).
Variable props : list (string * JsValue).
Let raw := JObject props.

Lemma z_object_unfold :
  z_object shape [] raw
  = mergeObjectSync
      (map (fun kt => (fst kt, field_result raw kt, has raw (fst kt))) shape).
Proof. reflexivity. Qed.

Lemma z_object_issues : issues (z_object shape [] raw) = field_issues shape raw.
Proof.
  rewrite z_object_unfold. unfold mergeObjectSync, field_issues.
  generalize (field_result raw) as res. intros res.
  match goal with |- context [if ?c then _ else _] => destruct c end;
    cbn [issues INVALID].
  all: induction shape as [|kt rest IH]; cbn [map flat_map fst snd];
    [reflexivity | now rewrite IH].
Qed.

Lemma dirty_unless_valid {A} (res : A -> ParseReturn) (l : list A) :
  existsb (fun x => is_aborted (res x)) l = false ->
  existsb (fun x => is_dirty (res x)) l
  = negb (forallb (fun x => match status (res x) with valid => true | _ => false end) l).
Proof.
  induction l as [|x l IH]; cbn [existsb forallb]; [reflexivity|].
  unfold is_aborted at 1, is_dirty at 1.
  destruct (status (res x)); cbn [orb andb negb]; [exact IH | reflexivity | discriminate].
Qed.

Lemma z_object_status :
  status (z_object shape [] raw)
  = if some_field_aborted shape raw then aborted
    else if fields_valid shape raw then valid else dirty.
Proof.
  rewrite z_object_unfold. unfold mergeObjectSync, some_field_aborted, fields_valid.
  rewrite !existsb_map. cbn [fst snd].
  destruct (existsb (fun x => is_aborted (field_result raw x)) shape) eqn:Ea;
    [reflexivity|].
  cbn [status]. rewrite (dirty_unless_valid _ _ Ea).
  now destruct (forallb _ shape).
Qed.

(** Reading a key of the parsed object gives the value its field parsed
    to. *)
Lemma lookup_final_absent (pairs : list ObjectPair) (k : string) g :
  (forall p, g p = [] \/ exists v, g p = [(fst (fst p), v)]) ->
  existsb (fun p : ObjectPair => fst (fst p) =? k) pairs = false ->
  lookup (flat_map g pairs) k = None.
Proof.
  intros Hg. induction pairs as [|p rest IH]; simpl; [reflexivity|].
  intros Hex. apply orb_false_iff in Hex. destruct Hex as [Hk Hrest].
  destruct (Hg p) as [-> | [v ->]]; simpl; [now apply IH|].
  rewrite Hk. now apply IH.
Qed.

Lemma mergeObjectSync_get (pairs : list ObjectPair) k r a :
  existsb (fun p : ObjectPair => is_aborted (snd (fst p))) pairs = false ->
  distinct (map (fun p : ObjectPair => fst (fst p)) pairs) = true ->
  k <> "__proto__" ->
  In (k, r, a) pairs ->
  get (value (mergeObjectSync pairs)) k = value r.
Proof.
  unfold ObjectPair in *.
  intros Hab Hd Hk Hin. unfold mergeObjectSync. rewrite Hab. cbn [value get].
  clear Hab.
  match goal with |- context [flat_map ?f pairs] => set (g := f) end.
  assert (Hg : forall k0 r0 a0,
             g (k0, r0, a0)
             = if negb (k0 =? "__proto__")
                  && (negb match value r0 with JUndefined => true | _ => false end
                      || a0)
               then [(k0, value r0)] else []) by reflexivity.
  assert (Hone : forall p, g p = [] \/ exists v, g p = [(fst (fst p), v)]).
  { intros [[k1 r1] a1]. rewrite Hg. cbn [fst].
    destruct (negb (k1 =? "__proto__") && _); [right; eauto | now left]. }
  clearbody g.
  assert (Hproto : (k =? "__proto__") = false) by now apply String.eqb_neq.
  induction pairs as [|[[k' r'] a'] rest IH]; [contradiction|].
  cbn [map distinct fst snd] in Hd.
  apply andb_true_iff in Hd. destruct Hd as [Hfresh Hd].
  apply negb_true_iff in Hfresh. cbn [flat_map].
  destruct Hin as [Heq | Hin].
  - injection Heq as -> -> ->. rewrite Hg, Hproto. cbn [negb andb].
    assert (Hrest : lookup (flat_map g rest) k = None).
    { apply lookup_final_absent; [exact Hone|].
      rewrite <- Hfresh, existsb_map. apply existsb_ext.
      intros p. apply String.eqb_sym. }
    destruct (value r) eqn:Ev; cbn [negb orb app lookup];
      try (rewrite String.eqb_refl; reflexivity).
    destruct a; cbn [app lookup].
    + now rewrite String.eqb_refl.
    + now rewrite Hrest.
  - assert (Hne : (k' =? k) = false).
    { destruct (String.eqb_spec k' k) as [->|]; [|reflexivity].
      exfalso.
      assert (Hex : existsb (String.eqb k)
                      (map (fun p : string * ParseReturn * bool => fst (fst p)) rest)
                    = true).
      { apply existsb_exists. exists k. split; [|apply String.eqb_refl].
        change k with (fst (fst (k, r, a))).
        now apply (in_map (fun p : string * ParseReturn * bool => fst (fst p))). }
      congruence. }
    destruct (Hone (k', r', a')) as [-> | [v ->]]; cbn [app lookup fst].
    + now apply IH.
    + rewrite Hne. now apply IH.
Qed.

Lemma z_object_get (k : string) (t : ZodType) :
  some_field_aborted shape raw = false ->
  distinct (map fst shape) = true ->
  k <> "__proto__" ->
  In (k, t) shape ->
  get (value (z_object shape [] raw)) k = value (t [k] (get raw k)).
Proof.
  intros Hab Hd Hk Hin. rewrite z_object_unfold.
  apply (mergeObjectSync_get _ k (field_result raw (k, t)) (has raw k)).
  - rewrite existsb_map. exact Hab.
  - rewrite map_map. exact Hd.
  - exact Hk.
  - apply (in_map (fun kt => (fst kt, field_result raw kt, has raw (fst kt))) _ _ Hin).
Qed.

Lemma safeParse_superRefine (schema : ZodType) refinement (data : JsValue) :
  safeParse (superRefine schema refinement) data
  = match status (schema [] data) with
    | aborted => failure (issues (schema [] data))
    | dirty =>
        failure (issues (schema [] data)
                 ++ cross_field_issues refinement (value (schema [] data)))
    | valid =>
        match cross_field_issues refinement (value (schema [] data)) with
        | [] => success (value (schema [] data))
        | added => failure (issues (schema [] data) ++ added)
        end
    end.
Proof.
  unfold safeParse, superRefine, cross_field_issues. simpl.
  destruct (status (schema [] data)); simpl; try reflexivity.
  - destruct (refinement (value (schema [] data))); reflexivity.
  - destruct (refinement (value (schema [] data))); reflexivity.
Qed.

End ObjectSchema.

(** ** The type [ClearHeatInput] and the report of a validation *)

(** [ClearHeatInput = z.infer<typeof clearHeatSchema>]: the type of each
    key. *)
Inductive FieldType :=
| ty_enum (values : list string)
| ty_number
| ty_boolean
| ty_optional (ty : FieldType).

Fixpoint has_type (ty : FieldType) (v : JsValue) : Prop :=
  match ty with
  | ty_enum values => exists s, v = JString s /\ In s values
  | ty_number => exists n, v = JNumber n /\ n <> NaN
  | ty_boolean => exists b, v = JBool b
  | ty_optional ty' => v = JUndefined \/ has_type ty' v
  end.

Definition ClearHeatInput : list (string * FieldType) :=
  [ ("ber_band", ty_enum ["A"; "B"; "C"; "D"; "E"; "F"; "G"]);
    ("floor_area_m2", ty_number);
    ("emitters", ty_enum ["radiators"; "ufh"]);
    ("heating_pattern", ty_enum ["rare"; "normal"; "high"]);
    ("wood_use", ty_enum ["none"; "some"; "lots"]);
    ("occupants", ty_number);
    ("fuel_type", ty_enum ["gas"; "kerosene"]);
    ("fuel_price_eur_per_unit", ty_number);
    ("electricity_price_eur_per_kwh", ty_number);
    ("boiler_efficiency", ty_number);
    ("hp_quote_eur", ty_number);
    ("grant_applied", ty_boolean);
    ("grant_value_eur", ty_number);
    ("bill_mode", ty_enum ["annual_fuel_use"; "annual_spend"; "none"]);
    ("annual_fuel_use", ty_optional ty_number);
    ("annual_spend_eur", ty_optional ty_number) ].

Definition is_ClearHeatInput (data : JsValue) : Prop :=
  Forall (fun kty => has_type (snd kty) (get data (fst kty))) ClearHeatInput.

(** What a validation reports on a raw input: the issues of every field, in
    order, followed by the issues of the cross-field rule when no field has
    the wrong type; a raw input that is not an object is one type issue. *)
Definition validation_errors (shape : list (string * ZodType))
           (refinement : JsValue -> list IssueData) (raw : JsValue) : list ZodIssue :=
  match raw with
  | JObject _ =>
      field_issues shape raw
      ++ (if some_field_aborted shape raw then []
          else cross_field_issues refinement (value (z_object shape [] raw)))
  | _ => [mkIssue (invalid_type t_object (getParsedType raw)) []]
  end.

Definition typed_schema (t : ZodType) (ty : FieldType) : Prop :=
  forall path v, status (t path v) = valid -> has_type ty (value (t path v)).

Section TypedSchemas.

Lemma z_enum_typed values : typed_schema (z_enum values) (ty_enum values).
Proof.
  intros path v. unfold z_enum.
  destruct v; simpl; try discriminate.
  destruct (existsb (String.eqb s) values) eqn:E; simpl; [|discriminate].
  intros _. exists s. split; [reflexivity|].
  apply existsb_exists in E. destruct E as [x [Hin Hx]].
  apply String.eqb_eq in Hx. now subst x.
Qed.

Lemma ZodNumber_parse_typed checks : typed_schema (ZodNumber_parse checks) ty_number.
Proof.
  intros path v Hv.
  destruct (ZodNumber_parse_value checks path v) as [n [_ [Hn Hval]]].
  - rewrite Hv. discriminate.
  - exists n. now split.
Qed.

Lemma z_coerce_number_typed `{JsRuntime} checks :
  typed_schema (z_coerce_number checks) ty_number.
Proof. intros path v. apply ZodNumber_parse_typed. Qed.

Lemma z_boolean_typed : typed_schema z_boolean ty_boolean.
Proof.
  intros path v. destruct v; simpl; try discriminate. intros _. now exists b.
Qed.

Lemma z_coerce_boolean_typed : typed_schema z_coerce_boolean ty_boolean.
Proof. intros path v. apply z_boolean_typed. Qed.

Lemma optional_typed t ty : typed_schema t ty -> typed_schema (optional t) (ty_optional ty).
Proof.
  intros Ht path v. unfold optional.
  destruct v; try (intros Hv; right; now apply Ht).
  intros _. now left.
Qed.

Lemma default_typed t d ty : typed_schema t ty -> typed_schema (default t d) ty.
Proof. intros Ht path v. unfold default. destruct v; apply Ht. Qed.

Lemma z_preprocess_typed f t ty : typed_schema t ty -> typed_schema (z_preprocess f t) ty.
Proof. intros Ht path v. apply Ht. Qed.

End TypedSchemas.

Ltac schema_facts :=
  repeat first
    [ apply z_enum_sound | apply z_coerce_number_sound | apply ZodNumber_parse_sound
    | apply z_coerce_boolean_sound | apply z_boolean_sound
    | apply optional_sound | apply default_sound | apply z_preprocess_sound
    | apply z_enum_typed | apply z_coerce_number_typed | apply ZodNumber_parse_typed
    | apply z_coerce_boolean_typed | apply z_boolean_typed
    | apply optional_typed | apply default_typed | apply z_preprocess_typed ].

(** A shape follows [ClearHeatInput] when it has its keys, in order, each
    with a sound schema of the key's type. *)
Definition follows (shape : list (string * ZodType)) (tys : list (string * FieldType))
  : Prop :=
  Forall2 (fun kt kty => fst kt = fst kty /\ sound_schema (snd kt)
                         /\ typed_schema (snd kt) (snd kty)) shape tys.

Section BothShapes.
Context `{JsRuntime}.

Lemma Coerce_shape_follows : follows Coerce.shape ClearHeatInput.
Proof.
  unfold follows, Coerce.shape, ClearHeatInput.
  repeat (apply Forall2_cons; [cbn [fst snd]; split; [reflexivity | split]|]);
    [.. | apply Forall2_nil].
  all: try (unfold Coerce.ber_band, Coerce.floor_area_m2, Coerce.emitters,
      Coerce.heating_pattern, Coerce.wood_use, Coerce.occupants, Coerce.fuel_type,
      Coerce.fuel_price_eur_per_unit, Coerce.electricity_price_eur_per_kwh,
      Coerce.boiler_efficiency, Coerce.hp_quote_eur, Coerce.grant_applied,
      Coerce.grant_value_eur, Coerce.bill_mode, Coerce.annual_fuel_use,
      Coerce.annual_spend_eur); schema_facts.
Qed.

Lemma Preprocess_shape_follows : follows Preprocess.shape ClearHeatInput.
Proof.
  unfold follows, Preprocess.shape, ClearHeatInput.
  repeat (apply Forall2_cons; [cbn [fst snd]; split; [reflexivity | split]|]);
    [.. | apply Forall2_nil].
  all: try (unfold Preprocess.ber_band, Preprocess.floor_area_m2, Preprocess.emitters,
      Preprocess.heating_pattern, Preprocess.wood_use, Preprocess.occupants,
      Preprocess.fuel_type, Preprocess.fuel_price_eur_per_unit,
      Preprocess.electricity_price_eur_per_kwh, Preprocess.boiler_efficiency,
      Preprocess.hp_quote_eur, Preprocess.grant_applied, Preprocess.grant_value_eur,
      Preprocess.bill_mode, Preprocess.annual_fuel_use, Preprocess.annual_spend_eur,
      Preprocess.num, Preprocess.numOpt, Preprocess.bool, z_number); schema_facts.
Qed.

End BothShapes.

Lemma follows_keys shape tys : follows shape tys -> map fst shape = map fst tys.
Proof.
  intros HF. induction HF as [|kt kty l l' [Hk _] _ IH]; simpl; [reflexivity|].
  now rewrite Hk, IH.
Qed.

Lemma follows_sound shape tys kt :
  follows shape tys -> In kt shape -> sound_schema (snd kt).
Proof.
  intros HF. induction HF as [|kt' kty l l' [_ [Hs _]] _ IH]; simpl; [contradiction|].
  intros [<- | Hin]; [exact Hs | now apply IH].
Qed.

Lemma aborted_not_valid shape raw :
  some_field_aborted shape raw = true -> fields_valid shape raw = false.
Proof.
  unfold some_field_aborted, fields_valid.
  induction shape as [|kt rest IH]; simpl; [discriminate|].
  unfold is_aborted at 1.
  destruct (status (field_result raw kt)); simpl; try reflexivity.
  exact IH.
Qed.

Lemma fields_valid_issues shape tys raw :
  follows shape tys ->
  (fields_valid shape raw = true <-> field_issues shape raw = []).
Proof.
  intros HF. unfold fields_valid, field_issues.
  pose proof (fun kt => follows_sound shape tys kt HF) as Hs. clear HF.
  induction shape as [|kt rest IH]; simpl; [tauto|].
  assert (Hkt : sound (field_result raw kt)) by (apply Hs; now left).
  assert (Hrest : forall kt', In kt' rest -> sound_schema (snd kt'))
    by (intros kt' Hin; apply Hs; now right).
  specialize (IH Hrest). unfold sound in Hkt.
  rewrite andb_true_iff, IH. split.
  - intros [Hv Hi]. rewrite Hi, app_nil_r. apply Hkt.
    now destruct (status (field_result raw kt)).
  - intros Happ. apply app_eq_nil in Happ. destruct Happ as [Hi Hr].
    split; [|exact Hr]. apply Hkt in Hi. now rewrite Hi.
Qed.

Section Report.
Variable shape : list (string * ZodType).
Variable tys : list (string * FieldType).
Variable refinement : JsValue -> list IssueData.
Hypothesis Hfollows : follows shape tys.
Hypothesis Hdistinct : distinct (map fst tys) = true.
Hypothesis Hproto : ~ In "__proto__" (map fst tys).

Lemma parsed_fields_typed props :
  fields_valid shape (JObject props) = true ->
  Forall (fun kty => has_type (snd kty)
                       (get (value (z_object shape [] (JObject props))) (fst kty))) tys.
Proof.
  intros Hvalid.
  assert (Hab : some_field_aborted shape (JObject props) = false).
  { destruct (some_field_aborted shape (JObject props)) eqn:E; [|reflexivity].
    apply aborted_not_valid in E. congruence. }
  assert (Hd : distinct (map fst shape) = true)
    by now rewrite (follows_keys shape tys Hfollows).
  assert (Hgen : forall l ltys,
             Forall2 (fun kt kty => fst kt = fst kty /\ sound_schema (snd kt)
                                    /\ typed_schema (snd kt) (snd kty)) l ltys ->
             incl l shape -> incl (map fst ltys) (map fst tys) ->
             Forall (fun kty => has_type (snd kty)
                       (get (value (z_object shape [] (JObject props))) (fst kty)))
                    ltys).
  { intros l ltys HF. induction HF as [|[k t] [k' ty] l l' [Hk [_ Ht]] _ IH];
      intros Hincl Hkeys; constructor.
    - cbn [fst snd] in *. subst k'.
      assert (Hin : In (k, t) shape) by (apply Hincl; now left).
      rewrite (z_object_get shape props k t Hab Hd); [| | exact Hin].
      + apply Ht. unfold fields_valid in Hvalid.
        rewrite forallb_forall in Hvalid. specialize (Hvalid _ Hin).
        unfold field_result in Hvalid. cbn [fst snd] in Hvalid.
        now destruct (status (t [k] (get (JObject props) k))).
      + intros ->. apply Hproto. apply Hkeys. now left.
    - apply IH.
      + intros x Hx. apply Hincl. now right.
      + intros x Hx. apply Hkeys. now right. }
  apply (Hgen shape tys Hfollows); apply incl_refl.
Qed.

(** The report of a validation: a success carries the parsed object, typed
    key by key, and happens only when there is nothing to report; a failure
    carries exactly the errors of [validation_errors], at least one. *)
Lemma validation_report raw :
  match safeParse (superRefine (z_object shape) refinement) raw with
  | success data =>
      validation_errors shape refinement raw = []
      /\ Forall (fun kty => has_type (snd kty) (get data (fst kty))) tys
  | failure errors =>
      errors <> [] /\ errors = validation_errors shape refinement raw
  end.
Proof.
  destruct raw as [| |b|n|s|l|props]; try (split; [discriminate | reflexivity]).
  rewrite safeParse_superRefine, z_object_status, z_object_issues.
  unfold validation_errors.
  destruct (some_field_aborted shape (JObject props)) eqn:Ea.
  - rewrite app_nil_r. split; [|reflexivity].
    intros Hnil. apply (fields_valid_issues shape tys _ Hfollows) in Hnil.
    apply aborted_not_valid in Ea. congruence.
  - destruct (fields_valid shape (JObject props)) eqn:Ev.
    + pose proof (proj1 (fields_valid_issues shape tys _ Hfollows) Ev) as Hnil.
      rewrite Hnil.
      destruct (cross_field_issues refinement _) eqn:Ec.
      * split; [reflexivity | now apply parsed_fields_typed].
      * split; [discriminate | reflexivity].
    + split; [|reflexivity].
      intros Happ. apply app_eq_nil in Happ. destruct Happ as [Hnil _].
      apply (fields_valid_issues shape tys _ Hfollows) in Hnil. congruence.
Qed.

End Report.

(** No field hides another: every issue of every field is among the errors
    reported on an object. *)
Lemma every_field_issue_listed shape refinement props kt i :
  In kt shape ->
  In i (issues (field_result (JObject props) kt)) ->
  In i (validation_errors shape refinement (JObject props)).
Proof.
  intros Hkt Hi. unfold validation_errors, field_issues.
  apply in_or_app. left. apply in_flat_map. now exists kt.
Qed.

(** ** The two schemas of schema.ts *)
Section ClearHeatSchemas.
Context `{JsRuntime}.

Lemma ClearHeatInput_distinct : distinct (map fst ClearHeatInput) = true.
Proof. reflexivity. Qed.

Lemma ClearHeatInput_no_proto : ~ In "__proto__" (map fst ClearHeatInput).
Proof. simpl. intuition discriminate. Qed.

(** With every field valid, the parsed object holds each field's value and
    the outcome is decided by the cross-field rule alone. *)
Lemma valid_fields_outcome shape refinement props :
  follows shape ClearHeatInput ->
  fields_valid shape (JObject props) = true ->
  safeParse (superRefine (z_object shape) refinement) (JObject props)
  = match cross_field_issues refinement (value (z_object shape [] (JObject props))) with
    | [] => success (value (z_object shape [] (JObject props)))
    | added => failure added
    end.
Proof.
  intros HF Hv.
  rewrite safeParse_superRefine, z_object_status, z_object_issues.
  destruct (some_field_aborted shape (JObject props)) eqn:Ea.
  { apply aborted_not_valid in Ea. congruence. }
  rewrite Hv.
  rewrite (proj1 (fields_valid_issues shape ClearHeatInput _ HF) Hv).
  reflexivity.
Qed.

Lemma valid_fields_get shape props k t :
  follows shape ClearHeatInput ->
  fields_valid shape (JObject props) = true ->
  In (k, t) shape ->
  get (value (z_object shape [] (JObject props))) k = value (t [k] (get (JObject props) k)).
Proof.
  intros HF Hv Hin. apply z_object_get; [| | |exact Hin].
  - destruct (some_field_aborted shape (JObject props)) eqn:Ea; [|reflexivity].
    apply aborted_not_valid in Ea. congruence.
  - rewrite (follows_keys _ _ HF). apply ClearHeatInput_distinct.
  - intros ->. apply ClearHeatInput_no_proto. rewrite <- (follows_keys _ _ HF).
    change "__proto__" with (fst ("__proto__", t)). now apply in_map.
Qed.

End ClearHeatSchemas.

Ltac in_shape := cbn; repeat (first [left; reflexivity | right]).

(** C2.  On a raw object whose fields are all valid: with [bill_mode]
    [annual_spend] and no [annual_spend_eur], validation fails with one error,
    at path [annual_spend_eur]; likewise for [annual_fuel_use]; with
    [bill_mode] [none] validation succeeds whatever the two optional fields
    are.  This holds for both schemas. *)
Theorem bill_mode_requirement `{JsRuntime} (props : list (string * JsValue)) :
  let raw := JObject props in
  (fields_valid Coerce.shape raw = true ->
   (get raw "bill_mode" = JString "annual_spend" ->
    get raw "annual_spend_eur" = JUndefined ->
    safeParse Coerce.clearHeatSchema raw
    = failure [mkIssue (custom "Required when bill mode is annual spend.")
                       ["annual_spend_eur"]])
   /\ (get raw "bill_mode" = JString "annual_fuel_use" ->
       get raw "annual_fuel_use" = JUndefined ->
       safeParse Coerce.clearHeatSchema raw
       = failure [mkIssue (custom "Required when bill mode is annual fuel use.")
                          ["annual_fuel_use"]])
   /\ (get raw "bill_mode" = JString "none" ->
       exists data, safeParse Coerce.clearHeatSchema raw = success data))
  /\
  (fields_valid Preprocess.shape raw = true ->
   (get raw "bill_mode" = JString "annual_spend" ->
    get raw "annual_spend_eur" = JUndefined ->
    safeParse Preprocess.clearHeatSchema raw
    = failure [mkIssue (custom "Required when bill_mode is annual_spend")
                       ["annual_spend_eur"]])
   /\ (get raw "bill_mode" = JString "annual_fuel_use" ->
       get raw "annual_fuel_use" = JUndefined ->
       safeParse Preprocess.clearHeatSchema raw
       = failure [mkIssue (custom "Required when bill_mode is annual_fuel_use")
                          ["annual_fuel_use"]])
   /\ (get raw "bill_mode" = JString "none" ->
       exists data, safeParse Preprocess.clearHeatSchema raw = success data)).
Proof.
  intros raw. split; intros Hv.
  - pose proof Coerce_shape_follows as HF.
    pose proof (valid_fields_outcome _ Coerce.refinement props HF Hv) as Hout.
    pose proof (valid_fields_get _ props "bill_mode" Coerce.bill_mode HF Hv
                  ltac:(in_shape)) as Hbm.
    pose proof (valid_fields_get _ props "annual_spend_eur" Coerce.annual_spend_eur HF Hv
                  ltac:(in_shape)) as Hsp.
    pose proof (valid_fields_get _ props "annual_fuel_use" Coerce.annual_fuel_use HF Hv
                  ltac:(in_shape)) as Hfu.
    fold raw in Hout, Hbm, Hsp, Hfu.
    unfold Coerce.clearHeatSchema. rewrite Hout.
    unfold cross_field_issues, Coerce.refinement, billModeRefinement.
    rewrite Hbm, Hsp, Hfu.
    split; [|split].
    + intros -> ->. reflexivity.
    + intros -> ->. reflexivity.
    + intros ->. eexists. reflexivity.
  - pose proof Preprocess_shape_follows as HF.
    pose proof (valid_fields_outcome _ Preprocess.refinement props HF Hv) as Hout.
    pose proof (valid_fields_get _ props "bill_mode" Preprocess.bill_mode HF Hv
                  ltac:(in_shape)) as Hbm.
    pose proof (valid_fields_get _ props "annual_spend_eur" Preprocess.annual_spend_eur
                  HF Hv ltac:(in_shape)) as Hsp.
    pose proof (valid_fields_get _ props "annual_fuel_use" Preprocess.annual_fuel_use
                  HF Hv ltac:(in_shape)) as Hfu.
    fold raw in Hout, Hbm, Hsp, Hfu.
    unfold Preprocess.clearHeatSchema. rewrite Hout.
    unfold cross_field_issues, Preprocess.refinement, billModeRefinement.
    rewrite Hbm, Hsp, Hfu.
    split; [|split].
    + intros -> ->. reflexivity.
    + intros -> ->. reflexivity.
    + intros ->. eexists. reflexivity.
Qed.

(** The form's [defaultValues] (CalculatorWizard.tsx), and variations of
    them used as concrete inputs. *)
Definition defaultValues_without_spend : list (string * JsValue) :=
  [ ("ber_band", JString "C");
    ("floor_area_m2", JNumber (Finite 120));
    ("emitters", JString "radiators");
    ("heating_pattern", JString "normal");
    ("wood_use", JString "none");
    ("occupants", JNumber (Finite 2));
    ("fuel_type", JString "kerosene");
    ("fuel_price_eur_per_unit", JNumber (Finite (11 # 10)));
    ("electricity_price_eur_per_kwh", JNumber (Finite (35 # 100)));
    ("boiler_efficiency", JNumber (Finite (85 # 100)));
    ("hp_quote_eur", JNumber (Finite 12000));
    ("grant_applied", JBool true);
    ("grant_value_eur", JNumber (Finite 6500));
    ("bill_mode", JString "annual_spend") ].

Definition defaultValues : JsValue :=
  JObject (defaultValues_without_spend ++ [("annual_spend_eur", JNumber (Finite 2400))]).

(** [o] with key [k] set to [v] (a later write of the same key wins). *)
Definition with_field (k : string) (v : JsValue) (o : list (string * JsValue))
  : list (string * JsValue) := (k, v) :: o.

Definition unknown_band_without_spend : JsValue :=
  JObject (with_field "ber_band" (JString "Z") defaultValues_without_spend).

Section BillModeExample.
#[local] Existing Instance DecimalRuntime.decimalRuntime.

Lemma bill_mode_requirement_witness :
  safeParse Coerce.clearHeatSchema (JObject defaultValues_without_spend)
  = failure [mkIssue (custom "Required when bill mode is annual spend.")
                     ["annual_spend_eur"]]
  /\ safeParse Preprocess.clearHeatSchema
       (JObject (with_field "bill_mode" (JString "annual_fuel_use") defaultValues_without_spend))
     = failure [mkIssue (custom "Required when bill_mode is annual_fuel_use")
                        ["annual_fuel_use"]]
  /\ exists data,
       safeParse Preprocess.clearHeatSchema
         (JObject (with_field "bill_mode" (JString "none") defaultValues_without_spend))
       = success data.
Proof.
  split; [|split].
  - apply (proj1 (proj1 (bill_mode_requirement defaultValues_without_spend)
                        ltac:(reflexivity))); reflexivity.
  - apply (proj1 (proj2 (proj2 (bill_mode_requirement
             (with_field "bill_mode" (JString "annual_fuel_use") defaultValues_without_spend))
             ltac:(reflexivity)))); reflexivity.
  - apply (proj2 (proj2 (proj2 (bill_mode_requirement
             (with_field "bill_mode" (JString "none") defaultValues_without_spend))
             ltac:(reflexivity)))); reflexivity.
Defined.

End BillModeExample.

(** ** Failed checks *)
Section FailedChecks.
Context `{JsRuntime}.

Lemma check_issue_in checks path n c i :
  In c checks -> In i (check_issue n c) -> In (mkIssue i path) (number_issues checks path n).
Proof.
  intros Hc Hi. unfold number_issues. apply in_flat_map. exists c. split; [exact Hc|].
  now apply (in_map (fun i => mkIssue i path)).
Qed.

(** A failed check makes the number dirty and its issue is among those
    raised, whatever the other checks. *)
Lemma failed_check_reported checks path n c i :
  n <> NaN -> In c checks -> In i (check_issue n c) ->
  status (ZodNumber_parse checks path (JNumber n)) = dirty
  /\ In (mkIssue i path) (issues (ZodNumber_parse checks path (JNumber n))).
Proof.
  intros Hn Hc Hi. rewrite (ZodNumber_parse_number checks path n Hn).
  pose proof (check_issue_in checks path n c i Hc Hi) as Hin.
  cbn [status issues]. split; [|exact Hin].
  now destruct (number_issues checks path n).
Qed.

(** A numeric field of the schemas: [z.coerce.number()] or
    [z.preprocess(asNumber, z.number())] with the checks [cs], as it is or
    under [.optional()] or [.default(d)]; [conv] is the conversion the field
    applies to a raw value before it checks it. *)
Inductive number_field (cs : list ZodNumberCheck) : ZodType -> (JsValue -> JsValue) -> Prop :=
| nf_coerce : number_field cs (z_coerce_number cs) (fun v => JNumber (ToNumber v))
| nf_preprocess :
    number_field cs (z_preprocess Preprocess.asNumber (z_number cs)) Preprocess.asNumber
| nf_optional t conv : number_field cs t conv -> number_field cs (optional t) conv
| nf_default t conv d : number_field cs t conv -> number_field cs (default t d) conv.

(** Every failed check of every numeric field is among [errors]. *)
Definition failed_checks_listed (shape : list (string * ZodType)) (raw : JsValue)
           (errors : list ZodIssue) : Prop :=
  forall k t cs conv n c i,
    In (k, t) shape -> number_field cs t conv ->
    get raw k <> JUndefined -> conv (get raw k) = JNumber n -> n <> NaN ->
    In c cs -> fails_check n c i ->
    In (mkIssue i [k]) errors.

Lemma fails_check_issue n c i : fails_check n c i -> In i (check_issue n c).
Proof. intros [Hi | m Hm | m Hm]; cbn [check_issue]; rewrite ?Hi, ?Hm; now left. Qed.

Lemma number_field_reports cs t conv :
  number_field cs t conv ->
  forall path v n c i,
    v <> JUndefined -> conv v = JNumber n -> n <> NaN ->
    In c cs -> fails_check n c i ->
    In (mkIssue i path) (issues (t path v)).
Proof.
  induction 1 as [| |t conv _ IH|t conv d _ IH]; intros path v n c i Hv Hconv Hn Hc Hf.
  - injection Hconv as Hconv. unfold z_coerce_number. rewrite Hconv.
    apply (failed_check_reported cs path n c i Hn Hc). now apply fails_check_issue.
  - unfold z_preprocess, z_number. rewrite Hconv.
    apply (failed_check_reported cs path n c i Hn Hc). now apply fails_check_issue.
  - replace (optional t path v) with (t path v) by (now destruct v).
    now apply (IH path v n c i).
  - replace (default t d path v) with (t path v) by (now destruct v).
    now apply (IH path v n c i).
Qed.

Lemma validation_errors_failed_checks shape refinement raw :
  failed_checks_listed shape raw (validation_errors shape refinement raw).
Proof.
  intros k t cs conv n c i Hin Hfield Hv Hconv Hn Hc Hf.
  destruct raw as [| |b|m|s|l|props]; try (now elim Hv).
  apply (every_field_issue_listed shape refinement props (k, t)); [exact Hin|].
  unfold field_result. cbn [fst snd].
  now apply (number_field_reports cs t conv Hfield [k] _ n c i).
Qed.

End FailedChecks.

(** C3, as the code has it.  Where it returns, a validation returns a success
    with an object typed as [ClearHeatInput], and only when there is nothing
    to report, or a failure with at least one error.  The errors are the
    issues of every field, in order, and after them those of the cross-field
    rule; every check a numeric field fails is among them, not only the first
    one; the cross-field rule is not evaluated when some field has a value of
    the wrong type.  The [z.preprocess] schema returns on every raw input.
    The [z.coerce] schema returns unless [Number] throws on the value of one
    of its numeric keys ([Coerce.throws]); there the TypeError leaves
    [safeParse] and nothing is returned. *)
Theorem validation_reports_every_issue `{JsRuntime} (raw : JsValue) :
  (Coerce.throws raw = false ->
   match safeParse Coerce.clearHeatSchema raw with
   | success data =>
       validation_errors Coerce.shape Coerce.refinement raw = [] /\ is_ClearHeatInput data
   | failure errors =>
       errors <> [] /\ errors = validation_errors Coerce.shape Coerce.refinement raw
       /\ failed_checks_listed Coerce.shape raw errors
   end)
  /\
  match safeParse Preprocess.clearHeatSchema raw with
  | success data =>
      validation_errors Preprocess.shape Preprocess.refinement raw = []
      /\ is_ClearHeatInput data
  | failure errors =>
      errors <> [] /\ errors = validation_errors Preprocess.shape Preprocess.refinement raw
      /\ failed_checks_listed Preprocess.shape raw errors
  end.
Proof.
  split.
  - intros _.
    pose proof (validation_report Coerce.shape ClearHeatInput Coerce.refinement
                  Coerce_shape_follows ClearHeatInput_distinct ClearHeatInput_no_proto raw)
      as Hreport.
    unfold Coerce.clearHeatSchema.
    destruct (safeParse (superRefine (z_object Coerce.shape) Coerce.refinement) raw)
      as [data | errors]; [exact Hreport|].
    destruct Hreport as [Hne ->]. split; [exact Hne|]. split; [reflexivity|].
    apply validation_errors_failed_checks.
  - pose proof (validation_report Preprocess.shape ClearHeatInput Preprocess.refinement
                  Preprocess_shape_follows ClearHeatInput_distinct ClearHeatInput_no_proto raw)
      as Hreport.
    unfold Preprocess.clearHeatSchema.
    destruct (safeParse (superRefine (z_object Preprocess.shape) Preprocess.refinement) raw)
      as [data | errors]; [exact Hreport|].
    destruct Hreport as [Hne ->]. split; [exact Hne|]. split; [reflexivity|].
    apply validation_errors_failed_checks.
Qed.

Section ValidationExample.
#[local] Existing Instance DecimalRuntime.decimalRuntime.

(** The claim of C3 fails when a field has the wrong type: with an unknown
    [ber_band], [bill_mode] [annual_spend] and no [annual_spend_eur], the only
    error is the one of [ber_band]; the violated cross-field rule is not
    reported, by either schema. *)
Lemma cross_field_rule_not_reported_counterexample :
  get unknown_band_without_spend "bill_mode" = JString "annual_spend"
  /\ get unknown_band_without_spend "annual_spend_eur" = JUndefined
  /\ safeParse Coerce.clearHeatSchema unknown_band_without_spend
     = failure [mkIssue (invalid_enum_value ["A"; "B"; "C"; "D"; "E"; "F"; "G"] "Z")
                        ["ber_band"]]
  /\ safeParse Preprocess.clearHeatSchema unknown_band_without_spend
     = failure [mkIssue (invalid_enum_value ["A"; "B"; "C"; "D"; "E"; "F"; "G"] "Z")
                        ["ber_band"]].
Proof. repeat split; reflexivity. Qed.

(** A number that fails two checks of its field is reported twice; an input
    on which a coercion throws is left out. *)
Definition tooManyOccupants : JsValue :=
  JObject (with_field "occupants" (JNumber (Finite (51 # 2))) defaultValues_without_spend).

Definition hostileOccupants : JsValue :=
  JObject (with_field "occupants" (JObject [("toString", JNull)])
                      defaultValues_without_spend).

Lemma validation_reports_every_issue_witness :
  Coerce.throws hostileOccupants = true
  /\ Coerce.throws tooManyOccupants = false
  /\ exists errors,
       safeParse Coerce.clearHeatSchema tooManyOccupants = failure errors
       /\ In (mkIssue (invalid_type t_integer t_float) ["occupants"]) errors
       /\ In (mkIssue (too_big 20 true) ["occupants"]) errors.
Proof.
  split; [reflexivity|]. split; [reflexivity|].
  pose proof (proj1 (validation_reports_every_issue tooManyOccupants) eq_refl) as Hreport.
  destruct (safeParse Coerce.clearHeatSchema tooManyOccupants) as [data | errors] eqn:Hparse;
    [discriminate Hparse|].
  destruct Hreport as [_ [_ Hlisted]].
  exists errors. split; [reflexivity|]. split.
  - apply (Hlisted "occupants" Coerce.occupants [chk_int; chk_min 1; chk_max 20]
             (fun v => JNumber (ToNumber v)) (Finite (51 # 2)) chk_int);
      [in_shape | apply nf_coerce | discriminate | reflexivity | discriminate
      | now left | now constructor].
  - apply (Hlisted "occupants" Coerce.occupants [chk_int; chk_min 1; chk_max 20]
             (fun v => JNumber (ToNumber v)) (Finite (51 # 2)) (chk_max 20));
      [in_shape | apply nf_coerce | discriminate | reflexivity | discriminate
      | right; right; now left | now constructor].
Defined.

(** Failed checks of several fields, and the cross-field rule after them,
    are reported together when every value has the right type. *)
Example several_errors_reported :
  safeParse Coerce.clearHeatSchema
    (JObject (with_field "occupants" (JNumber (Finite (5 # 2)))
             (with_field "floor_area_m2" (JString "19") defaultValues_without_spend)))
  = failure
      [ mkIssue (too_small 20 true) ["floor_area_m2"];
        mkIssue (invalid_type t_integer t_float) ["occupants"];
        mkIssue (custom "Required when bill mode is annual spend.") ["annual_spend_eur"] ].
Proof. reflexivity. Qed.

End ValidationExample.

(** ** Numeric fields *)
Section NumericFields.
Context `{JsRuntime}.

Lemma asNumber_blank s : trim s = "" -> Preprocess.asNumber (JString s) = JUndefined.
Proof. intros Hs. unfold Preprocess.asNumber. now rewrite Hs. Qed.

Lemma asNumber_numeric s :
  trim s <> "" -> isFinite (StringToNumber (trim s)) = true ->
  Preprocess.asNumber (JString s) = JNumber (StringToNumber (trim s)).
Proof.
  intros Hs Hfin. unfold Preprocess.asNumber.
  apply String.eqb_neq in Hs. now rewrite Hs, Hfin.
Qed.

End NumericFields.

(** C4, as the code has it.  In the [z.preprocess] schema [asNumber] turns a
    string of white space only into [undefined], so that a numeric field
    reports a missing number, and turns a string that reads as a finite
    number into that number.  In the [z.coerce] schema every value goes
    through [Number(v)], which turns such a string into [0].  In both, a
    number below a [min] or above a [max] bound is rejected with a
    [too_small] or [too_big] issue that carries the bound. *)
Theorem numeric_field_coercion `{JsRuntime} (path : list string) :
  (forall s, trim s = "" -> Preprocess.asNumber (JString s) = JUndefined) /\
  (forall lo hi s, trim s = "" ->
     Preprocess.num lo hi path (JString s)
     = INVALID [mkIssue (invalid_type t_number t_undefined) path]) /\
  (forall s, trim s <> "" -> isFinite (StringToNumber (trim s)) = true ->
     Preprocess.asNumber (JString s) = JNumber (StringToNumber (trim s))) /\
  (forall checks s,
     z_coerce_number checks path (JString s)
     = ZodNumber_parse checks path (JNumber (StringToNumber s))) /\
  (forall checks s, trim s = "" ->
     z_coerce_number checks path (JString s)
     = ZodNumber_parse checks path (JNumber (Finite 0))) /\
  (forall checks n lo, n <> NaN -> In (chk_min lo) checks ->
     num_ltb n (Finite lo) = true ->
     status (ZodNumber_parse checks path (JNumber n)) = dirty
     /\ In (mkIssue (too_small lo true) path)
           (issues (ZodNumber_parse checks path (JNumber n)))) /\
  (forall checks n hi, n <> NaN -> In (chk_max hi) checks ->
     num_ltb (Finite hi) n = true ->
     status (ZodNumber_parse checks path (JNumber n)) = dirty
     /\ In (mkIssue (too_big hi true) path)
           (issues (ZodNumber_parse checks path (JNumber n)))).
Proof.
  split; [exact asNumber_blank|].
  split.
  { intros lo hi s Hs. unfold Preprocess.num, z_preprocess.
    now rewrite (asNumber_blank s Hs). }
  split; [exact asNumber_numeric|].
  split; [reflexivity|].
  split.
  { intros checks s Hs. unfold z_coerce_number. cbn [ToNumber].
    now rewrite (StringToNumber_blank s Hs). }
  split.
  - intros checks n lo Hn Hc Hlt.
    apply (failed_check_reported checks path n (chk_min lo)); [exact Hn | exact Hc|].
    cbn [check_issue]. rewrite Hlt. now left.
  - intros checks n hi Hn Hc Hlt.
    apply (failed_check_reported checks path n (chk_max hi)); [exact Hn | exact Hc|].
    cbn [check_issue]. rewrite Hlt. now left.
Qed.

Section NumericExample.
#[local] Existing Instance DecimalRuntime.decimalRuntime.

Lemma numeric_field_coercion_witness :
  Preprocess.asNumber (JString "  ") = JUndefined
  /\ Preprocess.floor_area_m2 ["floor_area_m2"] (JString "")
     = INVALID [mkIssue (invalid_type t_number t_undefined) ["floor_area_m2"]]
  /\ Preprocess.asNumber (JString " 42 ") = JNumber (Finite 42)
  /\ Coerce.floor_area_m2 ["floor_area_m2"] (JString "")
     = ZodNumber_parse [chk_min 20; chk_max 1000] ["floor_area_m2"] (JNumber (Finite 0))
  /\ In (mkIssue (too_small 20 true) ["floor_area_m2"])
        (issues (Coerce.floor_area_m2 ["floor_area_m2"] (JNumber (Finite 19))))
  /\ In (mkIssue (too_big 1000 true) ["floor_area_m2"])
        (issues (Preprocess.floor_area_m2 ["floor_area_m2"] (JNumber (Finite 1001)))).
Proof.
  pose proof (numeric_field_coercion ["floor_area_m2"])
    as [H1 [H2 [H3 [_ [H5 [H6 H7]]]]]].
  split; [apply H1; reflexivity|].
  split; [apply (H2 20%Q 1000%Q); reflexivity|].
  split; [apply (H3 " 42 "); [discriminate | reflexivity]|].
  split; [apply (H5 [chk_min 20; chk_max 1000] ""); reflexivity|].
  split.
  - apply (H6 [chk_min 20; chk_max 1000] (Finite 19) 20%Q);
      [discriminate | now left | reflexivity].
  - apply (H7 [chk_min 20; chk_max 1000] (Finite 1001) 1000%Q);
      [discriminate | right; now left | reflexivity].
Defined.

(** The claim of C4 fails on the [z.coerce] schema: the empty string is not
    treated as absent but as the number [0].  An absent [annual_spend_eur]
    stays [undefined] and is missed by the cross-field rule; an empty one
    becomes [0] and the input is accepted. *)
Lemma empty_string_is_zero_counterexample :
  Coerce.annual_spend_eur ["annual_spend_eur"] (JString "") = OK (JNumber (Finite 0))
  /\ Coerce.annual_spend_eur ["annual_spend_eur"] JUndefined = OK JUndefined
  /\ (exists data,
        safeParse Coerce.clearHeatSchema
          (JObject (with_field "annual_spend_eur" (JString "") defaultValues_without_spend))
        = success data
        /\ get data "annual_spend_eur" = JNumber (Finite 0))
  /\ safeParse Coerce.clearHeatSchema (JObject defaultValues_without_spend)
     = failure [mkIssue (custom "Required when bill mode is annual spend.")
                        ["annual_spend_eur"]].
Proof.
  split; [reflexivity|]. split; [reflexivity|]. split; [|reflexivity].
  eexists. split; reflexivity.
Qed.

End NumericExample.

(** ** The evaluate route *)
Section EvaluateRoute.
Import Route.

Definition note_provided : string := "Annual spend provided: confidence increased.".
Definition note_missing : string :=
  "Annual spend missing: results rely on typical consumption estimates.".

(** The mock payload around its one note. *)
Definition mock_payload (note : string) : ResponseBody :=
  MockOutput "LIKELY" (78 # 100) (300, 900)%Q (8, 14)%Q
    [ "Electricity price held constant in real terms";
      "Typical seasonal efficiency assumed for system type and emitters";
      "No fabric upgrades included unless stated" ]
    [ note ] JNull.

Lemma optional_number_truthy v :
  has_type (ty_optional ty_number) v ->
  (ToBoolean v = true
   <-> exists n, v = JNumber n /\ n <> NaN /\ num_eqb n (Finite 0) = false).
Proof.
  intros [-> | [n [-> Hn]]].
  - split; [discriminate | intros [n [Hv _]]; discriminate].
  - split.
    + intros Ht. exists n. split; [reflexivity|]. split; [exact Hn|].
      destruct n as [|s|q]; [congruence | reflexivity |].
      simpl in *. now apply negb_true_iff.
    + intros [m [Hm [_ Hz]]]. injection Hm as <-.
      destruct n as [|s|q]; [congruence | reflexivity |].
      simpl in *. now apply negb_true_iff.
Qed.

Lemma is_ClearHeatInput_spend data :
  is_ClearHeatInput data -> has_type (ty_optional ty_number) (get data "annual_spend_eur").
Proof.
  unfold is_ClearHeatInput. rewrite Forall_forall. intros Hall.
  apply (Hall ("annual_spend_eur", ty_optional ty_number)). in_shape.
Qed.

End EvaluateRoute.

(** C8, as the code has it.  When validation of the body fails the route
    answers 400 with [{ error: "Invalid input", details }], the details being
    the flattened errors.  When it succeeds the route answers 200 with the
    mock payload, fixed but for its one note: "provided" when the parsed
    [annual_spend_eur] is a number other than 0, "missing" otherwise. *)
Theorem evaluate_route_response `{JsRuntime} (json : JsValue) :
  (forall schema,
     match safeParse schema json with
     | failure error =>
         Route.POST schema json
         = Route.mkResponse 400 (Route.InvalidInput "Invalid input" (flatten error))
     | success data =>
         Route.POST schema json
         = Route.mkResponse 200
             (mock_payload (if ToBoolean (get data "annual_spend_eur")
                            then note_provided else note_missing))
     end) /\
  (forall schema data,
     schema = Coerce.clearHeatSchema \/ schema = Preprocess.clearHeatSchema ->
     safeParse schema json = success data ->
     (ToBoolean (get data "annual_spend_eur") = true
      <-> exists n, get data "annual_spend_eur" = JNumber n
                    /\ n <> NaN /\ num_eqb n (Finite 0) = false)).
Proof.
  split.
  - intros schema. unfold Route.POST. now destruct (safeParse schema json).
  - intros schema data Hs Hok. apply optional_number_truthy.
    apply is_ClearHeatInput_spend.
    destruct Hs as [-> | ->].
    + pose proof (validation_report Coerce.shape ClearHeatInput Coerce.refinement
                    Coerce_shape_follows ClearHeatInput_distinct ClearHeatInput_no_proto
                    json) as Hc.
      unfold Coerce.clearHeatSchema in Hok. rewrite Hok in Hc. apply Hc.
    + pose proof (validation_report Preprocess.shape ClearHeatInput Preprocess.refinement
                    Preprocess_shape_follows ClearHeatInput_distinct
                    ClearHeatInput_no_proto json) as Hp.
      unfold Preprocess.clearHeatSchema in Hok. rewrite Hok in Hp. apply Hp.
Qed.

Section EvaluateExample.
#[local] Existing Instance DecimalRuntime.decimalRuntime.

Definition valuesWithoutBill : JsValue :=
  JObject (with_field "bill_mode" (JString "none") defaultValues_without_spend).

Lemma evaluate_route_response_witness :
  ToBoolean (get defaultValues "annual_spend_eur") = true
  <-> exists n, get defaultValues "annual_spend_eur" = JNumber n
                /\ n <> NaN /\ num_eqb n (Finite 0) = false.
Proof.
  apply (proj2 (evaluate_route_response defaultValues) Coerce.clearHeatSchema defaultValues).
  - left. reflexivity.
  - reflexivity.
Defined.

(** The claim of C8 fails: two valid bodies get different payloads. *)
Lemma mock_payload_not_fixed_counterexample :
  Route.POST Coerce.clearHeatSchema defaultValues
  = Route.mkResponse 200 (mock_payload note_provided)
  /\ Route.POST Coerce.clearHeatSchema valuesWithoutBill
     = Route.mkResponse 200 (mock_payload note_missing)
  /\ Route.POST Coerce.clearHeatSchema defaultValues
     <> Route.POST Coerce.clearHeatSchema valuesWithoutBill.
Proof.
  split; [reflexivity|]. split; [reflexivity|].
  intros Heq. vm_compute in Heq. discriminate Heq.
Qed.

End EvaluateExample.

(** ** The wizard's request flow *)
Import Wizard.

(** How the evaluate call can end: a transport failure, a non-success
    status, a success status with a body that is not JSON, or a success. *)
Inductive evaluate_fails : Completion Response -> Prop :=
| transport_failure e : evaluate_fails (Throw e)
| non_success_status res : ok res = false -> evaluate_fails (Normal res)
| unreadable_body res e : ok res = true -> json res = Throw e -> evaluate_fails (Normal res).

Definition evaluate_succeeds (net : Completion Response) : Prop :=
  exists res v, net = Normal res /\ ok res = true /\ json res = Normal v.

(** The request body [{ inputs }]. *)
Definition inputs_body (values : JsValue) : JsValue := JObject [("inputs", values)].

(** What a submission of [values] is expected to log when it fails with an
    alert, and what one download is expected to log. *)
Definition failed_submission_trace (base : string) (values : JsValue) (message : string)
  : list Effect :=
  [ SetLoading true; SetLastInputs values;
    Fetch (base ++ "/run") "POST" (inputs_body values);
    Alert message; SetLoading false ].

Definition download_trace (base : string) (values : JsValue) (net : Completion Response)
  : list Effect :=
  Fetch (base ++ "/pdf") "POST" (inputs_body values)
  :: match net with
     | Normal res =>
         match blob res with
         | Normal b =>
             [ CreateObjectURL b; AnchorClick b "clearheat_report.pdf"; RevokeObjectURL b ]
         | Throw _ => []
         end
     | Throw _ => []
     end.

Section WizardFacts.
Variable base : string.
Variable schema : ZodType.

Ltac run :=
  unfold CalculatorWizard1.generateReport, CalculatorWizard2.generateReport,
    CalculatorWizard1.clickDownload, CalculatorWizard2.clickDownload,
    CalculatorWizard1.runModel, CalculatorWizard2.runModel,
    CalculatorWizard1.downloadPdf, CalculatorWizard2.downloadPdf,
    handleSubmit, saveResponse, try_finally, try_catch, bind, fetch, await, throw, ret,
    setLoading, setLastInputs, setReportReady, alert, effect, getState, message_or,
    failed_submission_trace, download_trace, inputs_body;
  cbn.

Lemma bind_getState {A} (k : WizardState -> M A) s : bind getState k s = k s s.
Proof. unfold bind, getState. now destruct (k s s). Qed.

Lemma runModel1_fails net values s :
  evaluate_fails net ->
  exists message,
    CalculatorWizard1.runModel base net values s
    = mkOutcome (mkState (step s) (reportReady s) false (Some values))
                (failed_submission_trace base values message) (Normal tt).
Proof.
  intros [e | res Hok | res e Hok Hjson]; run.
  - eexists; reflexivity.
  - rewrite Hok. cbn. eexists; reflexivity.
  - rewrite Hok. cbn. rewrite Hjson. cbn. eexists; reflexivity.
Qed.

Lemma runModel2_fails net values s :
  evaluate_fails net ->
  exists message,
    CalculatorWizard2.runModel net values s
    = mkOutcome (mkState (step s) (reportReady s) false (Some values))
                (failed_submission_trace CalculatorWizard2.BACKEND_BASE values message)
                (Normal tt).
Proof.
  intros [e | res Hok | res e Hok Hjson]; run.
  - eexists; reflexivity.
  - rewrite Hok. cbn. destruct (text res); cbn; eexists; reflexivity.
  - rewrite Hok. cbn. rewrite Hjson. cbn. eexists; reflexivity.
Qed.

Lemma runModel1_succeeds net values s :
  evaluate_succeeds net ->
  CalculatorWizard1.runModel base net values s
  = mkOutcome (mkState (step s) true false (Some values))
              [ SetLoading true; SetLastInputs values;
                Fetch (base ++ "/run") "POST" (inputs_body values);
                SetReportReady true; SetLoading false ] (Normal tt).
Proof.
  intros [res [v [-> [Hok Hjson]]]]. run. rewrite Hok. cbn. rewrite Hjson. reflexivity.
Qed.

Lemma runModel2_succeeds net values s :
  evaluate_succeeds net ->
  CalculatorWizard2.runModel net values s
  = mkOutcome (mkState (step s) true false (Some values))
              [ SetLoading true; SetLastInputs values;
                Fetch (CalculatorWizard2.BACKEND_BASE ++ "/run") "POST" (inputs_body values);
                SetReportReady true; SetLoading false ] (Normal tt).
Proof.
  intros [res [v [-> [Hok Hjson]]]]. run. rewrite Hok. cbn. rewrite Hjson. reflexivity.
Qed.

Lemma generateReport1_runs net formValues values s :
  step s = 2 -> loading s = false ->
  safeParse schema formValues = success values ->
  CalculatorWizard1.generateReport base schema net formValues s
  = CalculatorWizard1.runModel base net values s.
Proof.
  intros Hstep Hload Hparse.
  unfold CalculatorWizard1.generateReport. rewrite bind_getState.
  rewrite Hstep, Hload. cbn [Nat.eqb andb negb].
  unfold handleSubmit. now rewrite Hparse.
Qed.

Lemma generateReport2_runs net formValues values s :
  step s = 2 -> loading s = false -> reportReady s = false ->
  safeParse schema formValues = success values ->
  CalculatorWizard2.generateReport schema net formValues s
  = CalculatorWizard2.runModel net values s.
Proof.
  intros Hstep Hload Hready Hparse.
  unfold CalculatorWizard2.generateReport. rewrite bind_getState.
  rewrite Hstep, Hload, Hready. cbn [Nat.eqb andb negb].
  unfold handleSubmit. now rewrite Hparse.
Qed.

End WizardFacts.

(** C6.  On Step 3, submitting form values that pass validation while the
    evaluate call fails (transport failure, non-success status, or a body
    that is not JSON) shows one alert, leaves the wizard on Step 3 with
    [reportReady] false and [loading] false, in both components; the same
    values can then be submitted again, and a successful evaluate makes the
    report ready. *)
Theorem failed_evaluate_alerts_and_stays (base : string) (schema : ZodType)
        (s : WizardState) (net retry : Completion Response) (formValues values : JsValue) :
  step s = 2 -> loading s = false -> reportReady s = false ->
  safeParse schema formValues = success values ->
  evaluate_fails net ->
  evaluate_succeeds retry ->
  let s' := mkState 2 false false (Some values) in
  (exists message,
     CalculatorWizard1.generateReport base schema net formValues s
     = mkOutcome s' (failed_submission_trace base values message) (Normal tt))
  /\ (exists message,
        CalculatorWizard2.generateReport schema net formValues s
        = mkOutcome s' (failed_submission_trace CalculatorWizard2.BACKEND_BASE
                                                values message) (Normal tt))
  /\ reportReady (final (CalculatorWizard1.generateReport base schema retry formValues s'))
     = true
  /\ reportReady (final (CalculatorWizard2.generateReport schema retry formValues s'))
     = true.
Proof.
  intros Hstep Hload Hready Hparse Hfail Hretry s'.
  split; [|split; [|split]].
  - rewrite (generateReport1_runs base schema net formValues values s Hstep Hload Hparse).
    destruct (runModel1_fails base net values s Hfail) as [message Hrun].
    exists message. rewrite Hrun, Hstep, Hready. reflexivity.
  - rewrite (generateReport2_runs schema net formValues values s
               Hstep Hload Hready Hparse).
    destruct (runModel2_fails net values s Hfail) as [message Hrun].
    exists message. rewrite Hrun, Hstep, Hready. reflexivity.
  - rewrite (generateReport1_runs base schema retry formValues values s'
               eq_refl eq_refl Hparse).
    now rewrite (runModel1_succeeds base retry values s' Hretry).
  - rewrite (generateReport2_runs schema retry formValues values s'
               eq_refl eq_refl eq_refl Hparse).
    now rewrite (runModel2_succeeds retry values s' Hretry).
Qed.

Section WizardExamples.
#[local] Existing Instance DecimalRuntime.decimalRuntime.

Definition onStep3 : WizardState := mkState 2 false false None.

Definition response500 : Response :=
  mkFetched false (Normal "Internal Server Error") (Throw (Some "Unexpected token"))
            (Normal "").

Definition response200 : Response :=
  mkFetched true (Normal "{}") (Normal (JObject [])) (Normal "").

Definition http500 : Completion Response := Normal response500.
Definition http200 : Completion Response := Normal response200.

Definition pdfResponse : Completion Response :=
  Normal (mkFetched true (Throw None) (Throw None) (Normal "%PDF-1.7")).

Lemma defaultValues_valid : safeParse Coerce.clearHeatSchema defaultValues = success defaultValues.
Proof. vm_compute. reflexivity. Defined.

Lemma http200_succeeds : evaluate_succeeds http200.
Proof. exists response200, (JObject []). repeat split. Defined.

Lemma failed_evaluate_alerts_and_stays_witness :
  (exists message,
     CalculatorWizard1.generateReport "http://127.0.0.1:8000" Coerce.clearHeatSchema
       http500 defaultValues onStep3
     = mkOutcome (mkState 2 false false (Some defaultValues))
         (failed_submission_trace "http://127.0.0.1:8000" defaultValues message)
         (Normal tt))
  /\ reportReady
       (final (CalculatorWizard2.generateReport Coerce.clearHeatSchema http200 defaultValues
                 (mkState 2 false false (Some defaultValues))))
     = true.
Proof.
  pose proof (failed_evaluate_alerts_and_stays "http://127.0.0.1:8000"
                Coerce.clearHeatSchema onStep3 http500 http200 defaultValues defaultValues
                eq_refl eq_refl eq_refl defaultValues_valid
                (non_success_status response500 eq_refl) http200_succeeds)
    as [H1 [_ [_ H4]]].
  split; [exact H1 | exact H4].
Defined.

End WizardExamples.

Section Downloads.
Variable base : string.
Variable schema : ZodType.

Lemma saveResponse_trace net url body s :
  final (bind (fetch net url body) saveResponse s) = s
  /\ trace (bind (fetch net url body) saveResponse s)
     = Fetch url "POST" body
       :: match net with
          | Normal res =>
              match blob res with
              | Normal b =>
                  [ CreateObjectURL b; AnchorClick b "clearheat_report.pdf";
                    RevokeObjectURL b ]
              | Throw _ => []
              end
          | Throw _ => []
          end.
Proof.
  unfold saveResponse, fetch, bind, await, effect.
  destruct net as [res|e]; [|now split].
  destruct (blob res); now split.
Qed.

Lemma downloadPdf1_trace net s values :
  lastInputs s = Some values ->
  final (CalculatorWizard1.downloadPdf base net s) = s
  /\ trace (CalculatorWizard1.downloadPdf base net s) = download_trace base values net.
Proof.
  intros Hlast. unfold CalculatorWizard1.downloadPdf. rewrite bind_getState, Hlast.
  apply saveResponse_trace.
Qed.

Lemma downloadPdf2_trace net s values :
  lastInputs s = Some values ->
  final (CalculatorWizard2.downloadPdf net s) = s
  /\ trace (CalculatorWizard2.downloadPdf net s)
     = download_trace CalculatorWizard2.BACKEND_BASE values net.
Proof.
  intros Hlast. unfold CalculatorWizard2.downloadPdf. rewrite bind_getState, Hlast.
  apply saveResponse_trace.
Qed.

Lemma clickDownload1_trace net s values :
  reportReady s = true -> lastInputs s = Some values ->
  final (CalculatorWizard1.clickDownload base net s) = s
  /\ trace (CalculatorWizard1.clickDownload base net s) = download_trace base values net.
Proof.
  intros Hready Hlast.
  unfold CalculatorWizard1.clickDownload. rewrite bind_getState, Hready.
  now apply downloadPdf1_trace.
Qed.

Lemma clickDownload2_trace net s values :
  reportReady s = true -> lastInputs s = Some values ->
  final (CalculatorWizard2.clickDownload net s) = s
  /\ trace (CalculatorWizard2.clickDownload net s)
     = download_trace CalculatorWizard2.BACKEND_BASE values net.
Proof.
  intros Hready Hlast.
  unfold CalculatorWizard2.clickDownload. rewrite bind_getState, Hready.
  now apply downloadPdf2_trace.
Qed.

Lemma downloads1_session downloads s values :
  reportReady s = true -> lastInputs s = Some values ->
  CalculatorWizard1.session base schema
    (map CalculatorWizard1.ClickDownload downloads) s
  = (s, flat_map (download_trace base values) downloads).
Proof.
  intros Hready Hlast. induction downloads as [|net rest IH]; [reflexivity|].
  cbn [map CalculatorWizard1.session CalculatorWizard1.perform flat_map].
  destruct (clickDownload1_trace net s values Hready Hlast) as [Hf Ht].
  destruct (CalculatorWizard1.clickDownload base net s) as [s1 t1 c1].
  cbn [final trace] in Hf, Ht. subst s1 t1. now rewrite IH.
Qed.

Lemma downloads2_session downloads s values :
  reportReady s = true -> lastInputs s = Some values ->
  CalculatorWizard2.session schema
    (map CalculatorWizard2.ClickDownload downloads) s
  = (s, flat_map (download_trace CalculatorWizard2.BACKEND_BASE values) downloads).
Proof.
  intros Hready Hlast. induction downloads as [|net rest IH]; [reflexivity|].
  cbn [map CalculatorWizard2.session CalculatorWizard2.perform flat_map].
  destruct (clickDownload2_trace net s values Hready Hlast) as [Hf Ht].
  destruct (CalculatorWizard2.clickDownload net s) as [s1 t1 c1].
  cbn [final trace] in Hf, Ht. subst s1 t1. now rewrite IH.
Qed.

End Downloads.

(** The log of a submission of [values] whose evaluate call succeeds. *)
Definition successful_submission_trace (base : string) (values : JsValue) : list Effect :=
  [ SetLoading true; SetLastInputs values;
    Fetch (base ++ "/run") "POST" (inputs_body values);
    SetReportReady true; SetLoading false ].

(** C7.  A submission whose evaluate call succeeds sends the parsed values to
    [/run] and leaves them stored with the report ready.  From there any
    number of download clicks leaves the state as it is; each click logs a
    POST to [/pdf] carrying those same values and, when a response with a
    readable body comes back, the save of that body as
    [clearheat_report.pdf]; nothing else is logged: no validation, no request
    to [/run]. *)
Theorem downloads_reuse_cached_inputs (base : string) (schema : ZodType)
        (s : WizardState) (net : Completion Response) (formValues values : JsValue)
        (downloads : list (Completion Response)) :
  step s = 2 -> loading s = false -> reportReady s = false ->
  safeParse schema formValues = success values ->
  evaluate_succeeds net ->
  let s1 := mkState 2 true false (Some values) in
  CalculatorWizard1.generateReport base schema net formValues s
  = mkOutcome s1 (successful_submission_trace base values) (Normal tt)
  /\ CalculatorWizard1.session base schema
       (map CalculatorWizard1.ClickDownload downloads) s1
     = (s1, flat_map (download_trace base values) downloads)
  /\ CalculatorWizard2.generateReport schema net formValues s
     = mkOutcome s1 (successful_submission_trace CalculatorWizard2.BACKEND_BASE values)
                 (Normal tt)
  /\ CalculatorWizard2.session schema
       (map CalculatorWizard2.ClickDownload downloads) s1
     = (s1, flat_map (download_trace CalculatorWizard2.BACKEND_BASE values) downloads).
Proof.
  intros Hstep Hload Hready Hparse Hok s1.
  split; [|split; [|split]].
  - rewrite (generateReport1_runs base schema net formValues values s Hstep Hload Hparse).
    rewrite (runModel1_succeeds base net values s Hok). now rewrite Hstep.
  - now apply downloads1_session.
  - rewrite (generateReport2_runs schema net formValues values s
               Hstep Hload Hready Hparse).
    rewrite (runModel2_succeeds net values s Hok). now rewrite Hstep.
  - now apply downloads2_session.
Qed.

Section DownloadExample.
#[local] Existing Instance DecimalRuntime.decimalRuntime.

Lemma downloads_reuse_cached_inputs_witness :
  CalculatorWizard2.session Coerce.clearHeatSchema
    [CalculatorWizard2.ClickDownload pdfResponse; CalculatorWizard2.ClickDownload pdfResponse]
    (mkState 2 true false (Some defaultValues))
  = (mkState 2 true false (Some defaultValues),
     [ Fetch "http://127.0.0.1:8000/pdf" "POST" (inputs_body defaultValues);
       CreateObjectURL "%PDF-1.7"; AnchorClick "%PDF-1.7" "clearheat_report.pdf";
       RevokeObjectURL "%PDF-1.7";
       Fetch "http://127.0.0.1:8000/pdf" "POST" (inputs_body defaultValues);
       CreateObjectURL "%PDF-1.7"; AnchorClick "%PDF-1.7" "clearheat_report.pdf";
       RevokeObjectURL "%PDF-1.7" ]).
Proof.
  exact (proj2 (proj2 (proj2
    (downloads_reuse_cached_inputs "http://127.0.0.1:8000"
       Coerce.clearHeatSchema
       onStep3 http200 defaultValues defaultValues [pdfResponse; pdfResponse]
       eq_refl eq_refl eq_refl defaultValues_valid http200_succeeds)))).
Defined.

End DownloadExample.

(** C9.  With no inputs stored yet, [downloadPdf] does nothing: no request,
    no file, the state as it was. *)
Theorem download_without_inputs_is_noop (base : string) (net : Completion Response)
        (s : WizardState) :
  lastInputs s = None ->
  CalculatorWizard1.downloadPdf base net s = mkOutcome s [] (Normal tt)
  /\ CalculatorWizard2.downloadPdf net s = mkOutcome s [] (Normal tt).
Proof.
  intros Hlast.
  unfold CalculatorWizard1.downloadPdf, CalculatorWizard2.downloadPdf.
  rewrite !bind_getState, Hlast. now split.
Qed.

Lemma download_without_inputs_is_noop_witness :
  CalculatorWizard1.downloadPdf "http://127.0.0.1:8000" pdfResponse initialState
  = mkOutcome initialState [] (Normal tt)
  /\ CalculatorWizard2.downloadPdf pdfResponse initialState
     = mkOutcome initialState [] (Normal tt).
Proof.
  exact (download_without_inputs_is_noop "http://127.0.0.1:8000" pdfResponse initialState
           eq_refl).
Defined.

Section StoredInputs.
Variable base : string.

Lemma runModel1_stores net values s :
  lastInputs (final (CalculatorWizard1.runModel base net values s)) = Some values
  /\ exists rest,
       trace (CalculatorWizard1.runModel base net values s)
       = SetLoading true :: SetLastInputs values
         :: Fetch (base ++ "/run") "POST" (inputs_body values) :: rest.
Proof.
  unfold CalculatorWizard1.runModel, try_finally, try_catch, bind, fetch, await, throw,
    ret, setLoading, setLastInputs, setReportReady, alert, effect, inputs_body.
  destruct net as [res|e]; cbn; [|split; eauto].
  destruct (ok res); cbn; [|split; eauto].
  destruct (json res); cbn; split; eauto.
Qed.

Lemma runModel2_stores net values s :
  lastInputs (final (CalculatorWizard2.runModel net values s)) = Some values
  /\ exists rest,
       trace (CalculatorWizard2.runModel net values s)
       = SetLoading true :: SetLastInputs values
         :: Fetch (CalculatorWizard2.BACKEND_BASE ++ "/run") "POST" (inputs_body values)
         :: rest.
Proof.
  unfold CalculatorWizard2.runModel, try_finally, try_catch, bind, fetch, await, throw,
    ret, setLoading, setLastInputs, setReportReady, alert, effect, inputs_body.
  destruct net as [res|e]; cbn; [|split; eauto].
  destruct (ok res); cbn.
  - destruct (json res); cbn; split; eauto.
  - destruct (text res); cbn; split; eauto.
Qed.

End StoredInputs.

(** C10.  [runModel] sets [lastInputs] to the submitted values before it
    issues the request to [/run]; however the request ends, [lastInputs]
    holds these values afterwards, whatever it held before, and a download
    then sends them. *)
Theorem runModel_stores_inputs_first (base : string) (net download : Completion Response)
        (values : JsValue) (s : WizardState) :
  let r1 := CalculatorWizard1.runModel base net values s in
  let r2 := CalculatorWizard2.runModel net values s in
  lastInputs (final r1) = Some values
  /\ (exists rest,
        trace r1 = SetLoading true :: SetLastInputs values
                   :: Fetch (base ++ "/run") "POST" (inputs_body values) :: rest)
  /\ trace (CalculatorWizard1.downloadPdf base download (final r1))
     = download_trace base values download
  /\ lastInputs (final r2) = Some values
  /\ (exists rest,
        trace r2 = SetLoading true :: SetLastInputs values
                   :: Fetch (CalculatorWizard2.BACKEND_BASE ++ "/run") "POST"
                            (inputs_body values) :: rest)
  /\ trace (CalculatorWizard2.downloadPdf download (final r2))
     = download_trace CalculatorWizard2.BACKEND_BASE values download.
Proof.
  intros r1 r2.
  destruct (runModel1_stores base net values s) as [Hl1 Ht1].
  destruct (runModel2_stores net values s) as [Hl2 Ht2].
  split; [exact Hl1|]. split; [exact Ht1|].
  split; [apply (downloadPdf1_trace base download (final r1) values Hl1)|].
  split; [exact Hl2|]. split; [exact Ht2|].
  apply (downloadPdf2_trace download (final r2) values Hl2).
Qed.

Section StoredInputsExample.
#[local] Existing Instance DecimalRuntime.decimalRuntime.

(** In the component that keeps the form on screen, a failed resubmission
    after a success replaces the stored inputs, and the next download sends
    the failed attempt's values. *)
Definition biggerHome : JsValue :=
  JObject
    [ ("ber_band", JString "C");
      ("floor_area_m2", JNumber (Finite 200));
      ("emitters", JString "radiators");
      ("heating_pattern", JString "normal");
      ("wood_use", JString "none");
      ("occupants", JNumber (Finite 2));
      ("fuel_type", JString "kerosene");
      ("fuel_price_eur_per_unit", JNumber (Finite (11 # 10)));
      ("electricity_price_eur_per_kwh", JNumber (Finite (35 # 100)));
      ("boiler_efficiency", JNumber (Finite (85 # 100)));
      ("hp_quote_eur", JNumber (Finite 12000));
      ("grant_applied", JBool true);
      ("grant_value_eur", JNumber (Finite 6500));
      ("bill_mode", JString "annual_spend");
      ("annual_spend_eur", JNumber (Finite 2400)) ].

Example download_after_failed_resubmission :
  safeParse Coerce.clearHeatSchema biggerHome = success biggerHome
  /\ biggerHome <> defaultValues
  /\ CalculatorWizard1.session "http://127.0.0.1:8000" Coerce.clearHeatSchema
       [ CalculatorWizard1.ClickGenerate http200 defaultValues;
         CalculatorWizard1.ClickGenerate http500 biggerHome;
         CalculatorWizard1.ClickDownload pdfResponse ]
       onStep3
     = (mkState 2 true false (Some biggerHome),
        [ SetLoading true; SetLastInputs defaultValues;
          Fetch "http://127.0.0.1:8000/run" "POST" (inputs_body defaultValues);
          SetReportReady true; SetLoading false ]
        ++ failed_submission_trace "http://127.0.0.1:8000" biggerHome "Evaluation failed"
        ++ download_trace "http://127.0.0.1:8000" biggerHome pdfResponse).
Proof.
  split; [vm_compute; reflexivity|]. split; [discriminate|].
  vm_compute. reflexivity.
Qed.

End StoredInputsExample.

(** * Further properties of the code *)

(** ** Validating twice *)

(** A schema is stable when validating the value it produced gives the same
    result again, and defined when it never produces [undefined]. *)
Definition stable_schema (t : ZodType) : Prop :=
  forall path v, status (t path v) = valid -> t path (value (t path v)) = t path v.

Definition defined_schema (t : ZodType) : Prop :=
  forall path v, status (t path v) = valid -> value (t path v) <> JUndefined.

Section StableSchemas.
Context `{JsRuntime}.

Lemma ZodNumber_parse_keeps checks path v :
  status (ZodNumber_parse checks path v) <> aborted ->
  value (ZodNumber_parse checks path v) = v.
Proof.
  intros Hs. destruct (ZodNumber_parse_value checks path v Hs) as [n [-> [_ Hval]]].
  exact Hval.
Qed.

Lemma z_enum_stable values : stable_schema (z_enum values).
Proof.
  intros path v. unfold z_enum. destruct v; simpl; try discriminate.
  destruct (existsb (String.eqb s) values) eqn:E; simpl; [|discriminate].
  intros _. now rewrite E.
Qed.

Lemma z_enum_defined values : defined_schema (z_enum values).
Proof.
  intros path v Hv. destruct (z_enum_typed values path v Hv) as [s [-> _]]. discriminate.
Qed.

Lemma ZodNumber_parse_stable checks : stable_schema (ZodNumber_parse checks).
Proof.
  intros path v Hv. rewrite ZodNumber_parse_keeps; [reflexivity|]. rewrite Hv. discriminate.
Qed.

Lemma ZodNumber_parse_defined checks : defined_schema (ZodNumber_parse checks).
Proof.
  intros path v Hv.
  destruct (ZodNumber_parse_typed checks path v Hv) as [n [-> _]]. discriminate.
Qed.

Lemma z_coerce_number_stable checks : stable_schema (z_coerce_number checks).
Proof.
  intros path v Hv. unfold z_coerce_number in *.
  rewrite ZodNumber_parse_keeps; [reflexivity|]. rewrite Hv. discriminate.
Qed.

Lemma z_coerce_number_defined checks : defined_schema (z_coerce_number checks).
Proof. intros path v. apply ZodNumber_parse_defined. Qed.

Lemma z_boolean_stable : stable_schema z_boolean.
Proof. intros path v. destruct v; simpl; try discriminate. reflexivity. Qed.

Lemma z_boolean_defined : defined_schema z_boolean.
Proof. intros path v. destruct v; simpl; discriminate. Qed.

Lemma z_coerce_boolean_stable : stable_schema z_coerce_boolean.
Proof. intros path v _. reflexivity. Qed.

Lemma z_coerce_boolean_defined : defined_schema z_coerce_boolean.
Proof. intros path v _. discriminate. Qed.

Lemma optional_on_defined t path w : w <> JUndefined -> optional t path w = t path w.
Proof. destruct w; [congruence | reflexivity ..]. Qed.

Lemma default_on_defined t d path w : w <> JUndefined -> default t d path w = t path w.
Proof. destruct w; [congruence | reflexivity ..]. Qed.

Lemma optional_stable t : defined_schema t -> stable_schema t -> stable_schema (optional t).
Proof.
  intros Hd Hs path v Hv.
  assert (Hcase : v = JUndefined \/ v <> JUndefined)
    by (destruct v; [left; reflexivity | right; discriminate ..]).
  destruct Hcase as [-> | Hne]; [reflexivity|].
  rewrite (optional_on_defined t path v Hne) in *.
  rewrite (optional_on_defined t path _ (Hd path v Hv)). now apply Hs.
Qed.

Lemma default_stable t d : defined_schema t -> stable_schema t -> stable_schema (default t d).
Proof.
  intros Hd Hs path v Hv.
  assert (Hin : exists w, default t d path v = t path w).
  { destruct v; eexists; reflexivity. }
  destruct Hin as [w Hw]. rewrite Hw in *.
  rewrite (default_on_defined t d path _ (Hd path _ Hv)). now apply Hs.
Qed.

Lemma default_defined t d : defined_schema t -> defined_schema (default t d).
Proof. intros Hd path v. unfold default. destruct v; apply Hd. Qed.

Lemma asNumber_number_stable checks :
  stable_schema (z_preprocess Preprocess.asNumber (z_number checks)).
Proof.
  intros path v Hv. unfold z_preprocess, z_number in *.
  destruct (ZodNumber_parse_value checks path (Preprocess.asNumber v)) as [n [Hn [_ Hval]]].
  { rewrite Hv. discriminate. }
  rewrite Hval, Hn. reflexivity.
Qed.

Lemma asNumber_number_defined checks :
  defined_schema (z_preprocess Preprocess.asNumber (z_number checks)).
Proof. intros path v. apply ZodNumber_parse_defined. Qed.

Lemma bool_stable : stable_schema Preprocess.bool.
Proof.
  intros path v Hv. unfold Preprocess.bool, z_preprocess in *.
  destruct (Preprocess.bool_preprocess v); simpl in *; try discriminate. reflexivity.
Qed.

End StableSchemas.

Ltac stable_facts :=
  repeat first
    [ apply z_enum_stable | apply z_coerce_number_stable | apply ZodNumber_parse_stable
    | apply z_coerce_boolean_stable | apply z_boolean_stable
    | apply asNumber_number_stable | apply bool_stable
    | apply optional_stable | apply default_stable
    | apply z_enum_defined | apply z_coerce_number_defined | apply ZodNumber_parse_defined
    | apply z_coerce_boolean_defined | apply z_boolean_defined
    | apply asNumber_number_defined | apply default_defined ].

Section StableShapes.
Context `{JsRuntime}.

Lemma Coerce_shape_stable : Forall (fun kt => stable_schema (snd kt)) Coerce.shape.
Proof.
  unfold Coerce.shape. repeat (apply Forall_cons; [cbn [snd]|]); [.. | apply Forall_nil].
  all: unfold Coerce.ber_band, Coerce.floor_area_m2, Coerce.emitters,
      Coerce.heating_pattern, Coerce.wood_use, Coerce.occupants, Coerce.fuel_type,
      Coerce.fuel_price_eur_per_unit, Coerce.electricity_price_eur_per_kwh,
      Coerce.boiler_efficiency, Coerce.hp_quote_eur, Coerce.grant_applied,
      Coerce.grant_value_eur, Coerce.bill_mode, Coerce.annual_fuel_use,
      Coerce.annual_spend_eur; stable_facts.
Qed.

Lemma Preprocess_shape_stable : Forall (fun kt => stable_schema (snd kt)) Preprocess.shape.
Proof.
  unfold Preprocess.shape.
  repeat (apply Forall_cons; [cbn [snd]|]); [.. | apply Forall_nil].
  all: unfold Preprocess.ber_band, Preprocess.floor_area_m2, Preprocess.emitters,
      Preprocess.heating_pattern, Preprocess.wood_use, Preprocess.occupants,
      Preprocess.fuel_type, Preprocess.fuel_price_eur_per_unit,
      Preprocess.electricity_price_eur_per_kwh, Preprocess.boiler_efficiency,
      Preprocess.hp_quote_eur, Preprocess.grant_applied, Preprocess.grant_value_eur,
      Preprocess.bill_mode, Preprocess.annual_fuel_use, Preprocess.annual_spend_eur,
      Preprocess.num, Preprocess.numOpt; stable_facts.
Qed.

End StableShapes.

Section StableObject.

(** The entry a key contributes to the parsed object. *)
Definition final_entry (p : ObjectPair) : list (string * JsValue) :=
  let '(k, r, alwaysSet) := p in
  if negb (k =? "__proto__")
     && (negb match value r with JUndefined => true | _ => false end || alwaysSet)
  then [(k, value r)] else [].

(** [mergeObjectSync] only reads, of each pair, the parse result and the
    entry. *)
Definition merged (l : list (ParseReturn * list (string * JsValue))) : ParseReturn :=
  let iss := flat_map (fun q => issues (fst q)) l in
  if existsb (fun q => is_aborted (fst q)) l then INVALID iss
  else mkReturn (if existsb (fun q => is_dirty (fst q)) l then dirty else valid)
                (JObject (flat_map snd l)) iss.

Lemma flat_map_map {A B C} (f : A -> B) (g : B -> list C) (l : list A) :
  flat_map g (map f l) = flat_map (fun x => g (f x)) l.
Proof. induction l as [|x l IH]; simpl; [reflexivity | now rewrite IH]. Qed.

Lemma mergeObjectSync_merged (pairs : list ObjectPair) :
  mergeObjectSync pairs
  = merged (map (fun p : ObjectPair => (snd (fst p), final_entry p)) pairs).
Proof.
  unfold mergeObjectSync, merged.
  rewrite !existsb_map, !flat_map_map. cbn [fst snd].
  replace (flat_map (fun x : ObjectPair => final_entry x) pairs)
    with (flat_map final_entry pairs) by reflexivity.
  reflexivity.
Qed.

Lemma lookup_final (pairs : list ObjectPair) k r a :
  distinct (map (fun p : ObjectPair => fst (fst p)) pairs) = true ->
  In (k, r, a) pairs ->
  lookup (flat_map final_entry pairs) k
  = match final_entry (k, r, a) with
    | [] => None
    | (_, v) :: _ => Some v
    end.
Proof.
  unfold ObjectPair in *. intros Hd Hin.
  assert (Hone : forall p : string * ParseReturn * bool,
             final_entry p = [] \/ exists v, final_entry p = [(fst (fst p), v)]).
  { intros [[k1 r1] a1]. unfold final_entry. cbn [fst].
    destruct (negb (k1 =? "__proto__") && _); [right; eauto | now left]. }
  induction pairs as [|[[k' r'] a'] rest IH]; [contradiction|].
  cbn [map distinct fst snd] in Hd.
  apply andb_true_iff in Hd. destruct Hd as [Hfresh Hd].
  apply negb_true_iff in Hfresh. cbn [flat_map].
  destruct Hin as [Heq | Hin].
  - injection Heq as -> -> ->.
    assert (Hrest : lookup (flat_map final_entry rest) k = None).
    { apply lookup_final_absent; [exact Hone|].
      rewrite <- Hfresh, existsb_map. apply existsb_ext.
      intros p. apply String.eqb_sym. }
    destruct (Hone (k, r, a)) as [-> | [v ->]]; cbn [app lookup fst].
    + exact Hrest.
    + now rewrite String.eqb_refl.
  - assert (Hne : (k' =? k) = false).
    { destruct (String.eqb_spec k' k) as [->|]; [|reflexivity].
      exfalso.
      assert (Hex : existsb (String.eqb k)
                      (map (fun p : string * ParseReturn * bool => fst (fst p)) rest)
                    = true).
      { apply existsb_exists. exists k. split; [|apply String.eqb_refl].
        change k with (fst (fst (k, r, a))).
        now apply (in_map (fun p : string * ParseReturn * bool => fst (fst p))). }
      congruence. }
    destruct (Hone (k', r', a')) as [-> | [v ->]]; cbn [app lookup fst].
    + now apply IH.
    + rewrite Hne. now apply IH.
Qed.

(** An entry is the same whether its key was in the input or is in the
    parsed object. *)
Lemma final_entry_again k r a :
  final_entry (k, r, match final_entry (k, r, a) with [] => false | _ => true end)
  = final_entry (k, r, a).
Proof.
  unfold final_entry.
  destruct (negb (k =? "__proto__")); cbn [andb]; [|reflexivity].
  destruct (value r); cbn [negb orb]; try reflexivity.
  now destruct a.
Qed.

Variable shape : list (string * ZodType).
Variable props : list (string * JsValue).
Hypothesis Hstable : Forall (fun kt => stable_schema (snd kt)) shape.
Hypothesis Hdistinct : distinct (map fst shape) = true.
Hypothesis Hproto : ~ In "__proto__" (map fst shape).
Hypothesis Hvalid : fields_valid shape (JObject props) = true.

Let pair_of (o : JsValue) (kt : string * ZodType) : ObjectPair :=
  (fst kt, field_result o kt, has o (fst kt)).

Lemma parsed_value_entries :
  value (z_object shape [] (JObject props))
  = JObject (flat_map final_entry (map (pair_of (JObject props)) shape)).
Proof.
  rewrite z_object_unfold, mergeObjectSync_merged. unfold merged.
  rewrite !existsb_map. cbn [fst snd].
  destruct (existsb (fun x => is_aborted (field_result (JObject props) x)) shape) eqn:Ea.
  - apply aborted_not_valid in Ea. congruence.
  - cbn [value]. rewrite !flat_map_map. reflexivity.
Qed.

Lemma z_object_stable :
  z_object shape [] (value (z_object shape [] (JObject props)))
  = z_object shape [] (JObject props).
Proof.
  rewrite parsed_value_entries.
  set (F := flat_map final_entry (map (pair_of (JObject props)) shape)).
  rewrite !z_object_unfold, !mergeObjectSync_merged, !map_map. f_equal.
  apply map_ext_in. intros [k t] Hin. cbn [fst snd].
  assert (Hpair : In (k, field_result (JObject props) (k, t), has (JObject props) k)
                     (map (pair_of (JObject props)) shape)).
  { apply (in_map (pair_of (JObject props)) _ _ Hin). }
  assert (Hd : distinct (map (fun p : ObjectPair => fst (fst p))
                             (map (pair_of (JObject props)) shape)) = true).
  { rewrite map_map. exact Hdistinct. }
  pose proof (lookup_final _ _ _ _ Hd Hpair) as Hlook. fold F in Hlook.
  assert (Hstatus : status (field_result (JObject props) (k, t)) = valid).
  { unfold fields_valid in Hvalid. rewrite forallb_forall in Hvalid.
    specialize (Hvalid _ Hin).
    now destruct (status (field_result (JObject props) (k, t))). }
  assert (Hk : (k =? "__proto__") = false).
  { apply String.eqb_neq. intros ->. apply Hproto.
    change "__proto__" with (fst ("__proto__", t)). now apply in_map. }
  assert (Hres : field_result (JObject F) (k, t) = field_result (JObject props) (k, t)).
  { rewrite Forall_forall in Hstable. specialize (Hstable _ Hin). cbn [snd] in Hstable.
    unfold field_result in Hstatus |- *. cbn [fst snd] in Hstatus |- *.
    unfold get at 1. rewrite Hlook. unfold final_entry, field_result. cbn [fst snd].
    rewrite Hk. cbn [negb andb].
    destruct (value (t [k] (get (JObject props) k))) eqn:Ev; cbn [negb orb].
    2-7: rewrite <- Ev; now apply Hstable.
    destruct (has (JObject props) k); rewrite <- Ev; now apply Hstable. }
  rewrite Hres. f_equal.
  etransitivity; [|apply final_entry_again].
  f_equal. f_equal. unfold has at 1. rewrite Hlook.
  destruct (final_entry (k, field_result (JObject props) (k, t), has (JObject props) k))
    as [|[k0 v0] rest0]; reflexivity.
Qed.

End StableObject.

Section ValidatingTwice.
Context `{JsRuntime}.

Lemma success_inversion shape refinement raw data :
  safeParse (superRefine (z_object shape) refinement) raw = success data ->
  exists props,
    raw = JObject props
    /\ fields_valid shape raw = true
    /\ data = value (z_object shape [] raw).
Proof.
  destruct raw as [| |b|n|s|l|props]; try discriminate.
  rewrite safeParse_superRefine, z_object_status.
  destruct (some_field_aborted shape (JObject props)); [discriminate|].
  destruct (fields_valid shape (JObject props)); [|discriminate].
  destruct (cross_field_issues refinement _); [|discriminate].
  intros Hs. injection Hs as <-. exists props. repeat split.
Qed.

Lemma safeParse_same_inner (schema : ZodType) refinement a b :
  schema [] a = schema [] b ->
  safeParse (superRefine schema refinement) a = safeParse (superRefine schema refinement) b.
Proof. intros Hab. now rewrite !safeParse_superRefine, Hab. Qed.

Lemma refined_object_idempotent shape refinement raw data :
  Forall (fun kt => stable_schema (snd kt)) shape ->
  distinct (map fst shape) = true ->
  ~ In "__proto__" (map fst shape) ->
  safeParse (superRefine (z_object shape) refinement) raw = success data ->
  safeParse (superRefine (z_object shape) refinement) data = success data.
Proof.
  intros Hs Hd Hp Hok.
  destruct (success_inversion _ _ _ _ Hok) as [props [-> [Hv ->]]].
  rewrite <- Hok. apply safeParse_same_inner.
  now apply z_object_stable.
Qed.

Lemma Coerce_keys : map fst Coerce.shape = map fst ClearHeatInput.
Proof. reflexivity. Qed.

Lemma Preprocess_keys : map fst Preprocess.shape = map fst ClearHeatInput.
Proof. reflexivity. Qed.

Lemma Coerce_idempotent raw data :
  safeParse Coerce.clearHeatSchema raw = success data ->
  safeParse Coerce.clearHeatSchema data = success data.
Proof.
  apply refined_object_idempotent.
  - apply Coerce_shape_stable.
  - rewrite Coerce_keys. apply ClearHeatInput_distinct.
  - rewrite Coerce_keys. apply ClearHeatInput_no_proto.
Qed.

Lemma Preprocess_idempotent raw data :
  safeParse Preprocess.clearHeatSchema raw = success data ->
  safeParse Preprocess.clearHeatSchema data = success data.
Proof.
  apply refined_object_idempotent.
  - apply Preprocess_shape_stable.
  - rewrite Preprocess_keys. apply ClearHeatInput_distinct.
  - rewrite Preprocess_keys. apply ClearHeatInput_no_proto.
Qed.

End ValidatingTwice.

(** X1.  Validation is idempotent: the value a successful validation
    returns is accepted by the same schema and returned unchanged. *)
Theorem validation_idempotent `{JsRuntime} (raw data : JsValue) :
  (safeParse Coerce.clearHeatSchema raw = success data ->
   safeParse Coerce.clearHeatSchema data = success data)
  /\ (safeParse Preprocess.clearHeatSchema raw = success data ->
      safeParse Preprocess.clearHeatSchema data = success data).
Proof. split; [apply Coerce_idempotent | apply Preprocess_idempotent]. Qed.

(** X2.  The evaluate route never answers 400 to a body that came out of a
    successful validation by the schema it imports. *)
Theorem validated_body_passes_route `{JsRuntime} (raw data : JsValue) :
  (safeParse Coerce.clearHeatSchema raw = success data ->
   Route.http_status (Route.POST Coerce.clearHeatSchema data) = 200)
  /\ (safeParse Preprocess.clearHeatSchema raw = success data ->
      Route.http_status (Route.POST Preprocess.clearHeatSchema data) = 200).
Proof.
  split; intros Hok; unfold Route.POST.
  - now rewrite (Coerce_idempotent raw data Hok).
  - now rewrite (Preprocess_idempotent raw data Hok).
Qed.

Section ValidatingTwiceExample.
#[local] Existing Instance DecimalRuntime.decimalRuntime.

(** The default values as an HTML form holds them: number inputs are
    strings. *)
Definition typedValues : JsValue :=
  JObject (with_field "annual_spend_eur" (JString "2400")
          (with_field "floor_area_m2" (JString " 120 ")
          (with_field "occupants" (JString "2") defaultValues_without_spend))).

Lemma typedValues_parsed :
  safeParse Coerce.clearHeatSchema typedValues = success defaultValues
  /\ safeParse Preprocess.clearHeatSchema typedValues = success defaultValues.
Proof. split; vm_compute; reflexivity. Defined.

Lemma validation_idempotent_witness :
  safeParse Coerce.clearHeatSchema defaultValues = success defaultValues
  /\ safeParse Preprocess.clearHeatSchema defaultValues = success defaultValues.
Proof.
  split.
  - exact (proj1 (validation_idempotent typedValues defaultValues)
             (proj1 typedValues_parsed)).
  - exact (proj2 (validation_idempotent typedValues defaultValues)
             (proj2 typedValues_parsed)).
Defined.

Lemma validated_body_passes_route_witness :
  Route.http_status (Route.POST Coerce.clearHeatSchema defaultValues) = 200
  /\ Route.http_status (Route.POST Preprocess.clearHeatSchema defaultValues) = 200.
Proof.
  split.
  - exact (proj1 (validated_body_passes_route typedValues defaultValues)
             (proj1 typedValues_parsed)).
  - exact (proj2 (validated_body_passes_route typedValues defaultValues)
             (proj2 typedValues_parsed)).
Defined.

End ValidatingTwiceExample.

(** ** Keys of the raw object *)
Section RawKeys.
Context `{JsRuntime}.

Lemma z_object_same_lookup shape path props1 props2 :
  (forall k, In k (map fst shape) -> lookup props1 k = lookup props2 k) ->
  z_object shape path (JObject props1) = z_object shape path (JObject props2).
Proof.
  intros Hsame. unfold z_object. f_equal. apply map_ext_in.
  intros [k t] Hin. cbn [fst snd]. unfold get, has.
  rewrite (Hsame k); [reflexivity|].
  change k with (fst (k, t)). now apply in_map.
Qed.

Lemma lookup_unknown_key keys k v props :
  ~ In k keys -> forall k', In k' keys -> lookup ((k, v) :: props) k' = lookup props k'.
Proof.
  intros Hk k' Hk'. cbn [lookup].
  destruct (String.eqb_spec k k') as [->|_]; [contradiction | reflexivity].
Qed.

Lemma reported_field_issue shape tys refinement props kt i :
  follows shape tys ->
  distinct (map fst tys) = true ->
  ~ In "__proto__" (map fst tys) ->
  In kt shape ->
  In i (issues (field_result (JObject props) kt)) ->
  exists errors,
    safeParse (superRefine (z_object shape) refinement) (JObject props) = failure errors
    /\ In i errors.
Proof.
  intros HF Hd Hp Hkt Hi.
  pose proof (validation_report shape tys refinement HF Hd Hp (JObject props)) as Hrep.
  pose proof (every_field_issue_listed shape refinement props kt i Hkt Hi) as Hlisted.
  destruct (safeParse (superRefine (z_object shape) refinement) (JObject props))
    as [data | errors].
  - destruct Hrep as [Hnil _]. rewrite Hnil in Hlisted. contradiction.
  - destruct Hrep as [_ ->]. now exists (validation_errors shape refinement (JObject props)).
Qed.

End RawKeys.

(** X3.  Keys that are not in the schema are ignored: adding one to a body
    changes neither the outcome of validation nor the answer of the route. *)
Theorem unknown_key_ignored `{JsRuntime} (k : string) (v : JsValue)
        (props : list (string * JsValue)) :
  ~ In k (map fst ClearHeatInput) ->
  safeParse Coerce.clearHeatSchema (JObject ((k, v) :: props))
  = safeParse Coerce.clearHeatSchema (JObject props)
  /\ safeParse Preprocess.clearHeatSchema (JObject ((k, v) :: props))
     = safeParse Preprocess.clearHeatSchema (JObject props)
  /\ Route.POST Coerce.clearHeatSchema (JObject ((k, v) :: props))
     = Route.POST Coerce.clearHeatSchema (JObject props)
  /\ Route.POST Preprocess.clearHeatSchema (JObject ((k, v) :: props))
     = Route.POST Preprocess.clearHeatSchema (JObject props).
Proof.
  intros Hk.
  assert (Hc : safeParse Coerce.clearHeatSchema (JObject ((k, v) :: props))
               = safeParse Coerce.clearHeatSchema (JObject props)).
  { apply safeParse_same_inner. apply z_object_same_lookup.
    rewrite Coerce_keys. now apply lookup_unknown_key. }
  assert (Hp : safeParse Preprocess.clearHeatSchema (JObject ((k, v) :: props))
               = safeParse Preprocess.clearHeatSchema (JObject props)).
  { apply safeParse_same_inner. apply z_object_same_lookup.
    rewrite Preprocess_keys. now apply lookup_unknown_key. }
  unfold Route.POST. rewrite Hc, Hp. repeat split.
Qed.

Section UnknownKeyExample.
#[local] Existing Instance DecimalRuntime.decimalRuntime.

Lemma unknown_key_ignored_witness :
  safeParse Coerce.clearHeatSchema
    (JObject (("is_admin", JBool true) :: defaultValues_without_spend))
  = safeParse Coerce.clearHeatSchema (JObject defaultValues_without_spend).
Proof.
  refine (proj1 (unknown_key_ignored "is_admin" (JBool true)
                   defaultValues_without_spend _)).
  cbn. intuition discriminate.
Defined.

End UnknownKeyExample.

Ltac missing_field shape follows_shape Hget :=
  match goal with
  | |- exists errors, _ /\ In (mkIssue _ [?k]) errors =>
      eapply (reported_field_issue shape ClearHeatInput _ _ (k, _) _
                follows_shape ClearHeatInput_distinct ClearHeatInput_no_proto);
      [in_shape | unfold field_result; cbn [fst snd]; rewrite Hget; now left]
  end.

(** X5.  A missing required key fails validation with an [invalid_type]
    issue at that key.  In the [z.coerce] schema, where it returns, an enum
    key reports its values expected and [undefined] received, [bill_mode]
    apart, which has a default; a number key reports a number expected and
    NaN received, as [Number(undefined)] is NaN, [grant_value_eur] apart.  In
    the [z.preprocess] schema every enum key and every number key is
    required, and [undefined] is what is received. *)
Theorem missing_required_key `{JsRuntime} (props : list (string * JsValue)) (k : string) :
  get (JObject props) k = JUndefined ->
  (Coerce.throws (JObject props) = false ->
   (forall values, In (k, ty_enum values) ClearHeatInput -> k <> "bill_mode" ->
      exists errors,
        safeParse Coerce.clearHeatSchema (JObject props) = failure errors
        /\ In (mkIssue (invalid_type (t_oneof values) t_undefined) [k]) errors)
   /\ (In (k, ty_number) ClearHeatInput -> k <> "grant_value_eur" ->
       exists errors,
         safeParse Coerce.clearHeatSchema (JObject props) = failure errors
         /\ In (mkIssue (invalid_type t_number t_nan) [k]) errors))
  /\ (forall values, In (k, ty_enum values) ClearHeatInput ->
        exists errors,
          safeParse Preprocess.clearHeatSchema (JObject props) = failure errors
          /\ In (mkIssue (invalid_type (t_oneof values) t_undefined) [k]) errors)
  /\ (In (k, ty_number) ClearHeatInput ->
      exists errors,
        safeParse Preprocess.clearHeatSchema (JObject props) = failure errors
        /\ In (mkIssue (invalid_type t_number t_undefined) [k]) errors).
Proof.
  intros Hget.
  pose proof Coerce_shape_follows as HC. pose proof Preprocess_shape_follows as HP.
  split; [intros _; split | split].
  - intros values Hin Hk. unfold ClearHeatInput in Hin. cbn [In] in Hin.
    repeat (destruct Hin as [Heq | Hin];
            [first [discriminate Heq
                   | injection Heq as <- <-;
                     first [now elim Hk | missing_field Coerce.shape HC Hget]]|]).
    contradiction.
  - intros Hin Hk. unfold ClearHeatInput in Hin. cbn [In] in Hin.
    repeat (destruct Hin as [Heq | Hin];
            [first [discriminate Heq
                   | injection Heq as <-;
                     first [now elim Hk | missing_field Coerce.shape HC Hget]]|]).
    contradiction.
  - intros values Hin. unfold ClearHeatInput in Hin. cbn [In] in Hin.
    repeat (destruct Hin as [Heq | Hin];
            [first [discriminate Heq
                   | injection Heq as <- <-; missing_field Preprocess.shape HP Hget]|]).
    contradiction.
  - intros Hin. unfold ClearHeatInput in Hin. cbn [In] in Hin.
    repeat (destruct Hin as [Heq | Hin];
            [first [discriminate Heq
                   | injection Heq as <-; missing_field Preprocess.shape HP Hget]|]).
    contradiction.
Qed.

Section MissingKeyExample.
#[local] Existing Instance DecimalRuntime.decimalRuntime.

Lemma missing_required_key_witness :
  (exists errors,
     safeParse Coerce.clearHeatSchema (JObject []) = failure errors
     /\ In (mkIssue (invalid_type t_number t_nan) ["occupants"]) errors)
  /\ (exists errors,
        safeParse Preprocess.clearHeatSchema (JObject []) = failure errors
        /\ In (mkIssue (invalid_type
                          (t_oneof ["annual_fuel_use"; "annual_spend"; "none"]) t_undefined)
                       ["bill_mode"]) errors).
Proof.
  pose proof (missing_required_key [] "occupants" eq_refl) as [Hcoerce _].
  pose proof (missing_required_key [] "bill_mode" eq_refl) as [_ [Henum _]].
  split.
  - apply (proj2 (Hcoerce eq_refl)); [cbn; tauto | discriminate].
  - apply Henum. cbn. tauto.
Defined.

End MissingKeyExample.

(** X4.  The defaults of the [z.coerce] schema: in a successful validation an
    absent [grant_applied] is [true], an absent [grant_value_eur] is [6500]
    and an absent [bill_mode] is ["annual_spend"]; leaving [bill_mode] out
    therefore does not lift the cross-field rule, the input must carry
    [annual_spend_eur]. *)
Theorem coerce_defaults `{JsRuntime} (raw data : JsValue) :
  safeParse Coerce.clearHeatSchema raw = success data ->
  (get raw "grant_applied" = JUndefined -> get data "grant_applied" = JBool true)
  /\ (get raw "grant_value_eur" = JUndefined ->
      get data "grant_value_eur" = JNumber (Finite 6500))
  /\ (get raw "bill_mode" = JUndefined ->
      get data "bill_mode" = JString "annual_spend"
      /\ get raw "annual_spend_eur" <> JUndefined).
Proof.
  intros Hok.
  destruct (success_inversion _ _ _ _ Hok) as [props [-> [Hv ->]]].
  pose proof Coerce_shape_follows as HF.
  pose proof (valid_fields_get _ props "grant_applied" Coerce.grant_applied HF Hv
                ltac:(in_shape)) as Hga.
  pose proof (valid_fields_get _ props "grant_value_eur" Coerce.grant_value_eur HF Hv
                ltac:(in_shape)) as Hgv.
  pose proof (valid_fields_get _ props "bill_mode" Coerce.bill_mode HF Hv
                ltac:(in_shape)) as Hbm.
  pose proof (valid_fields_get _ props "annual_spend_eur" Coerce.annual_spend_eur HF Hv
                ltac:(in_shape)) as Hsp.
  split; [intros Hu; rewrite Hga, Hu; reflexivity|].
  split; [intros Hu; rewrite Hgv, Hu; reflexivity|].
  intros Hu. split; [rewrite Hbm, Hu; reflexivity|].
  intros Hspend.
  unfold Coerce.clearHeatSchema in Hok.
  rewrite (valid_fields_outcome _ Coerce.refinement props HF Hv) in Hok.
  unfold cross_field_issues, Coerce.refinement, billModeRefinement in Hok.
  rewrite Hbm, Hsp, Hu, Hspend in Hok. cbn in Hok. discriminate Hok.
Qed.

Section DefaultsExample.
#[local] Existing Instance DecimalRuntime.decimalRuntime.

Definition sparseValues : JsValue :=
  JObject
    [ ("ber_band", JString "C"); ("floor_area_m2", JString "120");
      ("emitters", JString "radiators"); ("heating_pattern", JString "normal");
      ("wood_use", JString "none"); ("occupants", JString "2");
      ("fuel_type", JString "kerosene"); ("fuel_price_eur_per_unit", JString "1.1");
      ("electricity_price_eur_per_kwh", JString "0.35");
      ("boiler_efficiency", JString "0.85"); ("hp_quote_eur", JString "12000");
      ("annual_spend_eur", JString "2400") ].

Definition sparseValues_parsed : JsValue :=
  JObject
    [ ("ber_band", JString "C"); ("floor_area_m2", JNumber (Finite 120));
      ("emitters", JString "radiators"); ("heating_pattern", JString "normal");
      ("wood_use", JString "none"); ("occupants", JNumber (Finite 2));
      ("fuel_type", JString "kerosene");
      ("fuel_price_eur_per_unit", JNumber (Finite (11 # 10)));
      ("electricity_price_eur_per_kwh", JNumber (Finite (35 # 100)));
      ("boiler_efficiency", JNumber (Finite (85 # 100)));
      ("hp_quote_eur", JNumber (Finite 12000));
      ("grant_applied", JBool true); ("grant_value_eur", JNumber (Finite 6500));
      ("bill_mode", JString "annual_spend");
      ("annual_spend_eur", JNumber (Finite 2400)) ].

Lemma sparseValues_valid :
  safeParse Coerce.clearHeatSchema sparseValues = success sparseValues_parsed.
Proof. vm_compute. reflexivity. Defined.

Lemma coerce_defaults_witness :
  get sparseValues_parsed "grant_applied" = JBool true
  /\ get sparseValues_parsed "grant_value_eur" = JNumber (Finite 6500)
  /\ get sparseValues_parsed "bill_mode" = JString "annual_spend".
Proof.
  pose proof (coerce_defaults sparseValues sparseValues_parsed sparseValues_valid)
    as [H1 [H2 H3]].
  split; [exact (H1 eq_refl)|]. split; [exact (H2 eq_refl)|]. exact (proj1 (H3 eq_refl)).
Defined.

End DefaultsExample.

(** ** The step components: StepHome.tsx, StepHeating and StepHeatPump.tsx *)
Module Controls.

(** [form.setValue(name, v)]: the form values with [name] set (the latest
    write is the one read). *)
Definition setValue (name : string) (v : JsValue) (values : list (string * JsValue))
  : list (string * JsValue) := (name, v) :: values.

(** The [SelectItem] values of each [Select] that stores its value as it is
    ([onValueChange={(v) => setValue(name, v as any)}]). *)
Definition selects : list (string * list string) :=
  [ ("ber_band", ["A"; "B"; "C"; "D"; "E"; "F"; "G"]);
    ("heating_pattern", ["rare"; "normal"; "high"]);
    ("wood_use", ["none"; "some"; "lots"]);
    ("fuel_type", ["gas"; "kerosene"]);
    ("bill_mode", ["annual_spend"; "annual_fuel_use"; "none"]);
    ("emitters", ["radiators"; "ufh"]) ].

Definition onValueChange (name v : string) (values : list (string * JsValue))
  : list (string * JsValue) := setValue name (JString v) values.

(** The "Grant applied?" select of StepHeatPump.tsx: it shows
    [String(grantApplied)], offers ["true"] and ["false"], and stores
    [v === "true"]. *)
Definition String_of_boolean (b : bool) : string := if b then "true" else "false".

Definition grant_applied_items : list string := ["true"; "false"].

Definition onGrantAppliedChange (v : string) (values : list (string * JsValue))
  : list (string * JsValue) := setValue "grant_applied" (JBool (v =? "true")) values.

(** The bill inputs StepHeating renders for the watched [bill_mode]:
    [billMode === "annual_spend" && <Input {...register("annual_spend_eur")} />]
    and likewise for [annual_fuel_use]. *)
Definition shown_bill_inputs (billMode : JsValue) : list string :=
  (if strict_eq_string billMode "annual_spend" then ["annual_spend_eur"] else [])
  ++ (if strict_eq_string billMode "annual_fuel_use" then ["annual_fuel_use"] else []).

End Controls.

Section ControlFacts.
Context `{JsRuntime}.

Lemma z_enum_accepts values path s :
  status (z_enum values path (JString s)) = valid <-> In s values.
Proof.
  unfold z_enum. split.
  - destruct (existsb (String.eqb s) values) eqn:E; [|discriminate].
    intros _. apply existsb_exists in E. destruct E as [x [Hin Hx]].
    apply String.eqb_eq in Hx. now subst x.
  - intros Hin.
    assert (E : existsb (String.eqb s) values = true).
    { apply existsb_exists. exists s. split; [exact Hin | apply String.eqb_refl]. }
    now rewrite E.
Qed.

Lemma default_enum_accepts values d path s :
  status (default (z_enum values) d path (JString s)) = valid <-> In s values.
Proof. apply z_enum_accepts. Qed.

Lemma get_setValue name v values : get (JObject (Controls.setValue name v values)) name = v.
Proof. unfold get, Controls.setValue. cbn [lookup]. now rewrite String.eqb_refl. Qed.

End ControlFacts.

(** X6.  The options of every select are exactly the strings its field
    accepts, in both schemas: no option can be rejected and no accepted value
    is missing from the form. *)
Theorem select_options_are_the_enum `{JsRuntime} (name : string) (options : list string)
        (t : ZodType) (s : string) :
  In (name, options) Controls.selects ->
  In (name, t) Coerce.shape \/ In (name, t) Preprocess.shape ->
  (In s options <-> status (t [name] (JString s)) = valid).
Proof.
  intros Hsel Hshape.
  unfold Controls.selects in Hsel. cbn [In] in Hsel.
  assert (Henum : exists values,
             (forall x, In x options <-> In x values)
             /\ (status (t [name] (JString s)) = valid <-> In s values)).
  { repeat (destruct Hsel as [Hsel | Hsel];
      [injection Hsel as <- <-;
       destruct Hshape as [Hshape | Hshape];
       unfold Coerce.shape, Preprocess.shape in Hshape; cbn [In] in Hshape;
       repeat (destruct Hshape as [Hshape | Hshape];
               [first [discriminate Hshape
                      | injection Hshape as <-;
                        eexists; split;
                        [|first [apply z_enum_accepts | apply default_enum_accepts]];
                        intros x; cbn [In]; tauto]|]);
       contradiction|]).
    contradiction. }
  destruct Henum as [values [Hsame Hacc]]. rewrite Hacc. apply Hsame.
Qed.

Lemma select_options_are_the_enum_witness :
  In "ufh" ["radiators"; "ufh"]
  <-> status (Preprocess.emitters ["emitters"] (JString "ufh")) = valid.
Proof.
  apply (select_options_are_the_enum (H := DecimalRuntime.decimalRuntime)
           "emitters" ["radiators"; "ufh"] Preprocess.emitters "ufh").
  - unfold Controls.selects. cbn [In]. do 5 right. now left.
  - right. unfold Preprocess.shape. cbn [In]. do 2 right. now left.
Defined.

(** X7.  The "Grant applied?" select stores a boolean, the one whose text
    was chosen; showing a stored boolean and choosing the shown item stores it
    again.  Both schemas accept what the select stored, unchanged. *)
Theorem grant_applied_select_round_trip (v : string) (b : bool) (path : list string)
        (values : list (string * JsValue)) :
  let stored l := get (JObject l) "grant_applied" in
  stored (Controls.onGrantAppliedChange (Controls.String_of_boolean b) values) = JBool b
  /\ (In v Controls.grant_applied_items ->
      exists c, stored (Controls.onGrantAppliedChange v values) = JBool c
                /\ Controls.String_of_boolean c = v)
  /\ Coerce.grant_applied path (stored (Controls.onGrantAppliedChange v values))
     = OK (stored (Controls.onGrantAppliedChange v values))
  /\ Preprocess.grant_applied path (stored (Controls.onGrantAppliedChange v values))
     = OK (stored (Controls.onGrantAppliedChange v values)).
Proof.
  intros stored. unfold stored, Controls.onGrantAppliedChange.
  rewrite !get_setValue.
  split; [now destruct b|]. split.
  - intros [<- | [<- | []]]; eexists; split; reflexivity.
  - split; reflexivity.
Qed.

Lemma grant_applied_select_round_trip_witness :
  exists c,
    get (JObject (Controls.onGrantAppliedChange "false" [])) "grant_applied" = JBool c
    /\ Controls.String_of_boolean c = "false".
Proof.
  refine (proj1 (proj2 (grant_applied_select_round_trip "false" true [] [])) _).
  right. now left.
Defined.

(** X8.  The cross-field rule asks for exactly the bill input the step shows:
    it reports a key when, and only when, the input of that key is on screen
    for the chosen [bill_mode] and holds nothing. *)
Theorem cross_field_rule_matches_shown_input (msg_fuel msg_spend : string)
        (v : JsValue) (k : string) :
  (exists d, In d (billModeRefinement msg_fuel msg_spend v) /\ data_path d = [k])
  <-> In k (Controls.shown_bill_inputs (get v "bill_mode"))
      /\ is_nullish (get v k) = true.
Proof.
  unfold billModeRefinement, Controls.shown_bill_inputs. split.
  - intros [d [Hin Hp]]. apply in_app_or in Hin. destruct Hin as [Hin | Hin].
    + destruct (strict_eq_string (get v "bill_mode") "annual_fuel_use") eqn:Ef;
        [|contradiction].
      destruct (is_nullish (get v "annual_fuel_use")) eqn:Nf; [|contradiction].
      destruct Hin as [<- | []]. cbn in Hp. injection Hp as <-.
      split; [apply in_or_app; right; now left | exact Nf].
    + destruct (strict_eq_string (get v "bill_mode") "annual_spend") eqn:Es;
        [|contradiction].
      destruct (is_nullish (get v "annual_spend_eur")) eqn:Ns; [|contradiction].
      destruct Hin as [<- | []]. cbn in Hp. injection Hp as <-.
      split; [apply in_or_app; left; now left | exact Ns].
  - intros [Hin Hnull]. apply in_app_or in Hin. destruct Hin as [Hin | Hin].
    + destruct (strict_eq_string (get v "bill_mode") "annual_spend") eqn:Es;
        [|contradiction].
      destruct Hin as [<- | []].
      exists (mkIssueData ["annual_spend_eur"] msg_spend). split; [|reflexivity].
      apply in_or_app. right. rewrite Hnull. now left.
    + destruct (strict_eq_string (get v "bill_mode") "annual_fuel_use") eqn:Ef;
        [|contradiction].
      destruct Hin as [<- | []].
      exists (mkIssueData ["annual_fuel_use"] msg_fuel). split; [|reflexivity].
      apply in_or_app. left. rewrite Hnull. now left.
Qed.

(** ** Every outcome of [runModel] and [downloadPdf] *)
Section Outcomes.
Variable base : string.

Lemma evaluate_outcome_cases net : evaluate_fails net \/ evaluate_succeeds net.
Proof.
  destruct net as [res|e]; [|left; constructor].
  destruct (ok res) eqn:Hok; [|left; now constructor].
  destruct (json res) as [v|e] eqn:Hjson.
  - right. now exists res, v.
  - left. now apply (unreadable_body res e).
Qed.

Lemma downloadPdf1_outcome net s values :
  lastInputs s = Some values ->
  CalculatorWizard1.downloadPdf base net s
  = mkOutcome s (download_trace base values net)
      (match net with
       | Normal res => match blob res with Normal _ => Normal tt | Throw e => Throw e end
       | Throw e => Throw e
       end).
Proof.
  intros Hlast. unfold CalculatorWizard1.downloadPdf. rewrite bind_getState, Hlast.
  unfold saveResponse, fetch, bind, await, effect, download_trace, inputs_body.
  destruct net as [res|e]; [|reflexivity].
  now destruct (blob res).
Qed.

Lemma downloadPdf2_outcome net s values :
  lastInputs s = Some values ->
  CalculatorWizard2.downloadPdf net s
  = mkOutcome s (download_trace CalculatorWizard2.BACKEND_BASE values net)
      (match net with
       | Normal res => match blob res with Normal _ => Normal tt | Throw e => Throw e end
       | Throw e => Throw e
       end).
Proof.
  intros Hlast. unfold CalculatorWizard2.downloadPdf. rewrite bind_getState, Hlast.
  unfold saveResponse, fetch, bind, await, effect, download_trace, inputs_body.
  destruct net as [res|e]; [|reflexivity].
  now destruct (blob res).
Qed.

End Outcomes.

(** ** Requests in flight

    [fetch] gives a promise, and the [await] on it suspends the handler until
    the promise settles, if it ever does; until then the component handles
    other events.  [runModel] and [downloadPdf] are cut here at that [await]:
    what they do up to the request, and what they do from the moment the
    request has settled with [net].  The body is read under a further
    [await], with no call in between: it is taken to settle with the
    request. *)
Definition runModel_start (base : string) (values : JsValue) : M unit :=
  setLoading true ;;
  setLastInputs values ;;
  effect (Fetch (base ++ "/run") "POST" (JObject [("inputs", values)])) (fun s => s).

Definition runModel1_settled (net : Completion Response) : M unit :=
  try_finally
    (try_catch
       (res <- await net ;;
        (if negb (ok res) then throw (Some "Evaluation failed") else ret tt) ;;
        _ <- await (json res) ;;
        setReportReady true)
       (fun e => alert (message_or e "Error generating report")))
    (setLoading false).

Definition runModel2_settled (net : Completion Response) : M unit :=
  try_finally
    (try_catch
       (res <- await net ;;
        (if negb (ok res)
         then err <- await (text res) ;;
              throw (Some (if err =? "" then "Evaluation failed" else err))
         else ret tt) ;;
        _ <- await (json res) ;;
        setReportReady true)
       (fun e => alert (message_or e "Error generating report")))
    (setLoading false).

(** [downloadPdf] up to its request; the result tells whether one was sent. *)
Definition downloadPdf_start (base : string) : M bool :=
  s <- getState ;;
  match lastInputs s with
  | None => ret false
  | Some inputs =>
      effect (Fetch (base ++ "/pdf") "POST" (JObject [("inputs", inputs)])) (fun s => s) ;;
      ret true
  end.

Definition downloadPdf_settled (net : Completion Response) : M unit :=
  res <- await net ;;
  saveResponse res.

(** How [runModel] ends once its request has settled: the report is made
    ready with no alert, or one alert is shown and [reportReady] is left as it
    was; either way [loading] is false again and nothing is thrown. *)
Definition settles (o : Outcome unit) (s : WizardState) : Prop :=
  o = mkOutcome (mkState (step s) true false (lastInputs s))
                [SetReportReady true; SetLoading false] (Normal tt)
  \/ exists message,
       o = mkOutcome (mkState (step s) (reportReady s) false (lastInputs s))
                     [Alert message; SetLoading false] (Normal tt).

Section InFlight.

Ltac run_halves :=
  unfold CalculatorWizard1.runModel, CalculatorWizard2.runModel,
    CalculatorWizard1.downloadPdf, CalculatorWizard2.downloadPdf,
    runModel_start, runModel1_settled, runModel2_settled,
    downloadPdf_start, downloadPdf_settled,
    saveResponse, try_finally, try_catch, bind, fetch, await, throw, ret,
    setLoading, setLastInputs, setReportReady, alert, effect, getState, message_or,
    inputs_body;
  cbn.

Lemma runModel_start_outcome base values s :
  runModel_start base values s
  = mkOutcome (mkState (step s) (reportReady s) true (Some values))
              [ SetLoading true; SetLastInputs values;
                Fetch (base ++ "/run") "POST" (inputs_body values) ]
              (Normal tt).
Proof. reflexivity. Qed.

Lemma runModel1_split base net values s :
  CalculatorWizard1.runModel base net values s
  = (runModel_start base values ;; runModel1_settled net) s.
Proof.
  run_halves. destruct net as [res|e]; [|reflexivity].
  destruct (ok res); cbn; [|reflexivity].
  destruct (json res); reflexivity.
Qed.

Lemma runModel2_split net values s :
  CalculatorWizard2.runModel net values s
  = (runModel_start CalculatorWizard2.BACKEND_BASE values ;; runModel2_settled net) s.
Proof.
  run_halves. destruct net as [res|e]; [|reflexivity].
  destruct (ok res); cbn.
  - destruct (json res); reflexivity.
  - destruct (text res); reflexivity.
Qed.

Lemma runModel1_settles net s : settles (runModel1_settled net s) s.
Proof.
  unfold settles. run_halves. destruct s as [n r l i]. cbn.
  destruct net as [res|e]; [|right; eexists; reflexivity].
  destruct (ok res); cbn; [|right; eexists; reflexivity].
  destruct (json res); cbn; [left; reflexivity | right; eexists; reflexivity].
Qed.

Lemma runModel2_settles net s : settles (runModel2_settled net s) s.
Proof.
  unfold settles. run_halves. destruct s as [n r l i]. cbn.
  destruct net as [res|e]; [|right; eexists; reflexivity].
  destruct (ok res); cbn.
  - destruct (json res); cbn; [left; reflexivity | right; eexists; reflexivity].
  - destruct (text res); cbn; right; eexists; reflexivity.
Qed.

Lemma downloadPdf1_split base net s :
  CalculatorWizard1.downloadPdf base net s
  = (sent <- downloadPdf_start base ;;
     if sent then downloadPdf_settled net else ret tt) s.
Proof.
  run_halves. destruct (lastInputs s); [|reflexivity].
  destruct net as [res|e]; [|reflexivity]. cbn.
  destruct (blob res); reflexivity.
Qed.

Lemma downloadPdf2_split net s :
  CalculatorWizard2.downloadPdf net s
  = (sent <- downloadPdf_start CalculatorWizard2.BACKEND_BASE ;;
     if sent then downloadPdf_settled net else ret tt) s.
Proof.
  run_halves. destruct (lastInputs s); [|reflexivity].
  destruct net as [res|e]; [|reflexivity]. cbn.
  destruct (blob res); reflexivity.
Qed.

End InFlight.

(** X9.  [runModel] is what it does up to its request followed by what it
    does when the request has settled.  Up to the request it sets [loading],
    stores the values and sends them to [/run], and no more: there a request
    that never settles leaves the component, [loading] still true.  When the
    request settles, however it does and whatever the state is by then, the
    rest throws nothing, puts [loading] back to false on the same step with
    the same stored inputs, and either makes the report ready without an
    alert or shows exactly one alert and leaves [reportReady] as it was. *)
Theorem runModel_settles_with_its_request (base : string) (net : Completion Response)
        (values : JsValue) (s : WizardState) :
  runModel_start base values s
  = mkOutcome (mkState (step s) (reportReady s) true (Some values))
              [ SetLoading true; SetLastInputs values;
                Fetch (base ++ "/run") "POST" (inputs_body values) ]
              (Normal tt)
  /\ CalculatorWizard1.runModel base net values s
     = (runModel_start base values ;; runModel1_settled net) s
  /\ CalculatorWizard2.runModel net values s
     = (runModel_start CalculatorWizard2.BACKEND_BASE values ;; runModel2_settled net) s
  /\ (forall s', settles (runModel1_settled net s') s')
  /\ (forall s', settles (runModel2_settled net s') s').
Proof.
  split; [apply runModel_start_outcome|].
  split; [apply runModel1_split|].
  split; [apply runModel2_split|].
  split; intros s'; [apply runModel1_settles | apply runModel2_settles].
Qed.

(** X10.  [downloadPdf] does not look at the status of the response and
    handles no error: with inputs stored, the body of any response that can
    be read is saved as [clearheat_report.pdf], also when [ok] is false; a
    rejected request or an unreadable body escapes as an exception, with no
    alert and no file; the state is never touched. *)
Theorem downloadPdf_unchecked (base : string) (net : Completion Response)
        (values : JsValue) (s : WizardState) :
  lastInputs s = Some values ->
  let r1 := CalculatorWizard1.downloadPdf base net s in
  let r2 := CalculatorWizard2.downloadPdf net s in
  final r1 = s /\ final r2 = s
  /\ (forall res b, net = Normal res -> blob res = Normal b ->
        completion r1 = Normal tt /\ completion r2 = Normal tt
        /\ trace r1 = [ Fetch (base ++ "/pdf") "POST" (inputs_body values);
                        CreateObjectURL b; AnchorClick b "clearheat_report.pdf";
                        RevokeObjectURL b ]
        /\ trace r2 = [ Fetch (CalculatorWizard2.BACKEND_BASE ++ "/pdf") "POST"
                              (inputs_body values);
                        CreateObjectURL b; AnchorClick b "clearheat_report.pdf";
                        RevokeObjectURL b ])
  /\ (forall e, net = Throw e \/ (exists res, net = Normal res /\ blob res = Throw e) ->
        completion r1 = Throw e /\ completion r2 = Throw e
        /\ trace r1 = [ Fetch (base ++ "/pdf") "POST" (inputs_body values) ]
        /\ trace r2 = [ Fetch (CalculatorWizard2.BACKEND_BASE ++ "/pdf") "POST"
                              (inputs_body values) ]).
Proof.
  intros Hlast r1 r2. unfold r1, r2.
  rewrite (downloadPdf1_outcome base net s values Hlast).
  rewrite (downloadPdf2_outcome net s values Hlast).
  cbn [final trace completion]. unfold download_trace.
  split; [reflexivity|]. split; [reflexivity|]. split.
  - intros res b -> Hb. rewrite Hb. repeat split.
  - intros e [-> | [res [-> He]]]; [|rewrite He]; repeat split.
Qed.

Section DownloadUncheckedExample.

Definition errorPage : Response :=
  mkFetched false (Normal "Not Found") (Throw None) (Normal "<html>Not Found</html>").

Lemma downloadPdf_unchecked_witness :
  trace (CalculatorWizard2.downloadPdf (Normal errorPage)
           (mkState 2 true false (Some defaultValues)))
  = [ Fetch "http://127.0.0.1:8000/pdf" "POST" (inputs_body defaultValues);
      CreateObjectURL "<html>Not Found</html>";
      AnchorClick "<html>Not Found</html>" "clearheat_report.pdf";
      RevokeObjectURL "<html>Not Found</html>" ].
Proof.
  pose proof (downloadPdf_unchecked "http://127.0.0.1:8000" (Normal errorPage)
                defaultValues (mkState 2 true false (Some defaultValues)) eq_refl)
    as [_ [_ [Hsaved _]]].
  exact (proj2 (proj2 (proj2 (Hsaved errorPage "<html>Not Found</html>" eq_refl eq_refl)))).
Defined.

End DownloadUncheckedExample.

(** ** Sessions *)

(** What one action can do to the component, whichever wizard runs it: the
    state before, the log, the state after. *)
Inductive transition (base : string) (schema : ZodType)
  : WizardState -> list Effect -> WizardState -> Prop :=
| t_nothing s : transition base schema s [] s
| t_step s n :
    n <= 2 ->
    transition base schema s [SetStep n]
               (mkState n (reportReady s) (loading s) (lastInputs s))
| t_invalid s error : transition base schema s [FormErrors error] s
| t_failed s formValues values message :
    safeParse schema formValues = success values ->
    transition base schema s (failed_submission_trace base values message)
               (mkState (step s) (reportReady s) false (Some values))
| t_ready s formValues values :
    safeParse schema formValues = success values ->
    transition base schema s (successful_submission_trace base values)
               (mkState (step s) true false (Some values))
| t_download s values net :
    reportReady s = true -> lastInputs s = Some values ->
    transition base schema s (download_trace base values net) s.

Lemma download_without_inputs_noop_aux base net s :
  lastInputs s = None ->
  CalculatorWizard1.downloadPdf base net s = mkOutcome s [] (Normal tt)
  /\ CalculatorWizard2.downloadPdf net s = mkOutcome s [] (Normal tt).
Proof.
  intros Hlast.
  unfold CalculatorWizard1.downloadPdf, CalculatorWizard2.downloadPdf.
  rewrite !bind_getState, Hlast. now split.
Qed.

Section Transitions.
Variable base : string.
Variable schema : ZodType.

Lemma back_transition s :
  step s <= 2 -> transition base schema s (trace (back s)) (final (back s)).
Proof.
  intros Hs. unfold back. rewrite bind_getState.
  destruct (Nat.eqb (step s) 0); [apply t_nothing|].
  unfold setStep, effect. cbn [trace final]. apply t_step. lia.
Qed.

Lemma next_transition s :
  transition base schema s (trace (next s)) (final (next s)).
Proof.
  unfold next. rewrite bind_getState.
  destruct (Nat.ltb (step s) 2) eqn:Hlt; [|apply t_nothing].
  apply PeanoNat.Nat.ltb_lt in Hlt.
  unfold setStep, effect. cbn [trace final]. apply t_step. lia.
Qed.

Lemma handleSubmit1_transition net formValues s :
  transition base schema s
    (trace (handleSubmit schema (CalculatorWizard1.runModel base net) formValues s))
    (final (handleSubmit schema (CalculatorWizard1.runModel base net) formValues s)).
Proof.
  unfold handleSubmit.
  destruct (safeParse schema formValues) as [values | error] eqn:Hparse.
  - destruct (evaluate_outcome_cases net) as [Hfail | Hok].
    + destruct (runModel1_fails base net values s Hfail) as [message ->].
      cbn [trace final]. now apply (t_failed base schema s formValues).
    + rewrite (runModel1_succeeds base net values s Hok).
      cbn [trace final]. now apply (t_ready base schema s formValues).
  - unfold effect. cbn [trace final]. apply t_invalid.
Qed.

Lemma perform1_transition a s :
  step s <= 2 ->
  transition base schema s (trace (CalculatorWizard1.perform base schema a s))
             (final (CalculatorWizard1.perform base schema a s)).
Proof.
  intros Hs. destruct a as [| |net formValues|net]; cbn [CalculatorWizard1.perform].
  - now apply back_transition.
  - apply next_transition.
  - unfold CalculatorWizard1.generateReport. rewrite bind_getState.
    destruct (Nat.eqb (step s) 2 && negb (loading s)); [|apply t_nothing].
    apply handleSubmit1_transition.
  - unfold CalculatorWizard1.clickDownload. rewrite bind_getState.
    destruct (reportReady s) eqn:Hready; [|apply t_nothing].
    destruct (lastInputs s) as [values|] eqn:Hlast.
    + rewrite (downloadPdf1_outcome base net s values Hlast). cbn [trace final].
      now apply t_download.
    + rewrite (proj1 (download_without_inputs_noop_aux base net s Hlast)).
      apply t_nothing.
Qed.

End Transitions.

Section Transitions2.
Variable schema : ZodType.

Lemma handleSubmit2_transition net formValues s :
  transition CalculatorWizard2.BACKEND_BASE schema s
    (trace (handleSubmit schema (CalculatorWizard2.runModel net) formValues s))
    (final (handleSubmit schema (CalculatorWizard2.runModel net) formValues s)).
Proof.
  unfold handleSubmit.
  destruct (safeParse schema formValues) as [values | error] eqn:Hparse.
  - destruct (evaluate_outcome_cases net) as [Hfail | Hok].
    + destruct (runModel2_fails net values s Hfail) as [message ->].
      cbn [trace final]. now apply (t_failed _ schema s formValues).
    + rewrite (runModel2_succeeds net values s Hok).
      cbn [trace final]. now apply (t_ready _ schema s formValues).
  - unfold effect. cbn [trace final]. apply t_invalid.
Qed.

Lemma perform2_transition a s :
  step s <= 2 ->
  transition CalculatorWizard2.BACKEND_BASE schema s
             (trace (CalculatorWizard2.perform schema a s))
             (final (CalculatorWizard2.perform schema a s)).
Proof.
  intros Hs. destruct a as [| |net formValues|net]; cbn [CalculatorWizard2.perform].
  - now apply back_transition.
  - apply next_transition.
  - unfold CalculatorWizard2.generateReport. rewrite bind_getState.
    destruct (negb (reportReady s) && Nat.eqb (step s) 2 && negb (loading s));
      [|apply t_nothing].
    apply handleSubmit2_transition.
  - unfold CalculatorWizard2.clickDownload. rewrite bind_getState.
    destruct (reportReady s) eqn:Hready; [|apply t_nothing].
    destruct (lastInputs s) as [values|] eqn:Hlast.
    + rewrite (downloadPdf2_outcome net s values Hlast). cbn [trace final].
      now apply t_download.
    + rewrite (proj2 (download_without_inputs_noop_aux "" net s Hlast)).
      apply t_nothing.
Qed.

End Transitions2.

(** In the component of part_001 the form, with its Back, Next and Generate
    buttons, is rendered only while the report is not ready, and the Download
    button only once it is: an action on a control that is not on screen does
    nothing. *)
Definition onScreen2 (a : CalculatorWizard2.Action) (s : WizardState) : bool :=
  match a with
  | CalculatorWizard2.ClickDownload _ => reportReady s
  | _ => negb (reportReady s)
  end.

Definition perform2 (schema : ZodType) (a : CalculatorWizard2.Action) : M unit :=
  s <- getState ;;
  if onScreen2 a s then CalculatorWizard2.perform schema a else ret tt.

Lemma perform2_on_screen schema a s :
  step s <= 2 ->
  transition CalculatorWizard2.BACKEND_BASE schema s
             (trace (perform2 schema a s)) (final (perform2 schema a s)).
Proof.
  intros Hs. unfold perform2. rewrite bind_getState.
  destruct (onScreen2 a s); [now apply perform2_transition | apply t_nothing].
Qed.

(** The state between two actions of a session, where every request has
    settled before the next action: one of the three steps, not loading, and
    inputs stored whenever the Download button is shown. *)
Definition wizard_invariant (s : WizardState) : Prop :=
  step s <= 2 /\ loading s = false /\ (reportReady s = true -> lastInputs s <> None).

(** The inputs a request carries pass the schema as they are. *)
Definition request_ok (schema : ZodType) (e : Effect) : Prop :=
  match e with
  | Fetch _ _ body => exists v, body = inputs_body v /\ safeParse schema v = success v
  | _ => True
  end.

(** Nothing of a download: no request to [/pdf], no object URL, no click. *)
Definition no_download (base : string) (e : Effect) : Prop :=
  match e with
  | Fetch url _ _ => url <> (base ++ "/pdf")%string
  | CreateObjectURL _ | AnchorClick _ _ | RevokeObjectURL _ => False
  | _ => True
  end.

(** A session, for any way of performing an action. *)
Fixpoint run {A} (perform : A -> M unit) (actions : list A) (s : WizardState)
  : WizardState * list Effect :=
  match actions with
  | [] => (s, [])
  | a :: rest =>
      let '(mkOutcome s1 t1 _) := perform a s in
      let '(s2, t2) := run perform rest s1 in
      (s2, t1 ++ t2)
  end.

Section SessionFacts.
Variable base : string.
Variable schema : ZodType.

Lemma session1_run actions s :
  CalculatorWizard1.session base schema actions s
  = run (CalculatorWizard1.perform base schema) actions s.
Proof.
  revert s. induction actions as [|a rest IH]; intros s; [reflexivity|].
  cbn [CalculatorWizard1.session run].
  destruct (CalculatorWizard1.perform base schema a s) as [s1 t1 c1]. now rewrite IH.
Qed.

Lemma session2_run actions s :
  CalculatorWizard2.session schema actions s
  = run (CalculatorWizard2.perform schema) actions s.
Proof.
  revert s. induction actions as [|a rest IH]; intros s; [reflexivity|].
  cbn [CalculatorWizard2.session run].
  destruct (CalculatorWizard2.perform schema a s) as [s1 t1 c1]. now rewrite IH.
Qed.

Lemma append_right_injective (a x y : string) :
  (a ++ x)%string = (a ++ y)%string -> x = y.
Proof.
  induction a as [|c a IH]; cbn; [trivial|]. intros Heq. injection Heq as Heq. now apply IH.
Qed.

Lemma transition_invariant s t s' :
  transition base schema s t s' -> wizard_invariant s -> wizard_invariant s'.
Proof.
  unfold wizard_invariant.
  intros Ht [Hstep [Hload Hin]]. destruct Ht; cbn [step loading reportReady lastInputs].
  - auto.
  - auto.
  - auto.
  - repeat split; [exact Hstep | discriminate].
  - repeat split; [exact Hstep | discriminate].
  - auto.
Qed.

Lemma transition_requests s t s' :
  (forall raw data, safeParse schema raw = success data ->
                    safeParse schema data = success data) ->
  transition base schema s t s' ->
  (forall v, lastInputs s = Some v -> safeParse schema v = success v) ->
  (forall v, lastInputs s' = Some v -> safeParse schema v = success v)
  /\ Forall (request_ok schema) t.
Proof.
  intros Hidem Ht Hstored. destruct Ht; cbn [lastInputs].
  - split; [exact Hstored | constructor].
  - split; [exact Hstored | repeat constructor].
  - split; [exact Hstored | repeat constructor].
  - pose proof (Hidem _ _ H) as Hv. split.
    + intros v Hs. injection Hs as <-. exact Hv.
    + unfold failed_submission_trace. repeat constructor. now exists values.
  - pose proof (Hidem _ _ H) as Hv. split.
    + intros v Hs. injection Hs as <-. exact Hv.
    + unfold successful_submission_trace. repeat constructor. now exists values.
  - split; [exact Hstored|].
    unfold download_trace. constructor.
    + exists values. split; [reflexivity | now apply Hstored].
    + destruct net as [res|e]; [|constructor].
      destruct (blob res); repeat constructor.
Qed.

Lemma transition_monotone s t s' :
  transition base schema s t s' -> reportReady s = true -> reportReady s' = true.
Proof. intros Ht Hr. destruct Ht; cbn [reportReady]; auto. Qed.

Lemma transition_locked s t s' :
  transition base schema s t s' -> reportReady s' = false -> Forall (no_download base) t.
Proof.
  intros Ht Hr. destruct Ht; cbn [reportReady] in Hr.
  - constructor.
  - repeat constructor.
  - repeat constructor.
  - unfold failed_submission_trace. repeat constructor. cbn.
    intros Heq. apply append_right_injective in Heq. discriminate Heq.
  - discriminate Hr.
  - congruence.
Qed.

Variable A : Type.
Variable perform : A -> M unit.
Hypothesis perform_transition :
  forall a s, step s <= 2 ->
              transition base schema s (trace (perform a s)) (final (perform a s)).

Lemma run_invariant actions s :
  wizard_invariant s -> wizard_invariant (fst (run perform actions s)).
Proof.
  revert s. induction actions as [|a rest IH]; intros s Hinv; [exact Hinv|].
  cbn [run]. pose proof (perform_transition a s (proj1 Hinv)) as Ht.
  destruct (perform a s) as [s1 t1 c1]. cbn [trace final] in Ht.
  specialize (IH s1 (transition_invariant _ _ _ Ht Hinv)).
  now destruct (run perform rest s1).
Qed.

Lemma run_requests actions s :
  (forall raw data, safeParse schema raw = success data ->
                    safeParse schema data = success data) ->
  wizard_invariant s ->
  (forall v, lastInputs s = Some v -> safeParse schema v = success v) ->
  Forall (request_ok schema) (snd (run perform actions s)).
Proof.
  intros Hidem. revert s. induction actions as [|a rest IH]; intros s Hinv Hstored;
    [constructor|].
  cbn [run]. pose proof (perform_transition a s (proj1 Hinv)) as Ht.
  destruct (perform a s) as [s1 t1 c1]. cbn [trace final] in Ht.
  destruct (transition_requests _ _ _ Hidem Ht Hstored) as [Hstored1 Hreq].
  specialize (IH s1 (transition_invariant _ _ _ Ht Hinv) Hstored1).
  destruct (run perform rest s1) as [s2 t2]. cbn [snd] in *.
  apply Forall_app. now split.
Qed.

Lemma run_monotone actions s :
  step s <= 2 -> reportReady s = true -> reportReady (fst (run perform actions s)) = true.
Proof.
  revert s. induction actions as [|a rest IH]; intros s Hstep Hr; [exact Hr|].
  cbn [run]. pose proof (perform_transition a s Hstep) as Ht.
  destruct (perform a s) as [s1 t1 c1]. cbn [trace final] in Ht.
  assert (Hstep1 : step s1 <= 2).
  { destruct Ht; cbn [step]; auto. }
  specialize (IH s1 Hstep1 (transition_monotone _ _ _ Ht Hr)).
  now destruct (run perform rest s1).
Qed.

Lemma run_locked actions s :
  step s <= 2 ->
  reportReady (fst (run perform actions s)) = false ->
  Forall (no_download base) (snd (run perform actions s)).
Proof.
  revert s. induction actions as [|a rest IH]; intros s Hstep Hr; [constructor|].
  cbn [run] in *. pose proof (perform_transition a s Hstep) as Ht.
  destruct (perform a s) as [s1 t1 c1] eqn:Hp. cbn [trace final] in Ht.
  assert (Hstep1 : step s1 <= 2).
  { destruct Ht; cbn [step]; auto. }
  pose proof (run_monotone rest s1 Hstep1) as Hmono.
  specialize (IH s1 Hstep1).
  destruct (run perform rest s1) as [s2 t2]. cbn [fst snd] in *.
  apply Forall_app. split; [|now apply IH].
  apply (transition_locked _ _ _ Ht).
  destruct (reportReady s1); [|reflexivity].
  specialize (Hmono eq_refl). congruence.
Qed.

End SessionFacts.

Lemma initialState_invariant : wizard_invariant initialState.
Proof. unfold wizard_invariant, initialState. cbn. repeat split; [lia | discriminate]. Qed.

(** X12.  Every request a session sends, to [/run] or to [/pdf], carries
    inputs that pass the schema exactly as they are sent; this holds for both
    schemas and both components. *)
Theorem requests_carry_valid_inputs `{JsRuntime} (base : string)
        (actions1 : list CalculatorWizard1.Action)
        (actions2 : list CalculatorWizard2.Action) :
  Forall (request_ok Coerce.clearHeatSchema)
         (snd (CalculatorWizard1.session base Coerce.clearHeatSchema actions1 initialState))
  /\ Forall (request_ok Preprocess.clearHeatSchema)
            (snd (CalculatorWizard1.session base Preprocess.clearHeatSchema actions1
                    initialState))
  /\ Forall (request_ok Coerce.clearHeatSchema)
            (snd (run (perform2 Coerce.clearHeatSchema) actions2 initialState))
  /\ Forall (request_ok Preprocess.clearHeatSchema)
            (snd (run (perform2 Preprocess.clearHeatSchema) actions2 initialState)).
Proof.
  split; [|split; [|split]].
  - rewrite session1_run.
    apply (run_requests base _ _ _ (perform1_transition base _));
      [exact Coerce_idempotent | apply initialState_invariant | discriminate].
  - rewrite session1_run.
    apply (run_requests base _ _ _ (perform1_transition base _));
      [exact Preprocess_idempotent | apply initialState_invariant | discriminate].
  - apply (run_requests _ _ _ _ (perform2_on_screen _));
      [exact Coerce_idempotent | apply initialState_invariant | discriminate].
  - apply (run_requests _ _ _ _ (perform2_on_screen _));
      [exact Preprocess_idempotent | apply initialState_invariant | discriminate].
Qed.

(** X13.  No download before an evaluate call has succeeded: a session from
    the initial state that ends with the report not ready has sent nothing to
    [/pdf] and saved no file. *)
Theorem no_download_before_ready (base : string) (schema : ZodType)
        (actions1 : list CalculatorWizard1.Action)
        (actions2 : list CalculatorWizard2.Action) :
  (reportReady (fst (CalculatorWizard1.session base schema actions1 initialState)) = false ->
   Forall (no_download base)
          (snd (CalculatorWizard1.session base schema actions1 initialState)))
  /\ (reportReady (fst (run (perform2 schema) actions2 initialState)) = false ->
      Forall (no_download CalculatorWizard2.BACKEND_BASE)
             (snd (run (perform2 schema) actions2 initialState))).
Proof.
  split; intros Hr.
  - rewrite session1_run in *.
    apply (run_locked base schema _ _ (perform1_transition base schema));
      [cbn; lia | exact Hr].
  - apply (run_locked _ schema _ _ (perform2_on_screen schema));
      [cbn; lia | exact Hr].
Qed.

(** X14.  Once the report is ready it stays ready: no action, not even a
    failed resubmission, hides the Download button again. *)
Theorem report_stays_ready (base : string) (schema : ZodType) (s : WizardState)
        (actions1 : list CalculatorWizard1.Action)
        (actions2 : list CalculatorWizard2.Action) :
  step s <= 2 -> reportReady s = true ->
  reportReady (fst (CalculatorWizard1.session base schema actions1 s)) = true
  /\ reportReady (fst (run (perform2 schema) actions2 s)) = true.
Proof.
  intros Hstep Hr. split.
  - rewrite session1_run.
    now apply (run_monotone base schema _ _ (perform1_transition base schema)).
  - now apply (run_monotone _ schema _ _ (perform2_on_screen schema)).
Qed.

Section SessionExamples.
#[local] Existing Instance DecimalRuntime.decimalRuntime.

Definition failingSession : list CalculatorWizard1.Action :=
  [ CalculatorWizard1.ClickNext; CalculatorWizard1.ClickNext;
    CalculatorWizard1.ClickGenerate http500 defaultValues;
    CalculatorWizard1.ClickDownload pdfResponse ].

Lemma no_download_before_ready_witness :
  Forall (no_download "http://127.0.0.1:8000")
         (snd (CalculatorWizard1.session "http://127.0.0.1:8000" Coerce.clearHeatSchema
                 failingSession initialState)).
Proof.
  refine (proj1 (no_download_before_ready "http://127.0.0.1:8000" Coerce.clearHeatSchema
                   failingSession []) _).
  vm_compute. reflexivity.
Defined.

Lemma report_stays_ready_witness :
  reportReady
    (fst (CalculatorWizard1.session "http://127.0.0.1:8000" Coerce.clearHeatSchema
            [ CalculatorWizard1.ClickGenerate http500 biggerHome;
              CalculatorWizard1.ClickBack ]
            (mkState 2 true false (Some defaultValues))))
  = true.
Proof.
  refine (proj1 (report_stays_ready "http://127.0.0.1:8000" Coerce.clearHeatSchema
                   (mkState 2 true false (Some defaultValues))
                   [ CalculatorWizard1.ClickGenerate http500 biggerHome;
                     CalculatorWizard1.ClickBack ] [] _ eq_refl)).
  cbn. lia.
Defined.

End SessionExamples.

(** ** Clicks while a request is in flight

    The page is the component state together with the requests that have been
    sent and have not settled yet.  An event is a click or the settling of a
    request in flight; a request that never settles is one whose settling
    never comes. *)
Record Page := mkPage {
  view : WizardState;
  running : nat;
  downloading : nat
}.

Definition initialPage : Page := mkPage initialState 0 0.

Inductive Event :=
| BackClicked
| NextClicked
| GenerateClicked (formValues : JsValue)
| DownloadClicked
| RunSettles (net : Completion Response)
| PdfSettles (net : Completion Response).

Section Pages.
Variable base : string.
Variable schema : ZodType.

(** Where the two components differ: the rest of [runModel], and whether the
    form, with its Back, Next and Generate buttons, is on screen. *)
Variable settled : Completion Response -> M unit.
Variable form_shown : WizardState -> bool.

Definition on_view (m : M unit) (p : Page) : Page * list Effect :=
  (mkPage (final (m (view p))) (running p) (downloading p), trace (m (view p))).

Definition react (e : Event) (p : Page) : Page * list Effect :=
  let s := view p in
  match e with
  | BackClicked => if form_shown s then on_view back p else (p, [])
  | NextClicked => if form_shown s then on_view next p else (p, [])
  | GenerateClicked formValues =>
      if form_shown s && Nat.eqb (step s) 2 && negb (loading s)
      then
        let o := handleSubmit schema (runModel_start base) formValues s in
        (mkPage (final o)
                (match safeParse schema formValues with
                 | success _ => S (running p)
                 | failure _ => running p
                 end)
                (downloading p),
         trace o)
      else (p, [])
  | DownloadClicked =>
      if reportReady s
      then
        let o := downloadPdf_start base s in
        (mkPage (final o) (running p)
                (match completion o with
                 | Normal true => S (downloading p)
                 | _ => downloading p
                 end),
         trace o)
      else (p, [])
  | RunSettles net =>
      match running p with
      | 0 => (p, [])
      | S n =>
          let o := settled net s in
          (mkPage (final o) n (downloading p), trace o)
      end
  | PdfSettles net =>
      match downloading p with
      | 0 => (p, [])
      | S n =>
          let o := downloadPdf_settled net s in
          (mkPage (final o) (running p) n, trace o)
      end
  end.

Fixpoint play (events : list Event) (p : Page) : Page * list Effect :=
  match events with
  | [] => (p, [])
  | e :: rest =>
      let '(p1, t1) := react e p in
      let '(p2, t2) := play rest p1 in
      (p2, t1 ++ t2)
  end.

End Pages.

(** The two components: in ResultsPanel.tsx the form is always on screen, in
    part_001 only while the report is not ready. *)
Definition play1 (base : string) (schema : ZodType)
  : list Event -> Page -> Page * list Effect :=
  play base schema runModel1_settled (fun _ => true).

Definition play2 (schema : ZodType) : list Event -> Page -> Page * list Effect :=
  play CalculatorWizard2.BACKEND_BASE schema runModel2_settled
       (fun s => negb (reportReady s)).

(** What holds of a page at every moment: one of the three steps; at most one
    request to [/run] in flight, and [loading] exactly while there is one;
    inputs stored while loading and whenever the Download button is shown. *)
Definition page_invariant (p : Page) : Prop :=
  step (view p) <= 2
  /\ running p <= 1
  /\ (loading (view p) = true <-> running p = 1)
  /\ (loading (view p) = true -> lastInputs (view p) <> None)
  /\ (reportReady (view p) = true -> lastInputs (view p) <> None).

(** Nothing of an evaluate call: no request to [/run], no change of
    [loading] or [reportReady], no alert. *)
Definition no_evaluate (base : string) (e : Effect) : Prop :=
  match e with
  | Fetch url _ _ => url <> (base ++ "/run")%string
  | SetLoading _ | SetReportReady _ | SetLastInputs _ | Alert _ => False
  | _ => True
  end.

Definition settles_run (e : Event) : bool :=
  match e with RunSettles _ => true | _ => false end.

Section PageFacts.
Variable base : string.
Variable schema : ZodType.
Variable settled : Completion Response -> M unit.
Variable form_shown : WizardState -> bool.
Hypothesis settled_settles : forall net s, settles (settled net s) s.

Lemma back_fields s :
  step s <= 2 ->
  step (final (back s)) <= 2
  /\ reportReady (final (back s)) = reportReady s
  /\ loading (final (back s)) = loading s
  /\ lastInputs (final (back s)) = lastInputs s
  /\ Forall (no_evaluate base) (trace (back s)).
Proof.
  intros Hs. unfold back. rewrite bind_getState.
  destruct (Nat.eqb (step s) 0); cbn; repeat split; try lia; repeat constructor.
Qed.

Lemma next_fields s :
  step s <= 2 ->
  step (final (next s)) <= 2
  /\ reportReady (final (next s)) = reportReady s
  /\ loading (final (next s)) = loading s
  /\ lastInputs (final (next s)) = lastInputs s
  /\ Forall (no_evaluate base) (trace (next s)).
Proof.
  intros Hs. unfold next. rewrite bind_getState.
  destruct (Nat.ltb (step s) 2) eqn:Hlt;
    [apply PeanoNat.Nat.ltb_lt in Hlt|];
    cbn; repeat split; try lia; repeat constructor.
Qed.

Lemma downloadPdf_start_outcome s :
  final (downloadPdf_start base s) = s
  /\ Forall (no_evaluate base) (trace (downloadPdf_start base s)).
Proof.
  unfold downloadPdf_start. rewrite bind_getState.
  destruct (lastInputs s); cbn; split; try reflexivity; repeat constructor.
  cbn. intros Heq. apply append_right_injective in Heq. discriminate Heq.
Qed.

Lemma downloadPdf_settled_outcome net s :
  final (downloadPdf_settled net s) = s
  /\ Forall (no_evaluate base) (trace (downloadPdf_settled net s)).
Proof.
  unfold downloadPdf_settled, saveResponse, bind, await, effect.
  destruct net as [res|e]; cbn; [|split; [reflexivity | constructor]].
  destruct (blob res); cbn; split; try reflexivity; repeat constructor.
Qed.

Lemma react_invariant e p :
  page_invariant p -> page_invariant (fst (react base schema settled form_shown e p)).
Proof.
  unfold page_invariant.
  destruct p as [s r d]. cbn [view running downloading].
  intros [Hstep [Hone [Hload [Hin Hready]]]].
  destruct e as [| |formValues| |net|net]; cbn [react view running downloading].
  - destruct (form_shown s); [|now cbn].
    destruct (back_fields s Hstep) as [H1 [H2 [H3 [H4 _]]]].
    unfold on_view. cbn [fst view running downloading]. rewrite H2, H3, H4. tauto.
  - destruct (form_shown s); [|now cbn].
    destruct (next_fields s Hstep) as [H1 [H2 [H3 [H4 _]]]].
    unfold on_view. cbn [fst view running downloading]. rewrite H2, H3, H4. tauto.
  - destruct (form_shown s && Nat.eqb (step s) 2 && negb (loading s)) eqn:Hguard;
      [|now cbn].
    apply andb_prop in Hguard. destruct Hguard as [_ Hl]. apply negb_true_iff in Hl.
    unfold handleSubmit.
    destruct (safeParse schema formValues) as [data | error].
    + rewrite runModel_start_outcome.
      cbn [fst view running downloading final step loading reportReady lastInputs].
      assert (Hr : r = 0).
      { destruct r as [|[|r]]; [reflexivity | | lia].
        destruct Hload as [_ Hload]. rewrite Hload in Hl by reflexivity. discriminate. }
      subst r. repeat split; try lia; try discriminate.
    + cbn [fst view running downloading final effect].
      unfold effect. cbn [final]. tauto.
  - destruct (reportReady s) eqn:Hr; [|cbn; rewrite Hr; tauto].
    destruct (downloadPdf_start_outcome s) as [Hf _].
    cbn [fst view running downloading]. rewrite Hf, Hr. tauto.
  - destruct r as [|r]; [now cbn|].
    assert (Hr : r = 0) by lia. subst r.
    assert (Hl : loading s = true) by now apply Hload.
    specialize (Hin Hl).
    cbn [fst view running downloading].
    destruct (settled_settles net s) as [-> | [message ->]];
      cbn [final step loading reportReady lastInputs].
    + repeat split; try lia; try discriminate; auto.
    + repeat split; try lia; try discriminate; auto.
  - destruct d as [|d]; [now cbn|].
    destruct (downloadPdf_settled_outcome net s) as [Hf _].
    cbn [fst view running downloading]. rewrite Hf. tauto.
Qed.

Lemma play_invariant events p :
  page_invariant p -> page_invariant (fst (play base schema settled form_shown events p)).
Proof.
  revert p. induction events as [|e rest IH]; intros p Hinv; [exact Hinv|].
  cbn [play]. pose proof (react_invariant e p Hinv) as H1.
  destruct (react base schema settled form_shown e p) as [p1 t1]. cbn [fst] in H1.
  specialize (IH p1 H1).
  now destruct (play base schema settled form_shown rest p1).
Qed.

(** While the request to [/run] is in flight, an event other than its
    settling leaves it in flight and does nothing of an evaluate call. *)
Lemma react_while_running e p :
  page_invariant p -> running p = 1 -> settles_run e = false ->
  running (fst (react base schema settled form_shown e p)) = 1
  /\ Forall (no_evaluate base) (snd (react base schema settled form_shown e p)).
Proof.
  unfold page_invariant.
  destruct p as [s r d]. cbn [view running downloading].
  intros [Hstep [Hone [Hload [Hin Hready]]]] Hr He. subst r.
  assert (Hl : loading s = true) by now apply Hload.
  destruct e as [| |formValues| |net|net]; cbn [react view running downloading];
    try discriminate He.
  - destruct (form_shown s); [|split; [reflexivity | constructor]].
    unfold on_view. cbn [fst snd running]. split; [reflexivity|].
    now apply back_fields.
  - destruct (form_shown s); [|split; [reflexivity | constructor]].
    unfold on_view. cbn [fst snd running]. split; [reflexivity|].
    now apply next_fields.
  - rewrite Hl. cbn [negb]. rewrite andb_false_r.
    split; [reflexivity | constructor].
  - destruct (reportReady s); [|split; [reflexivity | constructor]].
    cbn [fst snd running]. split; [reflexivity|].
    apply downloadPdf_start_outcome.
  - destruct d as [|d]; [split; [reflexivity | constructor]|].
    cbn [fst snd running]. split; [reflexivity|].
    apply downloadPdf_settled_outcome.
Qed.

Lemma play_while_running events p :
  page_invariant p -> running p = 1 ->
  existsb settles_run events = false ->
  running (fst (play base schema settled form_shown events p)) = 1
  /\ Forall (no_evaluate base) (snd (play base schema settled form_shown events p)).
Proof.
  revert p.
  induction events as [|e rest IH]; intros p Hinv Hr Hnone;
    [split; [exact Hr | constructor]|].
  cbn [existsb] in Hnone. apply orb_false_iff in Hnone. destruct Hnone as [He Hrest].
  cbn [play].
  pose proof (react_invariant e p Hinv) as Hinv1.
  destruct (react_while_running e p Hinv Hr He) as [Hr1 Ht1].
  destruct (react base schema settled form_shown e p) as [p1 t1]. cbn [fst snd] in *.
  destruct (IH p1 Hinv1 Hr1 Hrest) as [Hr2 Ht2].
  destruct (play base schema settled form_shown rest p1) as [p2 t2]. cbn [fst snd] in *.
  split; [exact Hr2 | apply Forall_app; now split].
Qed.

End PageFacts.

Lemma initialPage_invariant : page_invariant initialPage.
Proof.
  unfold page_invariant, initialPage, initialState. cbn.
  repeat split; try lia; try discriminate.
Qed.

(** X11.  Whatever is clicked and whenever the requests settle, if they do,
    from the initial page on: the wizard is on one of its three steps, at
    most one request to [/run] is in flight, [loading] is true exactly while
    there is one, and the Download button is never shown without stored
    inputs.  This holds for both components. *)
Theorem page_keeps_invariant (base : string) (schema : ZodType) (events : list Event) :
  page_invariant (fst (play1 base schema events initialPage))
  /\ page_invariant (fst (play2 schema events initialPage)).
Proof.
  split.
  - apply play_invariant; [exact runModel1_settles | exact initialPage_invariant].
  - apply play_invariant; [exact runModel2_settles | exact initialPage_invariant].
Qed.

(** X21.  While a request to [/run] is in flight and as long as it does not
    settle, whatever else happens, [loading] stays true, the request stays the
    only one, and nothing of an evaluate call is done: no second request to
    [/run], no change of [loading], [reportReady] or the stored inputs, no
    alert.  A request that never settles leaves the form locked for good. *)
Theorem request_in_flight_locks_evaluate (base : string) (schema : ZodType)
        (events : list Event) (p : Page) :
  page_invariant p -> running p = 1 -> existsb settles_run events = false ->
  (loading (view (fst (play1 base schema events p))) = true
   /\ running (fst (play1 base schema events p)) = 1
   /\ Forall (no_evaluate base) (snd (play1 base schema events p)))
  /\ (loading (view (fst (play2 schema events p))) = true
      /\ running (fst (play2 schema events p)) = 1
      /\ Forall (no_evaluate CalculatorWizard2.BACKEND_BASE)
                (snd (play2 schema events p))).
Proof.
  intros Hinv Hr Hnone. split.
  - pose proof (play_invariant base schema _ (fun _ => true) runModel1_settles
                  events p Hinv) as [_ [_ [Hload _]]].
    destruct (play_while_running base schema _ (fun _ => true) runModel1_settles
                events p Hinv Hr Hnone) as [Hr' Ht].
    unfold play1. split; [now apply Hload | now split].
  - pose proof (play_invariant CalculatorWizard2.BACKEND_BASE schema _
                  (fun s => negb (reportReady s)) runModel2_settles
                  events p Hinv) as [_ [_ [Hload _]]].
    destruct (play_while_running CalculatorWizard2.BACKEND_BASE schema _
                (fun s => negb (reportReady s)) runModel2_settles
                events p Hinv Hr Hnone) as [Hr' Ht].
    unfold play2. split; [now apply Hload | now split].
Qed.

Section InFlightExample.
#[local] Existing Instance DecimalRuntime.decimalRuntime.

(** The page once Generate was clicked on the last step with the default
    values, the request still in flight. *)
Definition submitted : Page :=
  mkPage (mkState 2 false true (Some defaultValues)) 1 0.

Lemma submitted_reached :
  play1 "http://127.0.0.1:8000" Coerce.clearHeatSchema
        [NextClicked; NextClicked; GenerateClicked defaultValues] initialPage
  = (submitted,
     [ SetStep 1; SetStep 2; SetLoading true; SetLastInputs defaultValues;
       Fetch "http://127.0.0.1:8000/run" "POST" (inputs_body defaultValues) ]).
Proof. vm_compute. reflexivity. Qed.

(** Clicks while the request is in flight: Generate again, Back, Download. *)
Definition impatientClicks : list Event :=
  [GenerateClicked biggerHome; BackClicked; DownloadClicked; GenerateClicked defaultValues].

Lemma request_in_flight_locks_evaluate_witness :
  loading (view (fst (play1 "http://127.0.0.1:8000" Coerce.clearHeatSchema
                        impatientClicks submitted)))
  = true.
Proof.
  refine (proj1 (proj1 (request_in_flight_locks_evaluate
                          "http://127.0.0.1:8000" Coerce.clearHeatSchema
                          impatientClicks submitted _ eq_refl eq_refl))).
  unfold page_invariant, submitted. cbn.
  repeat split; try lia; try discriminate.
Defined.

End InFlightExample.

(** ** Sessions in which every request settles before the next click *)

Definition settled_events1 (a : CalculatorWizard1.Action) : list Event :=
  match a with
  | CalculatorWizard1.ClickBack => [BackClicked]
  | CalculatorWizard1.ClickNext => [NextClicked]
  | CalculatorWizard1.ClickGenerate net formValues =>
      [GenerateClicked formValues; RunSettles net]
  | CalculatorWizard1.ClickDownload net => [DownloadClicked; PdfSettles net]
  end.

Definition settled_events2 (a : CalculatorWizard2.Action) : list Event :=
  match a with
  | CalculatorWizard2.ClickBack => [BackClicked]
  | CalculatorWizard2.ClickNext => [NextClicked]
  | CalculatorWizard2.ClickGenerate net formValues =>
      [GenerateClicked formValues; RunSettles net]
  | CalculatorWizard2.ClickDownload net => [DownloadClicked; PdfSettles net]
  end.

Section SettledSessions.
Variable schema : ZodType.

Lemma play_app base settled form_shown events1 events2 p :
  play base schema settled form_shown (events1 ++ events2) p
  = let '(p1, t1) := play base schema settled form_shown events1 p in
    let '(p2, t2) := play base schema settled form_shown events2 p1 in
    (p2, t1 ++ t2).
Proof.
  revert p. induction events1 as [|e rest IH]; intros p; cbn [app play].
  - now destruct (play base schema settled form_shown events2 p).
  - destruct (react base schema settled form_shown e p) as [p1 t1]. rewrite IH.
    destruct (play base schema settled form_shown rest p1) as [p2 t2].
    destruct (play base schema settled form_shown events2 p2) as [p3 t3].
    now rewrite app_assoc.
Qed.

Lemma bind_outcome {A B} (m : M A) (k : A -> M B) s a :
  completion (m s) = Normal a ->
  final (bind m k s) = final (k a (final (m s)))
  /\ trace (bind m k s) = trace (m s) ++ trace (k a (final (m s))).
Proof.
  unfold bind. destruct (m s) as [s1 t1 c1]. cbn [completion final trace].
  intros ->. now destruct (k a s1).
Qed.

Lemma downloadPdf_start_sent base s inputs :
  lastInputs s = Some inputs ->
  downloadPdf_start base s
  = mkOutcome s [Fetch (base ++ "/pdf") "POST" (inputs_body inputs)] (Normal true).
Proof.
  intros Hlast. unfold downloadPdf_start. rewrite bind_getState, Hlast. reflexivity.
Qed.

Lemma downloadPdf_start_none base s :
  lastInputs s = None -> downloadPdf_start base s = mkOutcome s [] (Normal false).
Proof.
  intros Hlast. unfold downloadPdf_start. rewrite bind_getState, Hlast. reflexivity.
Qed.

Lemma downloadPdf_settled_trace base net s inputs :
  final (downloadPdf_settled net s) = s
  /\ Fetch (base ++ "/pdf") "POST" (inputs_body inputs) :: trace (downloadPdf_settled net s)
     = download_trace base inputs net.
Proof.
  unfold downloadPdf_settled, saveResponse, bind, await, effect, download_trace.
  destruct net as [res|e]; cbn; [|split; reflexivity].
  destruct (blob res); cbn; split; reflexivity.
Qed.

Lemma settled_action1 base a s :
  play1 base schema (settled_events1 a) (mkPage s 0 0)
  = (mkPage (final (CalculatorWizard1.perform base schema a s)) 0 0,
     trace (CalculatorWizard1.perform base schema a s)).
Proof.
  unfold play1.
  destruct a as [| |net formValues|net];
    cbn [settled_events1 CalculatorWizard1.perform play react view running downloading].
  - unfold on_view. cbn [view running downloading]. now rewrite app_nil_r.
  - unfold on_view. cbn [view running downloading]. now rewrite app_nil_r.
  - unfold CalculatorWizard1.generateReport. rewrite bind_getState. cbn [andb].
    destruct (Nat.eqb (step s) 2 && negb (loading s)); [|reflexivity].
    unfold handleSubmit.
    destruct (safeParse schema formValues) as [data | error]; [|reflexivity].
    cbn [view running downloading].
    destruct (bind_outcome (runModel_start base data) (fun _ => runModel1_settled net)
                s tt eq_refl) as [Hf Ht].
    rewrite runModel1_split, Hf, Ht. now rewrite app_nil_r.
  - unfold CalculatorWizard1.clickDownload. rewrite bind_getState.
    destruct (reportReady s); [|reflexivity].
    destruct (lastInputs s) as [inputs|] eqn:Hlast.
    + rewrite (downloadPdf1_outcome base net s inputs Hlast).
      rewrite (downloadPdf_start_sent base s inputs Hlast).
      cbn [final trace completion view running downloading].
      destruct (downloadPdf_settled_trace base net s inputs) as [Hf Ht].
      rewrite Hf, app_nil_r. cbn [app]. now rewrite Ht.
    + rewrite (proj1 (download_without_inputs_noop_aux base net s Hlast)).
      rewrite (downloadPdf_start_none base s Hlast). reflexivity.
Qed.

Lemma settled_action2 a s :
  play2 schema (settled_events2 a) (mkPage s 0 0)
  = (mkPage (final (perform2 schema a s)) 0 0, trace (perform2 schema a s)).
Proof.
  unfold play2, perform2. rewrite bind_getState.
  destruct a as [| |net formValues|net];
    cbn [settled_events2 onScreen2 CalculatorWizard2.perform play react
         view running downloading].
  - destruct (reportReady s); cbn [negb]; [reflexivity|].
    unfold on_view. cbn [view running downloading]. now rewrite app_nil_r.
  - destruct (reportReady s); cbn [negb]; [reflexivity|].
    unfold on_view. cbn [view running downloading]. now rewrite app_nil_r.
  - destruct (reportReady s) eqn:Hready; cbn [negb andb]; [reflexivity|].
    unfold CalculatorWizard2.generateReport. rewrite bind_getState, Hready.
    cbn [negb andb].
    destruct (Nat.eqb (step s) 2 && negb (loading s)); [|reflexivity].
    unfold handleSubmit.
    destruct (safeParse schema formValues) as [data | error]; [|reflexivity].
    cbn [view running downloading].
    destruct (bind_outcome (runModel_start CalculatorWizard2.BACKEND_BASE data)
                (fun _ => runModel2_settled net) s tt eq_refl) as [Hf Ht].
    rewrite runModel2_split, Hf, Ht. now rewrite app_nil_r.
  - destruct (reportReady s) eqn:Hready; [|reflexivity].
    unfold CalculatorWizard2.clickDownload. rewrite bind_getState, Hready.
    destruct (lastInputs s) as [inputs|] eqn:Hlast.
    + rewrite (downloadPdf2_outcome net s inputs Hlast).
      rewrite (downloadPdf_start_sent _ s inputs Hlast).
      cbn [final trace completion view running downloading].
      destruct (downloadPdf_settled_trace CalculatorWizard2.BACKEND_BASE net s inputs)
        as [Hf Ht].
      rewrite Hf, app_nil_r. cbn [app]. now rewrite Ht.
    + rewrite (proj2 (download_without_inputs_noop_aux "" net s Hlast)).
      rewrite (downloadPdf_start_none _ s Hlast). reflexivity.
Qed.

End SettledSessions.

(** X22.  The sessions of clicks, each with the outcome of its request, are
    the plays in which every request settles before the next click: such a
    play ends in the state of the session with nothing in flight, and logs
    what the session logs. *)
Theorem settled_play_is_session (base : string) (schema : ZodType) (s : WizardState)
        (actions1 : list CalculatorWizard1.Action)
        (actions2 : list CalculatorWizard2.Action) :
  play1 base schema (flat_map settled_events1 actions1) (mkPage s 0 0)
  = (mkPage (fst (CalculatorWizard1.session base schema actions1 s)) 0 0,
     snd (CalculatorWizard1.session base schema actions1 s))
  /\ play2 schema (flat_map settled_events2 actions2) (mkPage s 0 0)
     = (mkPage (fst (run (perform2 schema) actions2 s)) 0 0,
        snd (run (perform2 schema) actions2 s)).
Proof.
  split.
  - revert s. induction actions1 as [|a rest IH]; intros s; [reflexivity|].
    cbn [flat_map CalculatorWizard1.session]. unfold play1 in *.
    rewrite play_app.
    pose proof (settled_action1 schema base a s) as Ha. unfold play1 in Ha. rewrite Ha.
    rewrite IH.
    destruct (CalculatorWizard1.perform base schema a s) as [s1 t1 c1].
    cbn [final trace].
    now destruct (CalculatorWizard1.session base schema rest s1).
  - revert s. induction actions2 as [|a rest IH]; intros s; [reflexivity|].
    cbn [flat_map run]. unfold play2 in *.
    rewrite play_app.
    pose proof (settled_action2 schema a s) as Ha. unfold play2 in Ha. rewrite Ha.
    rewrite IH.
    destruct (perform2 schema a s) as [s1 t1 c1].
    cbn [final trace].
    now destruct (run (perform2 schema) rest s1).
Qed.

(** ** [asNumber] and the bounds of the numeric fields *)

(** X15.  [asNumber] is idempotent, leaves everything but strings as it is,
    and turns a string into [undefined], into a finite number, or leaves it
    as it is: a string never becomes NaN or an infinity. *)
Theorem asNumber_normal_form `{JsRuntime} (v : JsValue) :
  Preprocess.asNumber (Preprocess.asNumber v) = Preprocess.asNumber v
  /\ ((forall s, v <> JString s) -> Preprocess.asNumber v = v)
  /\ (forall s, v = JString s ->
        Preprocess.asNumber v = JUndefined
        \/ Preprocess.asNumber v = v
        \/ exists q, Preprocess.asNumber v = JNumber (Finite q)).
Proof.
  split; [|split].
  - destruct v as [| |b|n|s|l|o]; try reflexivity.
    unfold Preprocess.asNumber.
    destruct (trim s =? "") eqn:Et; [reflexivity|].
    destruct (isFinite (StringToNumber (trim s))) eqn:Ef; [reflexivity|].
    now rewrite Et, Ef.
  - intros Hv. destruct v; try reflexivity. now destruct (Hv s).
  - intros s ->. unfold Preprocess.asNumber.
    destruct (trim s =? ""); [now left|].
    destruct (StringToNumber (trim s)) as [|neg|q]; cbn [isFinite].
    + right. now left.
    + right. now left.
    + right. right. now exists q.
Qed.

Lemma asNumber_normal_form_witness :
  Preprocess.asNumber (H := DecimalRuntime.decimalRuntime) (JString "Infinity") = JUndefined
  \/ Preprocess.asNumber (H := DecimalRuntime.decimalRuntime) (JString "Infinity")
     = JString "Infinity"
  \/ exists q,
       Preprocess.asNumber (H := DecimalRuntime.decimalRuntime) (JString "Infinity")
       = JNumber (Finite q).
Proof.
  exact (proj2 (proj2 (asNumber_normal_form (H := DecimalRuntime.decimalRuntime)
                         (JString "Infinity"))) "Infinity" eq_refl).
Defined.

Section Bounds.
Context `{JsRuntime}.

Lemma min_only_valid (lo : Q) path q :
  status (ZodNumber_parse [chk_min lo] path (JNumber (Finite q))) = valid <-> Qle lo q.
Proof.
  rewrite ZodNumber_parse_valid. unfold passes, check_issue. cbn [forallb].
  split.
  - intros [_ Hp]. destruct (num_ltb (Finite q) (Finite lo)) eqn:El; [discriminate|].
    now apply num_ltb_Finite_false.
  - intros Hle. split; [discriminate|].
    apply num_ltb_Finite_false in Hle. now rewrite Hle.
Qed.

End Bounds.

(** X16.  The bounds of the other numeric fields, on numbers.  In the
    [z.coerce] schema: prices 0..5, boiler efficiency 0.5..1, quote
    0..100000, and only a lower bound 0 on the grant value and the two bill
    figures.  In the [z.preprocess] schema: prices 0..10, boiler efficiency
    from the double 0.3 to 1, quote 0..200000, grant value 0..50000, fuel use
    0..500000, spend 0..200000. *)
Theorem numeric_bounds `{JsRuntime} (path : list string) (n : JsNum) (q : Q) :
  let ok (t : ZodType) (m : JsNum) := status (t path (JNumber m)) = valid in
  (ok Coerce.fuel_price_eur_per_unit n <-> number_between 0 5 n)
  /\ (ok Coerce.electricity_price_eur_per_kwh n <-> number_between 0 5 n)
  /\ (ok Coerce.boiler_efficiency n <-> number_between (1 # 2) 1 n)
  /\ (ok Coerce.hp_quote_eur n <-> number_between 0 100000 n)
  /\ (ok Coerce.grant_value_eur (Finite q) <-> Qle 0 q)
  /\ (ok Coerce.annual_fuel_use (Finite q) <-> Qle 0 q)
  /\ (ok Coerce.annual_spend_eur (Finite q) <-> Qle 0 q)
  /\ (ok Preprocess.fuel_price_eur_per_unit n <-> number_between 0 10 n)
  /\ (ok Preprocess.electricity_price_eur_per_kwh n <-> number_between 0 10 n)
  /\ (ok Preprocess.boiler_efficiency n <-> number_between Preprocess.double_0_3 1 n)
  /\ (ok Preprocess.hp_quote_eur n <-> number_between 0 200000 n)
  /\ (ok Preprocess.grant_value_eur n <-> number_between 0 50000 n)
  /\ (ok Preprocess.annual_fuel_use n <-> number_between 0 500000 n)
  /\ (ok Preprocess.annual_spend_eur n <-> number_between 0 200000 n).
Proof.
  intros ok. unfold ok.
  repeat match goal with
         | |- _ /\ _ => split
         end.
  all: first [ apply (range_valid _ _ path n) | apply (min_only_valid 0 path q) ].
Qed.

(** ** The errors of the route, field by field *)

(** A schema keeps the path when every issue it raises is at the path it was
    given. *)
Definition path_kept (t : ZodType) : Prop :=
  forall p v i, In i (issues (t p v)) -> path i = p.

Section Paths.
Context `{JsRuntime}.

Lemma z_enum_path values : path_kept (z_enum values).
Proof.
  intros p v i. unfold z_enum.
  destruct v; cbn; try (intros [<- | []]; reflexivity).
  destruct (existsb (String.eqb s) values); cbn; [contradiction|].
  intros [<- | []]; reflexivity.
Qed.

Lemma ZodNumber_parse_path checks : path_kept (ZodNumber_parse checks).
Proof.
  intros p v i. unfold ZodNumber_parse.
  destruct v as [| |b|n|s|l|o]; cbn [issues INVALID];
    try (intros [<- | []]; reflexivity).
  assert (Hall : In i (flat_map (fun c => map (fun i => mkIssue i p) (check_issue n c))
                                checks) -> path i = p).
  { intros Hin. apply in_flat_map in Hin. destruct Hin as [c [_ Hin]].
    apply in_map_iff in Hin. destruct Hin as [code [<- _]]. reflexivity. }
  destruct n; cbn [issues INVALID]; [intros [<- | []]; reflexivity | exact Hall ..].
Qed.

Lemma z_coerce_number_path checks : path_kept (z_coerce_number checks).
Proof. intros p v. apply ZodNumber_parse_path. Qed.

Lemma z_boolean_path : path_kept z_boolean.
Proof.
  intros p v i. destruct v; cbn; try contradiction; intros [<- | []]; reflexivity.
Qed.

Lemma z_coerce_boolean_path : path_kept z_coerce_boolean.
Proof. intros p v. apply z_boolean_path. Qed.

Lemma optional_path t : path_kept t -> path_kept (optional t).
Proof. intros Ht p v i. unfold optional. destruct v; try apply Ht. cbn. contradiction. Qed.

Lemma default_path t d : path_kept t -> path_kept (default t d).
Proof. intros Ht p v i. unfold default. destruct v; apply Ht. Qed.

Lemma z_preprocess_path f t : path_kept t -> path_kept (z_preprocess f t).
Proof. intros Ht p v. apply Ht. Qed.

End Paths.

Ltac path_facts :=
  repeat first
    [ apply z_enum_path | apply z_coerce_number_path | apply ZodNumber_parse_path
    | apply z_coerce_boolean_path | apply z_boolean_path
    | apply optional_path | apply default_path | apply z_preprocess_path ].

Section FieldErrors.
Context `{JsRuntime}.

Lemma Coerce_shape_paths : Forall (fun kt => path_kept (snd kt)) Coerce.shape.
Proof.
  unfold Coerce.shape. repeat (apply Forall_cons; [cbn [snd]|]); [.. | apply Forall_nil].
  all: unfold Coerce.ber_band, Coerce.floor_area_m2, Coerce.emitters,
      Coerce.heating_pattern, Coerce.wood_use, Coerce.occupants, Coerce.fuel_type,
      Coerce.fuel_price_eur_per_unit, Coerce.electricity_price_eur_per_kwh,
      Coerce.boiler_efficiency, Coerce.hp_quote_eur, Coerce.grant_applied,
      Coerce.grant_value_eur, Coerce.bill_mode, Coerce.annual_fuel_use,
      Coerce.annual_spend_eur; path_facts.
Qed.

Lemma Preprocess_shape_paths : Forall (fun kt => path_kept (snd kt)) Preprocess.shape.
Proof.
  unfold Preprocess.shape.
  repeat (apply Forall_cons; [cbn [snd]|]); [.. | apply Forall_nil].
  all: unfold Preprocess.ber_band, Preprocess.floor_area_m2, Preprocess.emitters,
      Preprocess.heating_pattern, Preprocess.wood_use, Preprocess.occupants,
      Preprocess.fuel_type, Preprocess.fuel_price_eur_per_unit,
      Preprocess.electricity_price_eur_per_kwh, Preprocess.boiler_efficiency,
      Preprocess.hp_quote_eur, Preprocess.grant_applied, Preprocess.grant_value_eur,
      Preprocess.bill_mode, Preprocess.annual_fuel_use, Preprocess.annual_spend_eur,
      Preprocess.num, Preprocess.numOpt, Preprocess.bool, z_number; path_facts.
Qed.

(** Every error reported on an object is at a key of the schema. *)
Lemma validation_errors_keyed shape msg_fuel msg_spend props e :
  Forall (fun kt => path_kept (snd kt)) shape ->
  map fst shape = map fst ClearHeatInput ->
  In e (validation_errors shape (billModeRefinement msg_fuel msg_spend) (JObject props)) ->
  exists k, path e = [k] /\ In k (map fst ClearHeatInput).
Proof.
  intros Hpaths Hkeys Hin. unfold validation_errors in Hin.
  apply in_app_or in Hin. destruct Hin as [Hin | Hin].
  - unfold field_issues in Hin. apply in_flat_map in Hin.
    destruct Hin as [[k t] [Hkt Hi]].
    rewrite Forall_forall in Hpaths. specialize (Hpaths _ Hkt). cbn [snd] in Hpaths.
    exists k. split; [exact (Hpaths [k] (get (JObject props) k) e Hi)|].
    rewrite <- Hkeys. change k with (fst (k, t)). now apply in_map.
  - destruct (some_field_aborted shape (JObject props)); [contradiction|].
    unfold cross_field_issues in Hin. apply in_map_iff in Hin.
    destruct Hin as [d [<- Hd]]. cbn [path].
    unfold billModeRefinement in Hd. apply in_app_or in Hd.
    destruct Hd as [Hd | Hd];
      match type of Hd with In _ (if ?c then _ else _) => destruct c end;
      try contradiction; destruct Hd as [<- | []]; cbn [data_path];
      eexists; (split; [reflexivity | in_shape]).
Qed.

(** What [flatten] does with errors that are all at a key. *)
Definition flatten_step (acc : FlattenedError) (sub : ZodIssue) : FlattenedError :=
  match path sub with
  | [] => mkFlattened (formErrors acc ++ [code sub]) (fieldErrors acc)
  | k :: _ => mkFlattened (formErrors acc) (push_field k (code sub) (fieldErrors acc))
  end.

Lemma push_field_keys k m fe k' ms :
  In (k', ms) (push_field k m fe) -> k' = k \/ In k' (map fst fe).
Proof.
  induction fe as [|[k0 ms0] rest IH]; cbn.
  - intros [Heq | []]. injection Heq as <- _. now left.
  - destruct (k0 =? k) eqn:E.
    + intros [Heq | Hin].
      * injection Heq as <- _. right. now left.
      * right. right. change k' with (fst (k', ms)). now apply in_map.
    + intros [Heq | Hin].
      * injection Heq as <- _. right. now left.
      * destruct (IH Hin) as [-> | Hr]; [now left | right; now right].
Qed.

Lemma push_field_keeps k m fe k' ms c :
  In (k', ms) fe -> In c ms -> exists ms', In (k', ms') (push_field k m fe) /\ In c ms'.
Proof.
  induction fe as [|[k0 ms0] rest IH]; cbn; [contradiction|].
  intros [Heq | Hin] Hc.
  - injection Heq as -> ->. destruct (k' =? k).
    + exists (ms ++ [m]). split; [now left | apply in_or_app; now left].
    + exists ms. split; [now left | exact Hc].
  - destruct (IH Hin Hc) as [ms' [Hin' Hc']].
    destruct (k0 =? k).
    + exists ms. split; [now right | exact Hc].
    + exists ms'. split; [now right | exact Hc'].
Qed.

Lemma push_field_adds k m fe : exists ms, In (k, ms) (push_field k m fe) /\ In m ms.
Proof.
  induction fe as [|[k0 ms0] rest IH]; cbn.
  - exists [m]. split; now left.
  - destruct (k0 =? k) eqn:E.
    + apply String.eqb_eq in E. subst k0.
      exists (ms0 ++ [m]). split; [now left | apply in_or_app; right; now left].
    + destruct IH as [ms [Hin Hm]]. exists ms. split; [now right | exact Hm].
Qed.

Lemma flatten_keyed (keys : list string) errors acc :
  (forall e, In e errors -> exists k, path e = [k] /\ In k keys) ->
  let result := fold_left flatten_step errors acc in
  formErrors result = formErrors acc
  /\ (forall k ms, In (k, ms) (fieldErrors result) ->
                   In k keys \/ In k (map fst (fieldErrors acc)))
  /\ (forall k ms c, In (k, ms) (fieldErrors acc) -> In c ms ->
                     exists ms', In (k, ms') (fieldErrors result) /\ In c ms')
  /\ (forall e, In e errors ->
        exists k ms, path e = [k] /\ In (k, ms) (fieldErrors result) /\ In (code e) ms).
Proof.
  revert acc. induction errors as [|e rest IH]; intros acc Hall; cbn [fold_left].
  - split; [reflexivity|]. split.
    + intros k ms Hin. right. change k with (fst (k, ms)). now apply in_map.
    + split; [intros k ms c Hin Hc; now exists ms | intros e []].
  - destruct (Hall e (or_introl eq_refl)) as [k [Hp Hk]].
    assert (Hstep : flatten_step acc e
                    = mkFlattened (formErrors acc) (push_field k (code e) (fieldErrors acc))).
    { unfold flatten_step. now rewrite Hp. }
    rewrite Hstep.
    destruct (IH (mkFlattened (formErrors acc) (push_field k (code e) (fieldErrors acc)))
                 (fun e' He' => Hall e' (or_intror He')))
      as [Hform [Hkeys [Hkeep Hfound]]].
    cbn [formErrors fieldErrors] in *.
    split; [exact Hform|]. split; [|split].
    + intros k' ms Hin. destruct (Hkeys k' ms Hin) as [Hl | Hr]; [now left|].
      apply in_map_iff in Hr. destruct Hr as [[k0 ms0] [<- Hin0]].
      destruct (push_field_keys _ _ _ _ _ Hin0) as [-> | Hold]; [now left | now right].
    + intros k' ms c Hin Hc.
      destruct (push_field_keeps k (code e) _ _ _ _ Hin Hc) as [ms' [Hin' Hc']].
      exact (Hkeep k' ms' c Hin' Hc').
    + intros e' [<- | He'].
      * destruct (push_field_adds k (code e) (fieldErrors acc)) as [ms [Hin Hm]].
        destruct (Hkeep k ms (code e) Hin Hm) as [ms' [Hin' Hm']].
        now exists k, ms'.
      * exact (Hfound e' He').
Qed.

Lemma flatten_as_fold errors :
  flatten errors = fold_left flatten_step errors (mkFlattened [] []).
Proof. reflexivity. Qed.

End FieldErrors.

Section RouteErrors.
Context `{JsRuntime}.

Lemma failure_details shape msg_fuel msg_spend props errors :
  follows shape ClearHeatInput ->
  Forall (fun kt => path_kept (snd kt)) shape ->
  safeParse (superRefine (z_object shape) (billModeRefinement msg_fuel msg_spend))
            (JObject props) = failure errors ->
  formErrors (flatten errors) = []
  /\ (forall k ms, In (k, ms) (fieldErrors (flatten errors)) ->
                   In k (map fst ClearHeatInput))
  /\ (forall e, In e errors ->
        exists k ms, path e = [k] /\ In (k, ms) (fieldErrors (flatten errors))
                     /\ In (code e) ms).
Proof.
  intros HF Hpaths Hfail.
  pose proof (validation_report shape ClearHeatInput (billModeRefinement msg_fuel msg_spend)
                HF ClearHeatInput_distinct ClearHeatInput_no_proto (JObject props)) as Hrep.
  rewrite Hfail in Hrep. destruct Hrep as [_ Herr].
  assert (Hkeyed : forall e, In e errors ->
                     exists k, path e = [k] /\ In k (map fst ClearHeatInput)).
  { intros e He. rewrite Herr in He.
    apply (validation_errors_keyed shape msg_fuel msg_spend props e Hpaths
             (follows_keys _ _ HF) He). }
  rewrite flatten_as_fold.
  destruct (flatten_keyed (map fst ClearHeatInput) errors (mkFlattened [] []) Hkeyed)
    as [Hform [Hkeys [_ Hfound]]].
  split; [exact Hform|]. split; [|exact Hfound].
  intros k ms Hin. destruct (Hkeys k ms Hin) as [Hk | []]. exact Hk.
Qed.

End RouteErrors.

(** X17.  The 400 answer of the route lists the errors field by field: for an
    object body [details.formErrors] is empty, every key of
    [details.fieldErrors] is a key of the schema, and every error is found
    under the key of its path; for a body that is not an object the one
    error is a form error. *)
Theorem route_errors_by_field `{JsRuntime} (props : list (string * JsValue))
        (errors : list ZodIssue) (raw : JsValue) :
  (safeParse Coerce.clearHeatSchema (JObject props) = failure errors ->
   Route.POST Coerce.clearHeatSchema (JObject props)
   = Route.mkResponse 400 (Route.InvalidInput "Invalid input" (flatten errors))
   /\ formErrors (flatten errors) = []
   /\ (forall k ms, In (k, ms) (fieldErrors (flatten errors)) ->
                    In k (map fst ClearHeatInput))
   /\ (forall e, In e errors ->
         exists k ms, path e = [k] /\ In (k, ms) (fieldErrors (flatten errors))
                      /\ In (code e) ms))
  /\ (safeParse Preprocess.clearHeatSchema (JObject props) = failure errors ->
      Route.POST Preprocess.clearHeatSchema (JObject props)
      = Route.mkResponse 400 (Route.InvalidInput "Invalid input" (flatten errors))
      /\ formErrors (flatten errors) = []
      /\ (forall k ms, In (k, ms) (fieldErrors (flatten errors)) ->
                       In k (map fst ClearHeatInput))
      /\ (forall e, In e errors ->
            exists k ms, path e = [k] /\ In (k, ms) (fieldErrors (flatten errors))
                         /\ In (code e) ms))
  /\ ((forall o, raw <> JObject o) ->
      Route.POST Coerce.clearHeatSchema raw
      = Route.mkResponse 400
          (Route.InvalidInput "Invalid input"
             (mkFlattened [invalid_type t_object (getParsedType raw)] []))
      /\ Route.POST Preprocess.clearHeatSchema raw
         = Route.mkResponse 400
             (Route.InvalidInput "Invalid input"
                (mkFlattened [invalid_type t_object (getParsedType raw)] []))).
Proof.
  split; [|split].
  - intros Hfail. split; [unfold Route.POST; now rewrite Hfail|].
    apply (failure_details Coerce.shape _ _ props errors
             Coerce_shape_follows Coerce_shape_paths Hfail).
  - intros Hfail. split; [unfold Route.POST; now rewrite Hfail|].
    apply (failure_details Preprocess.shape _ _ props errors
             Preprocess_shape_follows Preprocess_shape_paths Hfail).
  - intros Hraw. destruct raw; try (split; reflexivity). now destruct (Hraw props0).
Qed.

Section RouteErrorsExample.
#[local] Existing Instance DecimalRuntime.decimalRuntime.

Definition twoMistakes : list (string * JsValue) :=
  with_field "occupants" (JNumber (Finite (5 # 2)))
    (with_field "floor_area_m2" (JString "19") defaultValues_without_spend).

Lemma route_errors_by_field_witness :
  Route.POST Coerce.clearHeatSchema (JObject twoMistakes)
  = Route.mkResponse 400
      (Route.InvalidInput "Invalid input"
         (mkFlattened []
            [ ("floor_area_m2", [too_small 20 true]);
              ("occupants", [invalid_type t_integer t_float]);
              ("annual_spend_eur", [custom "Required when bill mode is annual spend."]) ])).
Proof.
  refine (proj1 (proj1 (route_errors_by_field twoMistakes
    [ mkIssue (too_small 20 true) ["floor_area_m2"];
      mkIssue (invalid_type t_integer t_float) ["occupants"];
      mkIssue (custom "Required when bill mode is annual spend.") ["annual_spend_eur"] ]
    JNull) _)).
  vm_compute. reflexivity.
Defined.

End RouteErrorsExample.

(** ** The schema copy without a cross-field rule (part_002, first document)

    [const num = z.coerce.number()], the same [bool] preprocess as in
    schema.ts, and a plain [z.object] with no [superRefine]. *)
Module Unrefined.
Section WithRuntime.
Context `{JsRuntime}.

Definition num (checks : list ZodNumberCheck) : ZodType := z_coerce_number checks.

Definition bool : ZodType := z_preprocess Preprocess.bool_preprocess z_boolean.

Definition shape : list (string * ZodType) :=
  [ ("ber_band", z_enum ["A"; "B"; "C"; "D"; "E"; "F"; "G"]);
    ("floor_area_m2", num [chk_min 20; chk_max 1000]);
    ("emitters", z_enum ["radiators"; "ufh"]);
    ("heating_pattern", z_enum ["rare"; "normal"; "high"]);
    ("wood_use", z_enum ["none"; "some"; "lots"]);
    ("occupants", num [chk_int; chk_min 1; chk_max 20]);
    ("fuel_type", z_enum ["gas"; "kerosene"]);
    ("fuel_price_eur_per_unit", num [chk_min 0; chk_max 5]);
    ("electricity_price_eur_per_kwh", num [chk_min 0; chk_max 5]);
    ("boiler_efficiency", num [chk_min (1 # 2); chk_max 1]);
    ("hp_quote_eur", num [chk_min 0; chk_max 100000]);
    ("grant_applied", bool);
    ("grant_value_eur", num [chk_min 0]);
    ("bill_mode", z_enum ["annual_fuel_use"; "annual_spend"; "none"]);
    ("annual_fuel_use", optional (num [chk_min 0]));
    ("annual_spend_eur", optional (num [chk_min 0])) ].

Definition clearHeatSchema : ZodType := z_object shape.

End WithRuntime.
End Unrefined.

Section UnrefinedFacts.
Context `{JsRuntime}.

Lemma Unrefined_shape_follows : follows Unrefined.shape ClearHeatInput.
Proof.
  unfold follows, Unrefined.shape, ClearHeatInput.
  repeat (apply Forall2_cons; [cbn [fst snd]; split; [reflexivity | split]|]);
    [.. | apply Forall2_nil].
  all: unfold Unrefined.num, Unrefined.bool; schema_facts.
Qed.

Lemma failure_injective e1 e2 : failure e1 = failure e2 -> e1 = e2.
Proof. intros Heq. now injection Heq. Qed.

Lemma safeParse_z_object shape props :
  safeParse (z_object shape) (JObject props)
  = if some_field_aborted shape (JObject props)
    then failure (field_issues shape (JObject props))
    else if fields_valid shape (JObject props)
         then success (value (z_object shape [] (JObject props)))
         else failure (field_issues shape (JObject props)).
Proof.
  unfold safeParse. rewrite z_object_status, z_object_issues.
  destruct (some_field_aborted shape (JObject props)); [reflexivity|].
  now destruct (fields_valid shape (JObject props)).
Qed.

End UnrefinedFacts.

(** X18.  The schema copy of part_002 has no cross-field rule: on an object
    it succeeds exactly when every field is valid, whatever [bill_mode] says,
    and when it fails its errors are the issues of the fields and nothing
    else. *)
Theorem unrefined_copy_checks_fields_only `{JsRuntime} (props : list (string * JsValue)) :
  let raw := JObject props in
  (fields_valid Unrefined.shape raw = true
   <-> exists data, safeParse Unrefined.clearHeatSchema raw = success data)
  /\ (forall errors,
        safeParse Unrefined.clearHeatSchema raw = failure errors ->
        errors = field_issues Unrefined.shape raw /\ errors <> []).
Proof.
  intros raw. unfold raw, Unrefined.clearHeatSchema.
  rewrite safeParse_z_object.
  destruct (some_field_aborted Unrefined.shape (JObject props)) eqn:Ea.
  - pose proof (aborted_not_valid _ _ Ea) as Hnv. split.
    + split; [congruence | intros [data Hd]; discriminate].
    + intros errors Hf. apply failure_injective in Hf. subst errors.
      split; [reflexivity|].
      intros Hnil.
      apply (fields_valid_issues _ _ _ Unrefined_shape_follows) in Hnil. congruence.
  - destruct (fields_valid Unrefined.shape (JObject props)) eqn:Ev.
    + split; [split; [eauto | reflexivity] | intros errors Hf; discriminate].
    + split.
      * split; [discriminate | intros [data Hd]; discriminate].
      * intros errors Hf. apply failure_injective in Hf. subst errors.
      split; [reflexivity|].
        intros Hnil.
        apply (fields_valid_issues _ _ _ Unrefined_shape_follows) in Hnil. congruence.
Qed.

Section UnrefinedExample.
#[local] Existing Instance DecimalRuntime.decimalRuntime.

(** The same body is accepted by this copy and rejected by schema.ts. *)
Lemma unrefined_copy_checks_fields_only_witness :
  (exists data,
     safeParse Unrefined.clearHeatSchema (JObject defaultValues_without_spend)
     = success data)
  /\ safeParse Coerce.clearHeatSchema (JObject defaultValues_without_spend)
     = failure [mkIssue (custom "Required when bill mode is annual spend.")
                        ["annual_spend_eur"]].
Proof.
  split; [|reflexivity].
  apply (proj1 (proj1 (unrefined_copy_checks_fields_only defaultValues_without_spend))).
  vm_compute. reflexivity.
Defined.

End UnrefinedExample.

(** ** Navigation, and the frozen report of the second component *)

(** X19.  Back and Next undo each other between the steps: Next then Back
    from a step below the last, and Back then Next from a step above the
    first, give the state back.  Back does nothing on the first step and Next
    nothing on the last. *)
Theorem back_next_round_trip (s : WizardState) :
  (step s < 2 -> final (back (final (next s))) = s)
  /\ (0 < step s <= 2 -> final (next (final (back s))) = s)
  /\ (step s = 0 -> back s = mkOutcome s [] (Normal tt))
  /\ (step s = 2 -> next s = mkOutcome s [] (Normal tt)).
Proof.
  destruct s as [n r l i]. cbn [step].
  split; [|split; [|split]].
  - intros Hn. assert (Hlt : Nat.ltb n 2 = true) by now apply PeanoNat.Nat.ltb_lt.
    unfold next at 1. rewrite bind_getState. cbn [step]. rewrite Hlt.
    unfold setStep, effect. cbn [final step reportReady loading lastInputs].
    unfold back. rewrite bind_getState. cbn [step].
    replace (Nat.eqb (n + 1) 0) with false
      by (symmetry; apply PeanoNat.Nat.eqb_neq; lia).
    unfold setStep, effect. cbn [final step reportReady loading lastInputs].
    f_equal. lia.
  - intros [Hn Hle].
    unfold back at 1. rewrite bind_getState. cbn [step].
    replace (Nat.eqb n 0) with false by (symmetry; apply PeanoNat.Nat.eqb_neq; lia).
    unfold setStep, effect. cbn [final step reportReady loading lastInputs].
    unfold next. rewrite bind_getState. cbn [step].
    assert (Hlt : Nat.ltb (n - 1) 2 = true) by (apply PeanoNat.Nat.ltb_lt; lia).
    rewrite Hlt. unfold setStep, effect. cbn [final step reportReady loading lastInputs].
    f_equal. lia.
  - intros ->. reflexivity.
  - intros ->. reflexivity.
Qed.

Lemma back_next_round_trip_witness :
  final (back (final (next initialState))) = initialState.
Proof. apply (proj1 (back_next_round_trip initialState)). cbn. lia. Defined.

(** What a click logs once the report of the second component is ready. *)
Definition ready_log (values : JsValue) (a : CalculatorWizard2.Action) : list Effect :=
  match a with
  | CalculatorWizard2.ClickDownload net =>
      download_trace CalculatorWizard2.BACKEND_BASE values net
  | _ => []
  end.

(** X20.  In the component of part_001 a ready report is frozen: whatever is
    clicked afterwards, the state stays as it is, and the only thing logged
    is, for each download, the request carrying the stored inputs and the
    save of its answer. *)
Theorem ready_report_is_frozen (schema : ZodType) (s : WizardState) (values : JsValue)
        (actions : list CalculatorWizard2.Action) :
  reportReady s = true -> lastInputs s = Some values ->
  run (perform2 schema) actions s = (s, flat_map (ready_log values) actions).
Proof.
  intros Hready Hlast. induction actions as [|a rest IH]; [reflexivity|].
  cbn [run flat_map].
  assert (Hstep : final (perform2 schema a s) = s
                  /\ trace (perform2 schema a s) = ready_log values a).
  { unfold perform2. rewrite bind_getState.
    destruct a as [| |net formValues|net]; cbn [onScreen2 ready_log];
      rewrite Hready; cbn [negb]; try (split; reflexivity).
    cbn [CalculatorWizard2.perform].
    now apply clickDownload2_trace. }
  destruct (perform2 schema a s) as [s1 t1 c1]. cbn [final trace] in Hstep.
  destruct Hstep as [-> ->]. now rewrite IH.
Qed.

Section FrozenExample.
#[local] Existing Instance DecimalRuntime.decimalRuntime.

Lemma ready_report_is_frozen_witness :
  run (perform2 Coerce.clearHeatSchema)
      [ CalculatorWizard2.ClickBack;
        CalculatorWizard2.ClickGenerate http500 biggerHome;
        CalculatorWizard2.ClickDownload pdfResponse ]
      (mkState 2 true false (Some defaultValues))
  = (mkState 2 true false (Some defaultValues),
     download_trace CalculatorWizard2.BACKEND_BASE defaultValues pdfResponse).
Proof.
  rewrite (ready_report_is_frozen Coerce.clearHeatSchema
             (mkState 2 true false (Some defaultValues)) defaultValues
             [ CalculatorWizard2.ClickBack;
               CalculatorWizard2.ClickGenerate http500 biggerHome;
               CalculatorWizard2.ClickDownload pdfResponse ] eq_refl eq_refl).
  cbn [flat_map ready_log app]. now rewrite app_nil_r.
Defined.

End FrozenExample.
